(** * Spectron: Hamamatsu C12666MA acquisition driver and colorimetry

    A shallow embedding of [firmware/Spectron_12666/C12666MA.cpp] (the
    timing state machine, the ADC accumulation, the measurement
    processor and the exposure controller) and of
    [software/common/spectron_cct.cpp] (spectral data to XYZ, chromaticity
    and correlated colour temperature), with the properties of the
    design document proved or refuted against them.

    Conventions.
    - [uint32_t] and [uint8_t] values are [Z] with the wrap-around written
      out ([u32], [u8]); [int] arithmetic on the small constants of the
      driver is exact.
    - [float] and [double] values of the firmware are read as exact
      rationals ([Q]), without rounding, except in the step of the exposure
      search, whose truncated integer depends on it: there every [float]
      operation is rounded to the nearest binary32 number ([f32_round]).
      The colorimetry code uses [exp] and [sqrt] and is therefore embedded
      over the reals ([R]).
    - The two interrupt handlers: in [timerPeriod] the TRG handler runs
      between two ticks; in [timerPeriodAt] the next tick preempts it after
      a given number of its steps.
    - File-scope statics and the members of the [C12666MA] object are the
      fields of records; every routine is a function on those records.
    - [C12666MA.h] is not part of the sources at hand: the pixel count
      [SPEC_PIXELS] and the build switch [ADC_AVG_4] are parameters of the
      development, and its enumerations are inductive types. *)

From Stdlib Require Import ZArith QArith Qround Qabs Qpower Qminmax.
From Stdlib Require Import Lia Lqa List Bool.
From Stdlib Require Import Reals Lra.
From stdpp Require Import base list.
Import ListNotations.

Open Scope Z_scope.

(** ** Machine integers *)

Definition u32 (z : Z) : Z := z mod 2 ^ 32.
Definition u8 (z : Z) : Z := z mod 2 ^ 8.
Definition u16 (z : Z) : Z := z mod 2 ^ 16.

(** ** Counting loops

    [for (int i = start; i < stop; i += stride) body] with [stride >= 1]:
    [stop - start] rounds are always enough. *)

Fixpoint for_loop {S : Type} (fuel i stop stride : nat)
    (body : nat -> S -> S) (s : S) : S :=
  match fuel with
  | O => s
  | Datatypes.S fuel' =>
      if (i <? stop)%nat
      then for_loop fuel' (i + stride) stop stride body (body i s)
      else s
  end.

Definition for_range {S : Type} (start stop stride : nat)
    (body : nat -> S -> S) (s : S) : S :=
  for_loop (stop - start) start stop stride body s.

(** ** Enumerations *)

Inductive spec_state_t :=
  | SPEC_LEAD | SPEC_RESET | SPEC_RESET2 | SPEC_INTEGRATION
  | SPEC_READ | SPEC_TRAIL | SPEC_STOP.

(** Declared in [C12666MA.h]; the order of [adc_ref_t] is the order of the
    [adcVoltages] table it indexes. *)
Inductive gain_t := NO_GAIN | HIGH_GAIN.
Inductive adc_ref_t := ADC_2_5V | ADC_3V | ADC_4_096V | ADC_5V.
Inductive measure_t := MEASURE_RELATIVE | MEASURE_VOLTAGE | MEASURE_ABSOLUTE.
Inductive auto_measure_t :=
  | AUTO_FOR_SET_REF | AUTO_ALL_MIN_INTEG | AUTO_ALL_MAX_RANGE.

Definition spec_state_eqb (a b : spec_state_t) : bool :=
  match a, b with
  | SPEC_LEAD, SPEC_LEAD | SPEC_RESET, SPEC_RESET | SPEC_RESET2, SPEC_RESET2
  | SPEC_INTEGRATION, SPEC_INTEGRATION | SPEC_READ, SPEC_READ
  | SPEC_TRAIL, SPEC_TRAIL | SPEC_STOP, SPEC_STOP => true
  | _, _ => false
  end.

Definition measure_eqb (a b : measure_t) : bool :=
  match a, b with
  | MEASURE_RELATIVE, MEASURE_RELATIVE | MEASURE_VOLTAGE, MEASURE_VOLTAGE
  | MEASURE_ABSOLUTE, MEASURE_ABSOLUTE => true
  | _, _ => false
  end.

(** ** Compile-time constants *)

Definition TIMER_US_FACTOR : Z := 10.
Definition ADC_MAX_VALUE : Z := 65535.
Definition TICKS_PER_PIXEL : Z := 8.
Definition MIN_INTEG_TIME_US : Z := 1000.
Definition MAX_INTEG_TIME_US : Z := 10000000.
Definition DEF_LEAD_TICKS : Z := 64.
Definition TRAIL_TICKS : Z := 12.
Definition ST_BIT : Z := 1.
Definition READY_BIT : Z := 2.
Definition CLK_HIGH : Z := 1.
Definition LOW : Z := 0.
Definition HIGH : Z := 1.

Definition MIN_SAT_VOLTAGE_HIGH_GAIN : Q := 2.3.
Definition MAX_SAT_VOLTAGE_HIGH_GAIN : Q := 4.0.
Definition MIN_SAT_VOLTAGE_NO_GAIN : Q := 1.4.
Definition MAX_SAT_VOLTAGE_NO_GAIN : Q := 2.7.

Definition adcVoltages (r : adc_ref_t) : Q :=
  match r with
  | ADC_2_5V => 2.5
  | ADC_3V => 3.0
  | ADC_4_096V => 4.096
  | ADC_5V => 5.0
  end.

(** A pin of the board, or [NO_PIN]. *)
Definition pin := option nat.
Definition NO_PIN : pin := None.

Definition is_pin (p : pin) : bool :=
  match p with Some _ => true | None => false end.

(** Output latch of the GPIO ports: the level driven on each pin. *)
Definition gpio := nat -> bool.

Definition pinWrite (p : pin) (v : bool) (g : gpio) : gpio :=
  match p with
  | Some n => fun m => if Nat.eqb m n then v else g m
  | None => g
  end.

Definition pinSetFast (p : pin) : gpio -> gpio := pinWrite p true.
Definition pinResetFast (p : pin) : gpio -> gpio := pinWrite p false.

(** [pinSetVal(pin,val)]: [if (val) pinSetFast(pin); else pinResetFast(pin)]. *)
Definition pinSetVal (p : pin) (val : Z) : gpio -> gpio :=
  if val =? 0 then pinResetFast p else pinSetFast p.

Definition pinLevel (p : pin) (g : gpio) : bool :=
  match p with Some n => g n | None => false end.

(** ** State

    Values stored in the emulated EEPROM. *)
Inductive eeprom_val :=
  | EGain (g : gain_t)
  | ERef (r : adc_ref_t)
  | EWord (w : Z)
  | EFloat (q : Q).

(** Offsets from [EEPROM_C12666_BASE_ADDR]. *)
Definition EEPROM_GAIN_ADDR : Z := 0.
Definition EEPROM_ADC_REF_ADDR : Z := 4.
Definition EEPROM_MEASURE_TYPE_ADDR : Z := 8.
Definition EEPROM_INTEGRATION_TIME : Z := 12.
Definition EEPROM_TRG_MEAS_DELAY : Z := 16.
Definition EEPROM_SAT_VOLTAGE_HIGH_GAIN : Z := 20.
Definition EEPROM_SAT_VOLTAGE_NO_GAIN : Z := 24.

Definition EEPROM_put (addr : Z) (v : eeprom_val)
    (e : Z -> option eeprom_val) : Z -> option eeprom_val :=
  fun a => if a =? addr then Some v else e a.

(** The file-scope statics of [C12666MA.cpp], followed by the hardware they
    talk to: the GPIO output latch [pins], the pending bit of the software
    raised TRG interrupt, the codes the AD7980 will deliver ([adcInput], read
    in order, [adcReads] counts the conversions done) and the EEPROM.
    [specData] and [specDataCounter] are cursors into [data] and
    [dataCounts]; [None] is the null pointer. *)
Record Statics := mkStatics {
  measuringData_ : bool;
  timerOn : bool;
  specState : spec_state_t;
  specDataReady : bool;
  specCLK : Z;
  specST : Z;
  specCounter : Z;
  extTRGCounter : Z;
  specData : option nat;
  specDataCounter : option nat;
  INTEG_TICKS : Z;
  LEAD_TICKS : Z;
  specRead : list Z;
  adcPinCNV : pin;
  specPinCLK : pin;
  specPinST : pin;
  extPinTRG : pin;
  extPinLIGHT : pin;
  data : list Z;
  dataCounts : list Z;
  pins : gpio;
  trgPending : bool;
  adcReads : nat;
  adcInput : nat -> Z;
  eeprom : Z -> option eeprom_val
}.

(** The members of the [C12666MA] object. *)
Record C12666MA := mkC12666MA {
  spec_gain_ : pin;
  ext_trg_ : pin;
  ext_trg_ls_ : pin;
  adc_ref_sel1_ : pin;
  adc_ref_sel2_ : pin;
  adc_cnv_ : pin;
  calibration_ : list Q;
  applyBandPassCorrection_ : bool;
  measurementType_ : measure_t;
  gain_ : gain_t;
  adcRef_ : adc_ref_t;
  extTrgMeasDelayUs_ : Z;
  satVoltageHighGain_ : Q;
  satVoltageNoGain_ : Q;
  blackLevels_ : list Q;
  data_ : list Q
}.

(** Assignments to one static or member. *)
Definition set_measuringData_ (v : bool) (s : Statics) : Statics :=
  mkStatics v (timerOn s) (specState s) (specDataReady s) (specCLK s)
    (specST s) (specCounter s) (extTRGCounter s) (specData s)
    (specDataCounter s) (INTEG_TICKS s) (LEAD_TICKS s) (specRead s)
    (adcPinCNV s) (specPinCLK s) (specPinST s) (extPinTRG s) (extPinLIGHT s)
    (data s) (dataCounts s) (pins s) (trgPending s) (adcReads s) (adcInput
    s) (eeprom s).
Definition set_timerOn (v : bool) (s : Statics) : Statics :=
  mkStatics (measuringData_ s) v (specState s) (specDataReady s) (specCLK s)
    (specST s) (specCounter s) (extTRGCounter s) (specData s)
    (specDataCounter s) (INTEG_TICKS s) (LEAD_TICKS s) (specRead s)
    (adcPinCNV s) (specPinCLK s) (specPinST s) (extPinTRG s) (extPinLIGHT s)
    (data s) (dataCounts s) (pins s) (trgPending s) (adcReads s) (adcInput
    s) (eeprom s).
Definition set_specState (v : spec_state_t) (s : Statics) : Statics :=
  mkStatics (measuringData_ s) (timerOn s) v (specDataReady s) (specCLK s)
    (specST s) (specCounter s) (extTRGCounter s) (specData s)
    (specDataCounter s) (INTEG_TICKS s) (LEAD_TICKS s) (specRead s)
    (adcPinCNV s) (specPinCLK s) (specPinST s) (extPinTRG s) (extPinLIGHT s)
    (data s) (dataCounts s) (pins s) (trgPending s) (adcReads s) (adcInput
    s) (eeprom s).
Definition set_specDataReady (v : bool) (s : Statics) : Statics :=
  mkStatics (measuringData_ s) (timerOn s) (specState s) v (specCLK s)
    (specST s) (specCounter s) (extTRGCounter s) (specData s)
    (specDataCounter s) (INTEG_TICKS s) (LEAD_TICKS s) (specRead s)
    (adcPinCNV s) (specPinCLK s) (specPinST s) (extPinTRG s) (extPinLIGHT s)
    (data s) (dataCounts s) (pins s) (trgPending s) (adcReads s) (adcInput
    s) (eeprom s).
Definition set_specCLK (v : Z) (s : Statics) : Statics :=
  mkStatics (measuringData_ s) (timerOn s) (specState s) (specDataReady s) v
    (specST s) (specCounter s) (extTRGCounter s) (specData s)
    (specDataCounter s) (INTEG_TICKS s) (LEAD_TICKS s) (specRead s)
    (adcPinCNV s) (specPinCLK s) (specPinST s) (extPinTRG s) (extPinLIGHT s)
    (data s) (dataCounts s) (pins s) (trgPending s) (adcReads s) (adcInput
    s) (eeprom s).
Definition set_specST (v : Z) (s : Statics) : Statics :=
  mkStatics (measuringData_ s) (timerOn s) (specState s) (specDataReady s)
    (specCLK s) v (specCounter s) (extTRGCounter s) (specData s)
    (specDataCounter s) (INTEG_TICKS s) (LEAD_TICKS s) (specRead s)
    (adcPinCNV s) (specPinCLK s) (specPinST s) (extPinTRG s) (extPinLIGHT s)
    (data s) (dataCounts s) (pins s) (trgPending s) (adcReads s) (adcInput
    s) (eeprom s).
Definition set_specCounter (v : Z) (s : Statics) : Statics :=
  mkStatics (measuringData_ s) (timerOn s) (specState s) (specDataReady s)
    (specCLK s) (specST s) v (extTRGCounter s) (specData s) (specDataCounter
    s) (INTEG_TICKS s) (LEAD_TICKS s) (specRead s) (adcPinCNV s) (specPinCLK
    s) (specPinST s) (extPinTRG s) (extPinLIGHT s) (data s) (dataCounts s)
    (pins s) (trgPending s) (adcReads s) (adcInput s) (eeprom s).
Definition set_extTRGCounter (v : Z) (s : Statics) : Statics :=
  mkStatics (measuringData_ s) (timerOn s) (specState s) (specDataReady s)
    (specCLK s) (specST s) (specCounter s) v (specData s) (specDataCounter
    s) (INTEG_TICKS s) (LEAD_TICKS s) (specRead s) (adcPinCNV s) (specPinCLK
    s) (specPinST s) (extPinTRG s) (extPinLIGHT s) (data s) (dataCounts s)
    (pins s) (trgPending s) (adcReads s) (adcInput s) (eeprom s).
Definition set_specData (v : option nat) (s : Statics) : Statics :=
  mkStatics (measuringData_ s) (timerOn s) (specState s) (specDataReady s)
    (specCLK s) (specST s) (specCounter s) (extTRGCounter s) v
    (specDataCounter s) (INTEG_TICKS s) (LEAD_TICKS s) (specRead s)
    (adcPinCNV s) (specPinCLK s) (specPinST s) (extPinTRG s) (extPinLIGHT s)
    (data s) (dataCounts s) (pins s) (trgPending s) (adcReads s) (adcInput
    s) (eeprom s).
Definition set_specDataCounter (v : option nat) (s : Statics) : Statics :=
  mkStatics (measuringData_ s) (timerOn s) (specState s) (specDataReady s)
    (specCLK s) (specST s) (specCounter s) (extTRGCounter s) (specData s) v
    (INTEG_TICKS s) (LEAD_TICKS s) (specRead s) (adcPinCNV s) (specPinCLK s)
    (specPinST s) (extPinTRG s) (extPinLIGHT s) (data s) (dataCounts s)
    (pins s) (trgPending s) (adcReads s) (adcInput s) (eeprom s).
Definition set_INTEG_TICKS (v : Z) (s : Statics) : Statics :=
  mkStatics (measuringData_ s) (timerOn s) (specState s) (specDataReady s)
    (specCLK s) (specST s) (specCounter s) (extTRGCounter s) (specData s)
    (specDataCounter s) v (LEAD_TICKS s) (specRead s) (adcPinCNV s)
    (specPinCLK s) (specPinST s) (extPinTRG s) (extPinLIGHT s) (data s)
    (dataCounts s) (pins s) (trgPending s) (adcReads s) (adcInput s) (eeprom
    s).
Definition set_LEAD_TICKS (v : Z) (s : Statics) : Statics :=
  mkStatics (measuringData_ s) (timerOn s) (specState s) (specDataReady s)
    (specCLK s) (specST s) (specCounter s) (extTRGCounter s) (specData s)
    (specDataCounter s) (INTEG_TICKS s) v (specRead s) (adcPinCNV s)
    (specPinCLK s) (specPinST s) (extPinTRG s) (extPinLIGHT s) (data s)
    (dataCounts s) (pins s) (trgPending s) (adcReads s) (adcInput s) (eeprom
    s).
Definition set_extPinTRG (v : pin) (s : Statics) : Statics :=
  mkStatics (measuringData_ s) (timerOn s) (specState s) (specDataReady s)
    (specCLK s) (specST s) (specCounter s) (extTRGCounter s) (specData s)
    (specDataCounter s) (INTEG_TICKS s) (LEAD_TICKS s) (specRead s)
    (adcPinCNV s) (specPinCLK s) (specPinST s) v (extPinLIGHT s) (data s)
    (dataCounts s) (pins s) (trgPending s) (adcReads s) (adcInput s) (eeprom
    s).
Definition set_extPinLIGHT (v : pin) (s : Statics) : Statics :=
  mkStatics (measuringData_ s) (timerOn s) (specState s) (specDataReady s)
    (specCLK s) (specST s) (specCounter s) (extTRGCounter s) (specData s)
    (specDataCounter s) (INTEG_TICKS s) (LEAD_TICKS s) (specRead s)
    (adcPinCNV s) (specPinCLK s) (specPinST s) (extPinTRG s) v (data s)
    (dataCounts s) (pins s) (trgPending s) (adcReads s) (adcInput s) (eeprom
    s).
Definition set_data (v : list Z) (s : Statics) : Statics :=
  mkStatics (measuringData_ s) (timerOn s) (specState s) (specDataReady s)
    (specCLK s) (specST s) (specCounter s) (extTRGCounter s) (specData s)
    (specDataCounter s) (INTEG_TICKS s) (LEAD_TICKS s) (specRead s)
    (adcPinCNV s) (specPinCLK s) (specPinST s) (extPinTRG s) (extPinLIGHT s)
    v (dataCounts s) (pins s) (trgPending s) (adcReads s) (adcInput s)
    (eeprom s).
Definition set_dataCounts (v : list Z) (s : Statics) : Statics :=
  mkStatics (measuringData_ s) (timerOn s) (specState s) (specDataReady s)
    (specCLK s) (specST s) (specCounter s) (extTRGCounter s) (specData s)
    (specDataCounter s) (INTEG_TICKS s) (LEAD_TICKS s) (specRead s)
    (adcPinCNV s) (specPinCLK s) (specPinST s) (extPinTRG s) (extPinLIGHT s)
    (data s) v (pins s) (trgPending s) (adcReads s) (adcInput s) (eeprom s).
Definition set_pins (v : gpio) (s : Statics) : Statics :=
  mkStatics (measuringData_ s) (timerOn s) (specState s) (specDataReady s)
    (specCLK s) (specST s) (specCounter s) (extTRGCounter s) (specData s)
    (specDataCounter s) (INTEG_TICKS s) (LEAD_TICKS s) (specRead s)
    (adcPinCNV s) (specPinCLK s) (specPinST s) (extPinTRG s) (extPinLIGHT s)
    (data s) (dataCounts s) v (trgPending s) (adcReads s) (adcInput s)
    (eeprom s).
Definition set_trgPending (v : bool) (s : Statics) : Statics :=
  mkStatics (measuringData_ s) (timerOn s) (specState s) (specDataReady s)
    (specCLK s) (specST s) (specCounter s) (extTRGCounter s) (specData s)
    (specDataCounter s) (INTEG_TICKS s) (LEAD_TICKS s) (specRead s)
    (adcPinCNV s) (specPinCLK s) (specPinST s) (extPinTRG s) (extPinLIGHT s)
    (data s) (dataCounts s) (pins s) v (adcReads s) (adcInput s) (eeprom s).
Definition set_adcReads (v : nat) (s : Statics) : Statics :=
  mkStatics (measuringData_ s) (timerOn s) (specState s) (specDataReady s)
    (specCLK s) (specST s) (specCounter s) (extTRGCounter s) (specData s)
    (specDataCounter s) (INTEG_TICKS s) (LEAD_TICKS s) (specRead s)
    (adcPinCNV s) (specPinCLK s) (specPinST s) (extPinTRG s) (extPinLIGHT s)
    (data s) (dataCounts s) (pins s) (trgPending s) v (adcInput s) (eeprom
    s).
Definition set_eeprom (v : Z -> option eeprom_val) (s : Statics) : Statics :=
  mkStatics (measuringData_ s) (timerOn s) (specState s) (specDataReady s)
    (specCLK s) (specST s) (specCounter s) (extTRGCounter s) (specData s)
    (specDataCounter s) (INTEG_TICKS s) (LEAD_TICKS s) (specRead s)
    (adcPinCNV s) (specPinCLK s) (specPinST s) (extPinTRG s) (extPinLIGHT s)
    (data s) (dataCounts s) (pins s) (trgPending s) (adcReads s) (adcInput
    s) v.
Definition set_applyBandPassCorrection_ (v : bool) (o : C12666MA) : C12666MA :=
  mkC12666MA (spec_gain_ o) (ext_trg_ o) (ext_trg_ls_ o) (adc_ref_sel1_ o)
    (adc_ref_sel2_ o) (adc_cnv_ o) (calibration_ o) v (measurementType_ o)
    (gain_ o) (adcRef_ o) (extTrgMeasDelayUs_ o) (satVoltageHighGain_ o)
    (satVoltageNoGain_ o) (blackLevels_ o) (data_ o).
Definition set_gain_ (v : gain_t) (o : C12666MA) : C12666MA :=
  mkC12666MA (spec_gain_ o) (ext_trg_ o) (ext_trg_ls_ o) (adc_ref_sel1_ o)
    (adc_ref_sel2_ o) (adc_cnv_ o) (calibration_ o)
    (applyBandPassCorrection_ o) (measurementType_ o) v (adcRef_ o)
    (extTrgMeasDelayUs_ o) (satVoltageHighGain_ o) (satVoltageNoGain_ o)
    (blackLevels_ o) (data_ o).
Definition set_adcRef_ (v : adc_ref_t) (o : C12666MA) : C12666MA :=
  mkC12666MA (spec_gain_ o) (ext_trg_ o) (ext_trg_ls_ o) (adc_ref_sel1_ o)
    (adc_ref_sel2_ o) (adc_cnv_ o) (calibration_ o)
    (applyBandPassCorrection_ o) (measurementType_ o) (gain_ o) v
    (extTrgMeasDelayUs_ o) (satVoltageHighGain_ o) (satVoltageNoGain_ o)
    (blackLevels_ o) (data_ o).
Definition set_satVoltageHighGain_ (v : Q) (o : C12666MA) : C12666MA :=
  mkC12666MA (spec_gain_ o) (ext_trg_ o) (ext_trg_ls_ o) (adc_ref_sel1_ o)
    (adc_ref_sel2_ o) (adc_cnv_ o) (calibration_ o)
    (applyBandPassCorrection_ o) (measurementType_ o) (gain_ o) (adcRef_ o)
    (extTrgMeasDelayUs_ o) v (satVoltageNoGain_ o) (blackLevels_ o) (data_
    o).
Definition set_satVoltageNoGain_ (v : Q) (o : C12666MA) : C12666MA :=
  mkC12666MA (spec_gain_ o) (ext_trg_ o) (ext_trg_ls_ o) (adc_ref_sel1_ o)
    (adc_ref_sel2_ o) (adc_cnv_ o) (calibration_ o)
    (applyBandPassCorrection_ o) (measurementType_ o) (gain_ o) (adcRef_ o)
    (extTrgMeasDelayUs_ o) (satVoltageHighGain_ o) v (blackLevels_ o) (data_
    o).
Definition set_blackLevels_ (v : list Q) (o : C12666MA) : C12666MA :=
  mkC12666MA (spec_gain_ o) (ext_trg_ o) (ext_trg_ls_ o) (adc_ref_sel1_ o)
    (adc_ref_sel2_ o) (adc_cnv_ o) (calibration_ o)
    (applyBandPassCorrection_ o) (measurementType_ o) (gain_ o) (adcRef_ o)
    (extTrgMeasDelayUs_ o) (satVoltageHighGain_ o) (satVoltageNoGain_ o) v
    (data_ o).
Definition set_data_ (v : list Q) (o : C12666MA) : C12666MA :=
  mkC12666MA (spec_gain_ o) (ext_trg_ o) (ext_trg_ls_ o) (adc_ref_sel1_ o)
    (adc_ref_sel2_ o) (adc_cnv_ o) (calibration_ o)
    (applyBandPassCorrection_ o) (measurementType_ o) (gain_ o) (adcRef_ o)
    (extTrgMeasDelayUs_ o) (satVoltageHighGain_ o) (satVoltageNoGain_ o)
    (blackLevels_ o) v.

Definition set_calibration_ (v : list Q) (o : C12666MA) : C12666MA :=
  mkC12666MA (spec_gain_ o) (ext_trg_ o) (ext_trg_ls_ o) (adc_ref_sel1_ o)
    (adc_ref_sel2_ o) (adc_cnv_ o) v (applyBandPassCorrection_ o)
    (measurementType_ o) (gain_ o) (adcRef_ o) (extTrgMeasDelayUs_ o)
    (satVoltageHighGain_ o) (satVoltageNoGain_ o) (blackLevels_ o) (data_
    o).
Definition set_measurementType_ (v : measure_t) (o : C12666MA) : C12666MA :=
  mkC12666MA (spec_gain_ o) (ext_trg_ o) (ext_trg_ls_ o) (adc_ref_sel1_ o)
    (adc_ref_sel2_ o) (adc_cnv_ o) (calibration_ o)
    (applyBandPassCorrection_ o) v (gain_ o) (adcRef_ o) (extTrgMeasDelayUs_
    o) (satVoltageHighGain_ o) (satVoltageNoGain_ o) (blackLevels_ o) (data_
    o).
Definition set_extTrgMeasDelayUs_ (v : Z) (o : C12666MA) : C12666MA :=
  mkC12666MA (spec_gain_ o) (ext_trg_ o) (ext_trg_ls_ o) (adc_ref_sel1_ o)
    (adc_ref_sel2_ o) (adc_cnv_ o) (calibration_ o)
    (applyBandPassCorrection_ o) (measurementType_ o) (gain_ o) (adcRef_ o)
    v (satVoltageHighGain_ o) (satVoltageNoGain_ o) (blackLevels_ o) (data_
    o).

(** ** Comparisons and conversions of floating point values *)

Definition Qltb (x y : Q) : bool := negb (Qle_bool y x).
Definition Qleb (x y : Q) : bool := Qle_bool x y.

(** Truncation towards zero. *)
Definition Qtrunc (q : Q) : Z :=
  if Qle_bool 0 q then Qfloor q else Qceiling q.

(** Conversion of a [float] to [uint32_t]: defined only when the truncated
    value is representable. *)
Definition f32_to_u32 (q : Q) : option Z :=
  let z := Qtrunc q in
  if (0 <=? z) && (z <? 2 ^ 32) then Some z else None.

(** ** Single precision arithmetic

    Rounding to the nearest binary32 number, a tie to the even one, as the
    [float] operations of the firmware round. *)

(** [floor (log2 |q|)], for [q] other than 0. *)
Definition Qlog2 (q : Q) : Z :=
  let e := Z.log2 (Z.abs (Qnum q)) - Z.log2 (Zpos (Qden q)) in
  if Qle_bool (2 ^ e) (Qabs q) then e else e - 1.

(** The nearest integer, a tie going to the even one. *)
Definition roundHalfEven (q : Q) : Z :=
  let f := Qfloor q in
  match (q - inject_Z f ?= 1 # 2)%Q with
  | Lt => f
  | Gt => f + 1
  | Eq => if Z.even f then f else f + 1
  end.

(** The exponent of the unit in the last place of the binary32 numbers
    around [q]: 24 significant bits, the least unit [2 ^ -149]. *)
Definition f32_ulp (q : Q) : Z := Z.max (-149) (Qlog2 q - 23).

(** The binary32 number nearest to [q], were the exponent unbounded
    above. *)
Definition f32_nearest (q : Q) : Q :=
  let e := f32_ulp q in
  (inject_Z (roundHalfEven (q / 2 ^ e)) * 2 ^ e)%Q.

(** The result of a [float] operation whose exact value is [q]; an
    overflow (an infinity in the firmware) has no value here. *)
Definition f32_round (q : Q) : option Q :=
  let r := f32_nearest q in
  if Qle_bool (2 ^ 128) (Qabs r) then None else Some r.

(** [q] is a [float]. *)
Definition is_f32 (q : Q) : Prop :=
  match f32_round q with Some r => (r == q)%Q | None => False end.

(** [q] is a multiple of the least unit [2 ^ -149]. *)
Definition f32_grid (q : Q) : Prop :=
  exists z : Z, (q == inject_Z z * 2 ^ (-149))%Q.

(** The driver object together with the statics of its translation unit. *)
Definition Dev : Type := C12666MA * Statics.

(** The pixel count [SPEC_PIXELS] (256 for the C12666MA) and whether the
    build defines [ADC_AVG_4] (four ADC reads per pixel instead of two). *)
Class Build := { SPEC_PIXELS : nat; ADC_AVG_4 : bool }.

(** The two builds for the 256 pixels of the C12666MA. *)
Definition c12666ma : Build := {| SPEC_PIXELS := 256; ADC_AVG_4 := false |}.
Definition c12666ma_avg4 : Build := {| SPEC_PIXELS := 256; ADC_AVG_4 := true |}.

Section Firmware.

Context {build : Build}.

Definition SPEC_CLK_TICK_TIMER : Z := if ADC_AVG_4 then 85 else 50.

(** [ticksToUsec(x)] and [uSecToTicks(x)] on a [uint32_t] argument. *)
Definition ticksToUsec (x : Z) : Z :=
  u32 (x * SPEC_CLK_TICK_TIMER) / TIMER_US_FACTOR.
Definition uSecToTicks (x : Z) : Z :=
  u32 (x * TIMER_US_FACTOR) / SPEC_CLK_TICK_TIMER.

Definition READ_TICKS : Z :=
  Z.of_nat SPEC_PIXELS * TICKS_PER_PIXEL + TRAIL_TICKS.
Definition EXT_TRG_HIGH_TICKS : Z := uSecToTicks 1000.

(** *** The waveform table *)

(** [x &= ~ST_BIT] and [x |= READY_BIT] on a table entry. *)
Definition clearST (x : Z) : Z := u8 (Z.land x (Z.lnot ST_BIT)).
Definition setReady (x : Z) : Z := Z.lor x READY_BIT.

Definition initSpecTimerData (specRead : list Z) : list Z :=
  let specRead :=
    for_range 0 (Z.to_nat READ_TICKS) 1
      (fun i t => <[i := Z.lor 0 ST_BIT]> t) specRead in
  let specRead := alter clearST 0%nat specRead in
  let specRead := alter clearST 1%nat specRead in
  for_range 7 (Z.to_nat (Z.of_nat SPEC_PIXELS * TICKS_PER_PIXEL + 1))
    (Z.to_nat TICKS_PER_PIXEL)
    (fun i t => alter setReady i t) specRead.

(** [static uint8_t specRead[READ_TICKS]]: zero until the constructor runs. *)
Definition specRead0 : list Z := replicate (Z.to_nat READ_TICKS) 0.

Definition has_ready (x : Z) : bool := negb (Z.land x READY_BIT =? 0).
Definition has_st (x : Z) : bool := negb (Z.land x ST_BIT =? 0).

(** Number of table entries that raise the data-ready signal. *)
Definition countReady (t : list Z) : nat := length (List.filter has_ready t).

(** The phases of [initSpecTimerData]: the table with ST filled in, and the
    table after the first [n] rounds of the READY loop. *)
Definition stTable (t : list Z) : list Z :=
  alter clearST 1%nat
    (alter clearST 0%nat
       (fold_left (fun t k => <[(0 + k * 1)%nat := Z.lor 0 ST_BIT]> t)
          (seq 0 (Z.to_nat READ_TICKS)) t)).

Definition readyRounds (n : nat) (base : list Z) : list Z :=
  fold_left (fun t k => alter setReady (7 + k * 8)%nat t) (seq 0 n) base.

(** *** Timer and spectrometer clock handling *)

(** [specRead[i]]; the handlers only index inside the table. *)
Definition tableAt (s : Statics) (i : Z) : Z :=
  nth (Z.to_nat i) (specRead s) 0.

(** One conversion of the AD7980: pulse CNV, then read the 16 bit code from
    the SPI data register. *)
Definition adcConvert (s : Statics) : Z * Statics :=
  let s := set_pins (pinSetFast (adcPinCNV s) (pins s)) s in
  let s := set_pins (pinResetFast (adcPinCNV s) (pins s)) s in
  (u16 (adcInput s (adcReads s)), set_adcReads (S (adcReads s)) s).

(** The first read of a burst overwrites the sum of the pixel, the later
    ones add to it; each one increments the sample count of the pixel. *)
Definition storeFirst (d c : nat) (v : Z) (s : Statics) : Statics :=
  let s := set_data (<[d := v]> (data s)) s in
  set_dataCounts (alter (fun n => u8 (n + 1)) c (dataCounts s)) s.

Definition storeNext (d c : nat) (v : Z) (s : Statics) : Statics :=
  let s := set_data (alter (fun x => u32 (x + v)) d (data s)) s in
  set_dataCounts (alter (fun n => u8 (n + 1)) c (dataCounts s)) s.

(** A further read of the burst: given up when [specDataReady] is cleared,
    before the conversion or before the result is stored.  [k] is the rest
    of the burst. *)
Definition readAgain (d c : nat) (k : Statics -> Statics) (s : Statics)
    : Statics :=
  if negb (specDataReady s) then s
  else
    let (v, s) := adcConvert s in
    let s := if specDataReady s then storeNext d c v s else s in
    k s.

(** [readADC(data, dataCounter)] run between two ticks, [specDataReady]
    not changing while it runs; [trgStep] below is the handler that a tick
    cuts short. *)
Definition readADC (d c : nat) (s : Statics) : Statics :=
  let (v, s) := adcConvert s in
  let s := storeFirst d c v s in
  if ADC_AVG_4
  then readAgain d c (readAgain d c (readAgain d c (fun s => s))) s
  else readAgain d c (fun s => s) s.

(** [spectroTRGInterrupt]: the handler of the software raised TRG line.
    The chained system handler [sysIrqHandler] is outside the driver. *)
Definition spectroTRGInterrupt (s : Statics) : Statics :=
  if trgPending s then
    let s := set_trgPending false s in
    match specDataReady s, specData s, specDataCounter s with
    | true, Some d, Some c =>
        let s := set_specData (Some (S d)) s in
        let s := set_specDataCounter (Some (S c)) s in
        readADC d c s
    | _, _, _ => s
    end
  else s.

(** The [switch (specState)] of the clock interrupt. *)
Definition clockStateMachine (s : Statics) : Statics :=
  match specState s with
  | SPEC_LEAD =>
      let s := set_specCounter (u32 (specCounter s + 1)) s in
      if specCounter s =? LEAD_TICKS s then
        let s := set_specCounter 0 s in
        let s := set_specState SPEC_RESET s in
        set_specST (Z.land (tableAt s 0) ST_BIT) s
      else s
  | SPEC_RESET =>
      let s := set_specCounter (u32 (specCounter s + 1)) s in
      let s :=
        if specCounter s =? READ_TICKS then
          let s := set_specCounter 0 s in
          set_specState SPEC_RESET2 s
        else s in
      set_specST (Z.land (tableAt s (specCounter s)) ST_BIT) s
  | SPEC_RESET2 =>
      let s := set_specCounter (u32 (specCounter s + 1)) s in
      if specCounter s =? READ_TICKS then
        let s := set_specCounter 0 s in
        let s := set_specState SPEC_INTEGRATION s in
        if is_pin (extPinLIGHT s)
        then set_pins (pinSetFast (extPinLIGHT s) (pins s)) s
        else s
      else set_specST (Z.land (tableAt s (specCounter s)) ST_BIT) s
  | SPEC_INTEGRATION =>
      let s := set_specCounter (u32 (specCounter s + 1)) s in
      if specCounter s =? INTEG_TICKS s then
        let s := set_specCounter 0 s in
        let s := set_specState SPEC_READ s in
        set_specST (Z.land (tableAt s 0) ST_BIT) s
      else s
  | SPEC_READ =>
      let s :=
        if negb (Z.land (tableAt s (specCounter s)) READY_BIT =? 0) then
          let s := set_specDataReady true s in
          set_trgPending true s
        else set_specDataReady false s in
      let s := set_specCounter (u32 (specCounter s + 1)) s in
      if specCounter s =? READ_TICKS then
        let s := set_specCounter 0 s in
        let s := set_specState SPEC_TRAIL s in
        let s := set_specData None s in
        set_specDataCounter None s
      else set_specST (Z.land (tableAt s (specCounter s)) ST_BIT) s
  | SPEC_TRAIL =>
      let s := set_specCounter (u32 (specCounter s + 1)) s in
      if specCounter s =? TRAIL_TICKS then
        let s := set_specCounter 0 s in
        let s := set_specState SPEC_STOP s in
        let s := set_specCLK LOW s in
        let s := set_specST LOW s in
        if is_pin (extPinLIGHT s)
        then set_pins (pinResetFast (extPinLIGHT s) (pins s)) s
        else s
      else s
  | SPEC_STOP => set_specCLK LOW s
  end.

(** The down-counter of the external trigger. *)
Definition processTrigger (s : Statics) : Statics :=
  if negb (extTRGCounter s =? 0) then
    let s := set_extTRGCounter (u32 (extTRGCounter s - 1)) s in
    if extTRGCounter s =? EXT_TRG_HIGH_TICKS
    then set_pins (pinSetFast (extPinTRG s) (pins s)) s
    else if extTRGCounter s =? 0
    then set_pins (pinResetFast (extPinTRG s) (pins s)) s
    else s
  else s.

(** The head of the clock interrupt: CLK and ST are written out at once,
    then CLK is flipped. *)
Definition driveClock (s : Statics) : Statics :=
  let s := set_pins (pinSetVal (specPinCLK s) (specCLK s) (pins s)) s in
  let s := set_pins (pinSetVal (specPinST s) (specST s) (pins s)) s in
  set_specCLK (Z.lxor (specCLK s) CLK_HIGH) s.

(** [spectroClockInterrupt], entered on the update event of TIM7. *)
Definition spectroClockInterrupt (s : Statics) : Statics :=
  if negb (timerOn s) then s
  else
    let s := driveClock s in
    let s := clockStateMachine s in
    processTrigger s.

(** The local [delayTimeTicks] of [startSpecTimer]: the requested delay in
    ticks, made even. *)
Definition delayTimeTicks (extTrgMeasDelay : Z) : Z :=
  Z.land (uSecToTicks extTrgMeasDelay) (u32 (Z.lnot 1)).

(** [startSpecTimer]; of the timer and NVIC set-up only the cleared pending
    bit of the TRG line is state of the model. *)
Definition startSpecTimer (extTrgMeasDelay : Z) (doExtTriggering : bool)
    (s : Statics) : Statics :=
  if timerOn s then s
  else
    let s := set_timerOn true s in
    let s := set_specCounter 0 s in
    let s :=
      if doExtTriggering && is_pin (extPinTRG s) && (0 <? extTrgMeasDelay)
      then
        let delayTimeTicks := delayTimeTicks extTrgMeasDelay in
        let s :=
          if DEF_LEAD_TICKS + READ_TICKS + READ_TICKS <? delayTimeTicks
          then set_LEAD_TICKS (u32 (delayTimeTicks - READ_TICKS - READ_TICKS)) s
          else set_LEAD_TICKS DEF_LEAD_TICKS s in
        set_extTRGCounter
          (u32 (EXT_TRG_HIGH_TICKS + LEAD_TICKS s + READ_TICKS + READ_TICKS
                - delayTimeTicks)) s
      else
        let s := set_extTRGCounter 0 s in
        set_LEAD_TICKS DEF_LEAD_TICKS s in
    let s := set_specState SPEC_LEAD s in
    let s := set_specDataReady false s in
    let s := set_specST HIGH s in
    let s := set_specCLK CLK_HIGH s in
    let s := set_pins (pinResetFast (specPinCLK s) (pins s)) s in
    let s := set_pins (pinSetFast (specPinST s) (pins s)) s in
    let s :=
      if is_pin (extPinTRG s)
      then set_pins (pinResetFast (extPinTRG s) (pins s)) s else s in
    let s :=
      if is_pin (extPinLIGHT s)
      then set_pins (pinResetFast (extPinLIGHT s) (pins s)) s else s in
    set_trgPending false s.

Definition stopSpecTimer (s : Statics) : Statics :=
  let s := set_trgPending false s in
  let s := set_pins (pinResetFast (specPinCLK s) (pins s)) s in
  let s := set_pins (pinResetFast (specPinST s) (pins s)) s in
  let s :=
    if is_pin (extPinTRG s)
    then set_pins (pinResetFast (extPinTRG s) (pins s)) s else s in
  let s :=
    if is_pin (extPinLIGHT s)
    then set_pins (pinResetFast (extPinLIGHT s) (pins s)) s else s in
  set_timerOn false s.

(** [startADC] leaves the conversion pin low; the SPI set-up and [endADC]
    touch no state of the model. *)
Definition startADC (adc_cnv_pin : pin) (s : Statics) : Statics :=
  set_pins (pinResetFast adc_cnv_pin (pins s)) s.

Definition endADC (s : Statics) : Statics := s.

(** One timer period in which the TRG handler returns before the next
    tick: the clock interrupt, then the lower priority TRG interrupt if it
    was raised.  [timerPeriodAt] below is a period of any length. *)
Definition timerPeriod (s : Statics) : Statics :=
  spectroTRGInterrupt (spectroClockInterrupt s).

(** [while (specState != SPEC_STOP) ;] while the interrupts run. *)
Fixpoint waitForStop (fuel : nat) (s : Statics) : option Statics :=
  if spec_state_eqb (specState s) SPEC_STOP then Some s
  else
    match fuel with
    | O => None
    | S fuel' => waitForStop fuel' (timerPeriod s)
    end.

(** *** Integration time *)

Definition setIntTime (timeUs : Z) (storeInEeprom : bool) (s : Statics)
    : Statics :=
  if timerOn s then s
  else
    let intTime := u32 (timeUs * TIMER_US_FACTOR) in
    let minIntTime :=
      u32 (SPEC_CLK_TICK_TIMER * READ_TICKS
           + MIN_INTEG_TIME_US * TIMER_US_FACTOR) in
    let intTime := if intTime <? minIntTime then minIntTime else intTime in
    let intTime :=
      if MAX_INTEG_TIME_US * TIMER_US_FACTOR <? intTime
      then MAX_INTEG_TIME_US * TIMER_US_FACTOR else intTime in
    let s :=
      set_INTEG_TICKS (u32 (intTime / SPEC_CLK_TICK_TIMER - READ_TICKS + 1)) s in
    let s :=
      if INTEG_TICKS s =? 0
      then set_INTEG_TICKS (uSecToTicks MIN_INTEG_TIME_US) s else s in
    let s :=
      if negb (Z.land (INTEG_TICKS s) 1 =? 0)
      then set_INTEG_TICKS (u32 (INTEG_TICKS s + 1)) s else s in
    if storeInEeprom
    then set_eeprom (EEPROM_put EEPROM_INTEGRATION_TIME
                       (EWord (INTEG_TICKS s)) (eeprom s)) s
    else s.

Definition getIntTime (s : Statics) : Z :=
  ticksToUsec (u32 (INTEG_TICKS s + READ_TICKS)).

(** *** Measurement processor *)

(** The value stored for a pixel with sum [d] and a non-zero count [c]. *)
Definition convertReading (measurementType : measure_t)
    (adcRefVoltage satVoltage : Q) (d c : Z) : Q :=
  match measurementType with
  | MEASURE_VOLTAGE =>
      (inject_Z d * adcRefVoltage) / inject_Z (c * ADC_MAX_VALUE)
  | MEASURE_ABSOLUTE =>
      (inject_Z d * adcRefVoltage)
      / (satVoltage * inject_Z c * inject_Z ADC_MAX_VALUE)
  | MEASURE_RELATIVE =>
      inject_Z d / inject_Z (c * ADC_MAX_VALUE)
  end.

(** The body of the loop of [processMeasurement] for pixel [i], on the
    array [measurement] points to and the running maximum. *)
Definition processPixel (s : Statics) (measurementType : measure_t)
    (adcRefVoltage satVoltage : Q) (i : nat) (st : list Q * Q)
    : list Q * Q :=
  let '(measurement, maxVal) := st in
  let measurement := <[i := 0%Q]> measurement in
  let c := nth i (dataCounts s) 0 in
  let measurement :=
    if negb (c =? 0)
    then <[i := convertReading measurementType adcRefVoltage satVoltage
                   (nth i (data s) 0) c]> measurement
    else measurement in
  let v := nth i measurement 0%Q in
  (measurement, if Qltb maxVal v then v else maxVal).

(** [processMeasurement(measurement, measurementType)]: the new contents of
    the array [measurement] points to, and the returned maximum. *)
Definition processMeasurement (o : C12666MA) (s : Statics)
    (measurementType : measure_t) (measurement : list Q) : list Q * Q :=
  let maxVal := 0%Q in
  let adcRefVoltage := adcVoltages (adcRef_ o) in
  let satVoltage :=
    match gain_ o with
    | HIGH_GAIN => satVoltageHighGain_ o
    | NO_GAIN => satVoltageNoGain_ o
    end in
  for_range 0 SPEC_PIXELS 1
    (processPixel s measurementType adcRefVoltage satVoltage)
    (measurement, maxVal).

Definition resetBlackLevels (o : C12666MA) : C12666MA :=
  set_blackLevels_
    (for_range 0 SPEC_PIXELS 1 (fun i b => <[i := 0%Q]> b) (blackLevels_ o)) o.

(** *** Acquisition *)

(** [readSpectrometer(timeUs, doExtTriggering, doLightTriggering)]; [fuel]
    bounds the timer periods spent in the busy wait. *)
Definition readSpectrometer (fuel : nat) (o : C12666MA) (timeUs : Z)
    (doExtTriggering doLightTriggering : bool) (s : Statics)
    : option Statics :=
  if timerOn s then Some s
  else
    let savedIntegration := INTEG_TICKS s in
    let s := if 0 <? timeUs then setIntTime timeUs false s else s in
    let s := set_specData (Some 0%nat) s in
    let s := set_specDataCounter (Some 0%nat) s in
    let s :=
      for_range 0 SPEC_PIXELS 1
        (fun i s =>
           let s := set_data (<[i := 0]> (data s)) s in
           set_dataCounts (<[i := 0]> (dataCounts s)) s) s in
    let s := if doExtTriggering then set_extPinTRG (ext_trg_ o) s else s in
    let s :=
      if doLightTriggering then set_extPinLIGHT (ext_trg_ls_ o) s else s in
    let s := startADC (adc_cnv_ o) s in
    let s := startSpecTimer (extTrgMeasDelayUs_ o) doExtTriggering s in
    match waitForStop fuel s with
    | None => None
    | Some s =>
        let s := stopSpecTimer s in
        let s := endADC s in
        let s :=
          if 0 <? timeUs then set_INTEG_TICKS savedIntegration s else s in
        let s := set_extPinTRG NO_PIN s in
        Some (set_extPinLIGHT NO_PIN s)
    end.

Definition takeMeasurement (fuel : nat) (timeUs : Z) (doExtTriggering : bool)
    (d : Dev) : option Dev :=
  let (o, s) := d in
  if timerOn s || measuringData_ s then Some d
  else
    let s := set_measuringData_ true s in
    match readSpectrometer fuel o timeUs doExtTriggering doExtTriggering s with
    | None => None
    | Some s =>
        let o :=
          set_data_ (fst (processMeasurement o s (measurementType_ o) (data_ o))) o in
        Some (o, set_measuringData_ false s)
    end.

Definition takeBlackMeasurement (fuel : nat) (timeUs : Z) (d : Dev)
    : option Dev :=
  let (o, s) := d in
  if timerOn s || measuringData_ s then Some d
  else
    let s := set_measuringData_ true s in
    match readSpectrometer fuel o timeUs false false s with
    | None => None
    | Some s =>
        let o :=
          set_blackLevels_
            (fst (processMeasurement o s (measurementType_ o) (blackLevels_ o))) o in
        Some (o, set_measuringData_ false s)
    end.

(** *** Gain, reference and saturation voltages *)

Definition setGainInternal (gain : gain_t) (d : Dev) : Dev :=
  let (o, s) := d in
  let o := set_gain_ gain o in
  match gain_ o with
  | NO_GAIN => (o, set_pins (pinResetFast (spec_gain_ o) (pins s)) s)
  | HIGH_GAIN => (o, set_pins (pinSetFast (spec_gain_ o) (pins s)) s)
  end.

Definition adc_ref_code (r : adc_ref_t) : Z :=
  match r with ADC_2_5V => 0 | ADC_3V => 1 | ADC_4_096V => 2 | ADC_5V => 3 end.

Definition setAdcRefInternal (adcRef : adc_ref_t) (d : Dev) : Dev :=
  let (o, s) := d in
  let o := set_adcRef_ adcRef o in
  let s :=
    if negb (Z.land (adc_ref_code (adcRef_ o)) 1 =? 0)
    then set_pins (pinSetFast (adc_ref_sel1_ o) (pins s)) s
    else set_pins (pinResetFast (adc_ref_sel1_ o) (pins s)) s in
  let s :=
    if negb (Z.land (adc_ref_code (adcRef_ o)) 2 =? 0)
    then set_pins (pinSetFast (adc_ref_sel2_ o) (pins s)) s
    else set_pins (pinResetFast (adc_ref_sel2_ o) (pins s)) s in
  (o, s).

Definition setSaturationVoltages (satVoltageHighGain satVoltageNoGain : Q)
    (storeInEeprom : bool) (d : Dev) : Dev :=
  let (o, s) := d in
  let (o, s) :=
    if Qltb 0 satVoltageHighGain then
      let o :=
        if Qleb MIN_SAT_VOLTAGE_HIGH_GAIN satVoltageHighGain
           && Qleb satVoltageHighGain MAX_SAT_VOLTAGE_HIGH_GAIN
        then set_satVoltageHighGain_ satVoltageHighGain o
        else set_satVoltageHighGain_ MIN_SAT_VOLTAGE_HIGH_GAIN o in
      if storeInEeprom
      then (o, set_eeprom (EEPROM_put EEPROM_SAT_VOLTAGE_HIGH_GAIN
                             (EFloat (satVoltageHighGain_ o)) (eeprom s)) s)
      else (o, s)
    else (o, s) in
  if Qltb 0 satVoltageNoGain then
    let o :=
      if Qleb MIN_SAT_VOLTAGE_NO_GAIN satVoltageNoGain
         && Qleb satVoltageNoGain MAX_SAT_VOLTAGE_NO_GAIN
      then set_satVoltageNoGain_ satVoltageNoGain o
      else set_satVoltageNoGain_ MIN_SAT_VOLTAGE_NO_GAIN o in
    if storeInEeprom
    then (o, set_eeprom (EEPROM_put EEPROM_SAT_VOLTAGE_NO_GAIN
                           (EFloat (satVoltageNoGain_ o)) (eeprom s)) s)
    else (o, s)
  else (o, s).

(** *** Exposure controller *)

(** The cascade that selects the lowest reference voltage above [v]. *)
Definition selectAdcRef (v : Q) (d : Dev) : Dev :=
  if Qltb (adcVoltages ADC_3V) v then setAdcRefInternal ADC_4_096V d
  else if Qltb (adcVoltages ADC_2_5V) v then setAdcRefInternal ADC_3V d
  else setAdcRefInternal ADC_2_5V d.

(** [readSpectrometer(0, false, doExtTriggering)] followed by
    [processMeasurement(data_, MEASURE_VOLTAGE)]. *)
Definition acquireVoltage (fuel : nat) (doExtTriggering : bool) (d : Dev)
    : option (Dev * Q) :=
  let (o, s) := d in
  s ← readSpectrometer fuel o 0 false doExtTriggering s;
  let '(m, maxV) := processMeasurement o s MEASURE_VOLTAGE (data_ o) in
  Some ((set_data_ m o, s), maxV).

(** Line 1128, [((satVoltage-maxMeasuredVoltage)*(INTEG_TICKS+READ_TICKS))
    /maxMeasuredVoltage] assigned to a [uint32_t]: the difference, the
    conversion of the tick count, the product and the quotient are [float]
    operations, each rounded; the result is truncated.  A division by zero,
    an overflow and a quotient that does not fit [uint32_t] have no defined
    result. *)
Definition stepUp (satVoltage maxMeasuredVoltage : Q) (integ : Z)
    : option Z :=
  d ← f32_round (satVoltage - maxMeasuredVoltage);
  n ← f32_round (inject_Z (u32 (integ + READ_TICKS)));
  p ← f32_round (d * n);
  if Qeq_bool maxMeasuredVoltage 0 then None
  else q ← f32_round (p / maxMeasuredVoltage); f32_to_u32 q.

(** The increase or decrease of the integration inside the search loop: the
    new [INTEG_TICKS] and [intTicksStep]. *)
Definition searchStep (satVoltage maxMeasuredVoltage : Q)
    (integ intTicksStep : Z) : option (Z * Z) :=
  if Qltb maxMeasuredVoltage satVoltage then
    intTicksStep ← stepUp satVoltage maxMeasuredVoltage integ;
    Some (u32 (integ + intTicksStep), intTicksStep)
  else
    let intTicksStep := Z.shiftr intTicksStep 1 in
    Some (if integ <? intTicksStep then 0 else integ - intTicksStep,
          intTicksStep).

Definition checkLimits (integ : Z) : Z :=
  if integ <? uSecToTicks MIN_INTEG_TIME_US
  then uSecToTicks MIN_INTEG_TIME_US
  else if uSecToTicks MAX_INTEG_TIME_US <? integ
  then uSecToTicks MAX_INTEG_TIME_US
  else integ.

(** The [while (stillGoing)] loop; [rounds] bounds its iterations.  The
    watchdog check-in and [Particle.process()] of long integrations touch no
    state of the model. *)
Fixpoint integrationSearch (rounds fuel : nat) (doExtTriggering : bool)
    (satVoltage satVoltageLower : Q) (intTicksStep : Z)
    (maxMeasuredVoltage : Q) (d : Dev) : option Dev :=
  match rounds with
  | O => None
  | S rounds' =>
      let (o, s) := d in
      '(integ, intTicksStep) ←
        searchStep satVoltage maxMeasuredVoltage (INTEG_TICKS s) intTicksStep;
      let s := set_INTEG_TICKS (checkLimits integ) s in
      '(d, maxMeasuredVoltage) ← acquireVoltage fuel doExtTriggering (o, s);
      let (o, s) := (d : Dev) in
      if Qleb satVoltageLower maxMeasuredVoltage
         && Qltb maxMeasuredVoltage satVoltage
      then Some d
      else if (INTEG_TICKS s =? uSecToTicks MAX_INTEG_TIME_US)
              && Qltb maxMeasuredVoltage satVoltage
      then Some d
      else if (INTEG_TICKS s =? uSecToTicks MIN_INTEG_TIME_US)
              && Qltb satVoltage maxMeasuredVoltage
      then Some d
      else if intTicksStep <=? 2 then
        if Qltb satVoltage maxMeasuredVoltage then
          let s :=
            set_INTEG_TICKS
              (u32 (INTEG_TICKS s - u32 (Z.shiftl intTicksStep 1))) s in
          s ← readSpectrometer fuel o 0 false doExtTriggering s;
          Some (o, s)
        else Some d
      else
        integrationSearch rounds' fuel doExtTriggering satVoltage
          satVoltageLower intTicksStep maxMeasuredVoltage d
  end.

Definition is_set_ref (a : auto_measure_t) : bool :=
  match a with AUTO_FOR_SET_REF => true | _ => false end.
Definition is_min_integ (a : auto_measure_t) : bool :=
  match a with AUTO_ALL_MIN_INTEG => true | _ => false end.

(** [takeAutoMeasurement(autoType, doExtTriggering)]; the [delay(50)] calls
    touch no state of the model. *)
Definition takeAutoMeasurement (rounds fuel : nat) (autoType : auto_measure_t)
    (doExtTriggering : bool) (d : Dev) : option Dev :=
  let (o, s) := d in
  if timerOn s || measuringData_ s then Some d
  else
    let s := set_measuringData_ true s in
    let o := resetBlackLevels o in
    let d := setGainInternal HIGH_GAIN (o, s) in
    let satVoltage := satVoltageHighGain_ (fst d) in
    let d := if negb (is_set_ref autoType) then selectAdcRef satVoltage d else d in
    let d := (fst d, set_INTEG_TICKS (uSecToTicks MIN_INTEG_TIME_US) (snd d)) in
    '(d, maxMeasuredVoltage) ← acquireVoltage fuel doExtTriggering d;
    '(d, satVoltage, maxMeasuredVoltage) ←
      (if Qltb (satVoltageHighGain_ (fst (d : Dev))) maxMeasuredVoltage then
         let d := setGainInternal NO_GAIN d in
         let satVoltage := satVoltageNoGain_ (fst d) in
         let d :=
           if negb (is_set_ref autoType) then selectAdcRef satVoltage d else d in
         '(d, maxMeasuredVoltage) ← acquireVoltage fuel doExtTriggering d;
         Some (d, satVoltage, maxMeasuredVoltage)
       else Some (d, satVoltage, maxMeasuredVoltage));
    let d :=
      if Qltb maxMeasuredVoltage satVoltage && is_min_integ autoType
      then selectAdcRef maxMeasuredVoltage d else (d : Dev) in
    let satVoltage :=
      if Qltb (adcVoltages (adcRef_ (fst d))) satVoltage
      then adcVoltages (adcRef_ (fst d)) else satVoltage in
    let satVoltageLower := (satVoltage * 0.975)%Q in
    let satVoltage := (satVoltage * 0.99)%Q in
    let intTicksStep := INTEG_TICKS (snd d) in
    d ← (if Qltb maxMeasuredVoltage satVoltageLower
         then integrationSearch rounds fuel doExtTriggering satVoltage
                satVoltageLower intTicksStep maxMeasuredVoltage d
         else Some d);
    let (o, s) := (d : Dev) in
    let o :=
      set_data_ (fst (processMeasurement o s (measurementType_ o) (data_ o))) o in
    let s := set_measuringData_ false s in
    let s :=
      set_eeprom (EEPROM_put EEPROM_INTEGRATION_TIME
                    (EWord (INTEG_TICKS s)) (eeprom s)) s in
    let s :=
      set_eeprom (EEPROM_put EEPROM_GAIN_ADDR (EGain (gain_ o)) (eeprom s)) s in
    let s :=
      if negb (is_set_ref autoType)
      then set_eeprom (EEPROM_put EEPROM_ADC_REF_ADDR
                         (ERef (adcRef_ o)) (eeprom s)) s
      else s in
    Some (o, s).

(** *** Reading the results *)

Definition enableBandpassCorrection (enable : bool) (o : C12666MA)
    : C12666MA :=
  set_applyBandPassCorrection_ enable o.


(** [getData(pixelIdx, subtractBlack, data, black)]; reading outside an
    array has no value. *)
Definition getData (pixelIdx : nat) (subtractBlack : bool)
    (data black : list Q) : option Q :=
  if negb subtractBlack then data !! pixelIdx
  else
    d ← data !! pixelIdx;
    b ← black !! pixelIdx;
    Some (if Qltb d b then 0%Q else (d - b)%Q).

Definition getMeasurement (o : C12666MA) (pixelIdx : nat)
    (subtractBlack : bool) : option Q :=
  let get i := getData i subtractBlack (data_ o) (blackLevels_ o) in
  data ← get pixelIdx;
  if applyBandPassCorrection_ o then
    if (pixelIdx =? 0)%nat then
      next ← get (pixelIdx + 1)%nat;
      Some (1.083 * data - 0.083 * next)%Q
    else if Z.of_nat pixelIdx =? Z.of_nat SPEC_PIXELS - 1 then
      prev ← get (pixelIdx - 1)%nat;
      Some (1.083 * data - 0.083 * prev)%Q
    else
      prev ← get (pixelIdx - 1)%nat;
      next ← get (pixelIdx + 1)%nat;
      Some (1.166 * data - 0.083 * prev - 0.083 * next)%Q
  else Some data.

(** [getBlackMeasurement(pixelIdx)]: the black level of a pixel, with the
    same bandpass correction. *)
Definition getBlackMeasurement (o : C12666MA) (pixelIdx : nat) : option Q :=
  let get i := blackLevels_ o !! i in
  black ← get pixelIdx;
  if applyBandPassCorrection_ o then
    if (pixelIdx =? 0)%nat then
      next ← get (pixelIdx + 1)%nat;
      Some (1.083 * black - 0.083 * next)%Q
    else if Z.of_nat pixelIdx =? Z.of_nat SPEC_PIXELS - 1 then
      prev ← get (pixelIdx - 1)%nat;
      Some (1.083 * black - 0.083 * prev)%Q
    else
      prev ← get (pixelIdx - 1)%nat;
      next ← get (pixelIdx + 1)%nat;
      Some (1.166 * black - 0.083 * prev - 0.083 * next)%Q
  else Some black.

(** *** Configuration *)

(** [setExtTrgMeasDelay(extTrgMeasDelayUs, storeInEeprom)].  The argument is
    an [int32_t] and its product with [TIMER_US_FACTOR] is a signed 32 bit
    value: an overflow has no defined result.  The quotient (rounded towards
    zero) is then converted to [uint32_t]. *)
Definition setExtTrgMeasDelay (extTrgMeasDelayUs : Z) (storeInEeprom : bool)
    (d : Dev) : option Dev :=
  let (o, s) := d in
  if timerOn s then Some d
  else
    let ticks := extTrgMeasDelayUs * TIMER_US_FACTOR in
    if (- 2 ^ 31 <=? ticks) && (ticks <? 2 ^ 31) then
      let delayTimeTicks := u32 (Z.quot ticks SPEC_CLK_TICK_TIMER) in
      let delayTimeTicks :=
        if delayTimeTicks <? EXT_TRG_HIGH_TICKS
        then EXT_TRG_HIGH_TICKS else delayTimeTicks in
      let delayTimeTicks := Z.land delayTimeTicks (u32 (Z.lnot 1)) in
      let o :=
        set_extTrgMeasDelayUs_
          (if extTrgMeasDelayUs <? 0 then 0 else ticksToUsec delayTimeTicks)
          o in
      let s :=
        if storeInEeprom
        then set_eeprom (EEPROM_put EEPROM_TRG_MEAS_DELAY
                           (EWord (extTrgMeasDelayUs_ o)) (eeprom s)) s
        else s in
      Some (o, s)
    else None.

(** The integer a [measure_t] value is stored as; the enumeration is declared
    in [C12666MA.h]. *)
Variable measure_code : measure_t -> Z.

Definition setMeasurementType (measurementType : measure_t)
    (storeInEeprom : bool) (d : Dev) : Dev :=
  let (o, s) := d in
  if timerOn s || measuringData_ s then d
  else
    let o :=
      if negb (measure_eqb (measurementType_ o) measurementType)
      then resetBlackLevels o else o in
    let o := set_measurementType_ measurementType o in
    let s :=
      if storeInEeprom
      then set_eeprom (EEPROM_put EEPROM_MEASURE_TYPE_ADDR
                         (EWord (measure_code (measurementType_ o)))
                         (eeprom s)) s
      else s in
    (o, s).

(** [setGain] and [setAdcReference]; the closing [delay(200)] touches no
    state of the model. *)
Definition setGain (gain : gain_t) (storeInEeprom : bool) (d : Dev) : Dev :=
  let (o, s) := d in
  if timerOn s || measuringData_ s then d
  else
    let (o, s) := setGainInternal gain (o, s) in
    let s :=
      if storeInEeprom
      then set_eeprom (EEPROM_put EEPROM_GAIN_ADDR (EGain (gain_ o))
                         (eeprom s)) s
      else s in
    (o, s).

Definition setAdcReference (adcRef : adc_ref_t) (storeInEeprom : bool)
    (d : Dev) : Dev :=
  let (o, s) := d in
  if timerOn s || measuringData_ s then d
  else
    let (o, s) := setAdcRefInternal adcRef (o, s) in
    let s :=
      if storeInEeprom
      then set_eeprom (EEPROM_put EEPROM_ADC_REF_ADDR (ERef (adcRef_ o))
                         (eeprom s)) s
      else s in
    (o, s).

(** *** Measuring the saturation voltages *)

(** [getAveragedMax(maxVal, measurement)]: the mean of the readings within
    5% of the maximum. *)
Definition getAveragedMax (maxVal : Q) (measurement : list Q) : Q :=
  let '(avgMax, count) :=
    for_range 0 SPEC_PIXELS 1
      (fun i '(avgMax, count) =>
         if Qltb (maxVal * 0.95) (nth i measurement 0%Q)
         then ((avgMax + nth i measurement 0)%Q, count + 1)
         else (avgMax, count))
      (0%Q, 0) in
  if negb (count =? 0) then (avgMax / inject_Z count)%Q else maxVal.

(** [readSpectrometer(1000000, false, false)] followed by
    [processMeasurement(data_, MEASURE_VOLTAGE)]: one second of integration
    to saturate the sensor. *)
Definition saturatedReading (fuel : nat) (d : Dev) : option (Dev * Q) :=
  let (o, s) := d in
  s ← readSpectrometer fuel o 1000000 false false s;
  let '(m, maxVoltage) := processMeasurement o s MEASURE_VOLTAGE (data_ o) in
  Some ((set_data_ m o, s), maxVoltage).

(** [measureSaturationVoltages()].  [getGain()] and [getAdcReference()] are
    the accessors of [gain_] and [adcRef_]; the call of
    [setSaturationVoltages] leaves [storeInEeprom] to its default, which is
    declared in [C12666MA.h] and is the parameter [storeDefault] here. *)
Definition measureSaturationVoltages (storeDefault : bool) (fuel : nat)
    (d : Dev) : option Dev :=
  let (o, s) := d in
  let s := set_measuringData_ true s in
  let savedGain := gain_ o in
  let savedAdcRef := adcRef_ o in
  let d := setAdcRefInternal ADC_4_096V (o, s) in
  let d := setGainInternal HIGH_GAIN d in
  '(d, maxVoltage) ← saturatedReading fuel d;
  let hgSatVoltage := getAveragedMax maxVoltage (data_ (fst (d : Dev))) in
  let d := setGainInternal NO_GAIN d in
  '(d, maxVoltage) ← saturatedReading fuel d;
  let ngSatVoltage := getAveragedMax maxVoltage (data_ (fst (d : Dev))) in
  let d := setAdcRefInternal savedAdcRef d in
  let d := setGainInternal savedGain d in
  let d := (fst d, set_measuringData_ false (snd d)) in
  Some (setSaturationVoltages hgSatVoltage ngSatVoltage storeDefault d).

(** *** The measurement and the search step, in the words of the design

    The saturation voltage of the gain in use. *)
Definition satVoltageOf (o : C12666MA) : Q :=
  match gain_ o with
  | HIGH_GAIN => satVoltageHighGain_ o
  | NO_GAIN => satVoltageNoGain_ o
  end.

(** The design's measurement of a pixel with sum [S] and count [C]: zero
    without samples, else [S/(C*65535)], [S*Vref/(C*65535)] or
    [S*Vref/(C*65535*Vsat)]. *)
Definition measurementFormula (measurementType : measure_t) (S C : Z)
    (Vref Vsat : Q) : Q :=
  if C =? 0 then 0%Q
  else
    match measurementType with
    | MEASURE_RELATIVE => (inject_Z S / (inject_Z C * 65535))%Q
    | MEASURE_VOLTAGE => (inject_Z S * Vref / (inject_Z C * 65535))%Q
    | MEASURE_ABSOLUTE =>
        (inject_Z S * Vref / (inject_Z C * 65535 * Vsat))%Q
    end.

(** The value the loop of [processMeasurement] leaves in entry [i]. *)
Definition pixelReading (o : C12666MA) (s : Statics)
    (measurementType : measure_t) (i : nat) : Q :=
  if nth i (dataCounts s) 0 =? 0 then 0%Q
  else convertReading measurementType (adcVoltages (adcRef_ o))
         (satVoltageOf o) (nth i (data s) 0) (nth i (dataCounts s) 0).

(** The design's step of the integration search:
    [(target - peak) * currentIntegrationTicks / peak]. *)
Definition designStep (target peak : Q) (currentIntegrationTicks : Z) : Z :=
  Qtrunc ((target - peak) * inject_Z currentIntegrationTicks / peak)%Q.

(** *** The acquisition cycle, as the statements below speak of it *)

(** Length in ticks of the state the machine is in, and the state after. *)
Definition phaseLimit (s : Statics) : Z :=
  match specState s with
  | SPEC_LEAD => LEAD_TICKS s
  | SPEC_RESET | SPEC_RESET2 | SPEC_READ => READ_TICKS
  | SPEC_INTEGRATION => INTEG_TICKS s
  | SPEC_TRAIL => TRAIL_TICKS
  | SPEC_STOP => 0
  end.

Definition nextState (st : spec_state_t) : spec_state_t :=
  match st with
  | SPEC_LEAD => SPEC_RESET
  | SPEC_RESET => SPEC_RESET2
  | SPEC_RESET2 => SPEC_INTEGRATION
  | SPEC_INTEGRATION => SPEC_READ
  | SPEC_READ => SPEC_TRAIL
  | SPEC_TRAIL => SPEC_STOP
  | SPEC_STOP => SPEC_STOP
  end.

(** Ticks left until [SPEC_STOP]. *)
Definition ticksToStop (s : Statics) : Z :=
  let rest :=
    match specState s with
    | SPEC_LEAD => 3 * READ_TICKS + INTEG_TICKS s + TRAIL_TICKS
    | SPEC_RESET => 2 * READ_TICKS + INTEG_TICKS s + TRAIL_TICKS
    | SPEC_RESET2 => READ_TICKS + INTEG_TICKS s + TRAIL_TICKS
    | SPEC_INTEGRATION => READ_TICKS + TRAIL_TICKS
    | SPEC_READ => TRAIL_TICKS
    | SPEC_TRAIL | SPEC_STOP => 0
    end in
  match specState s with
  | SPEC_STOP => 0
  | _ => phaseLimit s - specCounter s + rest
  end.

(** Two states that agree on the timer and its state machine. *)
Definition sameClock (s s' : Statics) : Prop :=
  timerOn s' = timerOn s /\ specState s' = specState s
  /\ specCounter s' = specCounter s /\ LEAD_TICKS s' = LEAD_TICKS s
  /\ INTEG_TICKS s' = INTEG_TICKS s.

(** A running timer whose counter is inside the current state. *)
Definition clockInv (s : Statics) : Prop :=
  timerOn s = true
  /\ 0 < LEAD_TICKS s < 2 ^ 32
  /\ 0 < INTEG_TICKS s < 2 ^ 32
  /\ (specState s = SPEC_STOP \/ 0 <= specCounter s < phaseLimit s).

(** The statics after [n] timer periods. *)
Definition runPeriods (n : nat) (s : Statics) : Statics :=
  Nat.iter n timerPeriod s.

(** *** The schedule of a cycle

    The length of a cycle in ticks, and the state the machine is in after
    [n] periods of a cycle with [lead] lead ticks and [integ] integration
    ticks. *)
Definition cycleTicks (s : Statics) : Z :=
  LEAD_TICKS s + 3 * READ_TICKS + INTEG_TICKS s + TRAIL_TICKS.

Definition phaseAt (lead integ n : Z) : spec_state_t :=
  if n <? lead then SPEC_LEAD
  else if n <? lead + READ_TICKS then SPEC_RESET
  else if n <? lead + 2 * READ_TICKS then SPEC_RESET2
  else if n <? lead + 2 * READ_TICKS + integ then SPEC_INTEGRATION
  else if n <? lead + 3 * READ_TICKS + integ then SPEC_READ
  else if n <? lead + 3 * READ_TICKS + integ + TRAIL_TICKS then SPEC_TRAIL
  else SPEC_STOP.

(** The first period on which the external trigger line is high: the period
    that precedes the start of the integration by the delay. *)
Definition triggerRise (extTrgMeasDelay : Z) : Z :=
  DEF_LEAD_TICKS + 2 * READ_TICKS - delayTimeTicks extTrgMeasDelay.

(** *** What the handlers leave alone

    The pin assignment, the waveform table, the converter input and the
    EEPROM. *)
Definition sameWiring (s s' : Statics) : Prop :=
  adcPinCNV s' = adcPinCNV s /\ specPinCLK s' = specPinCLK s
  /\ specPinST s' = specPinST s /\ extPinTRG s' = extPinTRG s
  /\ extPinLIGHT s' = extPinLIGHT s /\ specRead s' = specRead s
  /\ adcInput s' = adcInput s /\ eeprom s' = eeprom s
  /\ measuringData_ s' = measuringData_ s.

(** The same and the timer, up to the lines the converter is driven with. *)
Definition sameTiming (s s' : Statics) : Prop :=
  adcPinCNV s' = adcPinCNV s /\ specPinCLK s' = specPinCLK s
  /\ specPinST s' = specPinST s /\ extPinTRG s' = extPinTRG s
  /\ extPinLIGHT s' = extPinLIGHT s /\ specRead s' = specRead s
  /\ adcInput s' = adcInput s /\ eeprom s' = eeprom s
  /\ measuringData_ s' = measuringData_ s
  /\ timerOn s' = timerOn s /\ specState s' = specState s
  /\ specCounter s' = specCounter s /\ LEAD_TICKS s' = LEAD_TICKS s
  /\ INTEG_TICKS s' = INTEG_TICKS s /\ extTRGCounter s' = extTRGCounter s
  /\ specDataReady s' = specDataReady s /\ specCLK s' = specCLK s
  /\ specST s' = specST s
  /\ (forall n, adcPinCNV s <> Some n -> pins s' n = pins s n).

(** The buffers of an acquisition and their cursors. *)
Definition sameBuffers (s s' : Statics) : Prop :=
  specRead s' = specRead s /\ adcInput s' = adcInput s
  /\ adcReads s' = adcReads s /\ data s' = data s
  /\ dataCounts s' = dataCounts s /\ specData s' = specData s
  /\ specDataCounter s' = specDataCounter s.

(** The lines the timer and the ADC handler drive. *)
Definition ownLine (s : Statics) (n : nat) : Prop :=
  adcPinCNV s = Some n \/ specPinCLK s = Some n \/ specPinST s = Some n
  \/ extPinTRG s = Some n \/ extPinLIGHT s = Some n.

(** *** The conversions of a cycle

    The number of conversions of a burst, the sum of the codes of [n]
    conversions from conversion [r] on, and the two kinds of read of a
    burst: the first stores its code, the later ones add theirs. *)
Definition adcBurst : nat := if ADC_AVG_4 then 4%nat else 2%nat.

Fixpoint codeSum (adc : nat -> Z) (r n : nat) : Z :=
  match n with
  | O => 0
  | S n' => u16 (adc r) + codeSum adc (S r) n'
  end.

Definition readFirst (d c : nat) (s : Statics) : Statics :=
  let (v, s) := adcConvert s in storeFirst d c v s.

Definition readNext (d c : nat) (s : Statics) : Statics :=
  let (v, s) := adcConvert s in storeNext d c v s.

(** The pixels read so far, and the state of the buffers in a cycle that
    started with conversion [r0] on a board delivering the codes [adc]:
    the pixels read hold the sum of their burst, the others are still
    clear, and both cursors point at the next pixel. *)
Definition pixelsDone (s : Statics) : nat :=
  match specState s with
  | SPEC_LEAD | SPEC_RESET | SPEC_RESET2 | SPEC_INTEGRATION => 0%nat
  | SPEC_READ => Nat.min SPEC_PIXELS (Z.to_nat (specCounter s / 8))
  | SPEC_TRAIL | SPEC_STOP => SPEC_PIXELS
  end.

Definition acqInv (adc : nat -> Z) (r0 : nat) (s : Statics) : Prop :=
  specRead s = initSpecTimerData specRead0
  /\ adcInput s = adc
  /\ trgPending s = false
  /\ length (data s) = SPEC_PIXELS
  /\ length (dataCounts s) = SPEC_PIXELS
  /\ adcReads s = (r0 + adcBurst * pixelsDone s)%nat
  /\ (forall i, (i < pixelsDone s)%nat ->
        data s !! i = Some (codeSum adc (r0 + adcBurst * i) adcBurst)
        /\ dataCounts s !! i = Some (Z.of_nat adcBurst))
  /\ (forall i, (pixelsDone s <= i < SPEC_PIXELS)%nat ->
        dataCounts s !! i = Some 0)
  /\ (specState s = SPEC_TRAIL \/ specState s = SPEC_STOP
      \/ (specData s = Some (pixelsDone s)
          /\ specDataCounter s = Some (pixelsDone s))).

(** *** The TRG handler under preemption

    TIM7 has the higher preemption priority: a tick can interrupt the TRG
    handler, and the tick after a ready tick clears [specDataReady], on
    which the handler gives the burst up at its next guard.  The handler is
    cut into the steps that end where it reads [specDataReady] next: its
    entry with the first conversion, and for every further read of the burst
    the guard with the conversion and the guarded store of the result.  The
    ticks fall between the steps. *)

(** Where the handler stands: not running; before the guard of a further
    read (lines 285, 310, 334), [rest] reads of the burst to follow that
    one; or with the code [v] of that read before the guard of its store
    (lines 298, 323, 347). *)
Inductive trg_handler : Type :=
| TRG_IDLE
| TRG_GUARD (d c rest : nat)
| TRG_STORE (d c : nat) (v : Z) (rest : nat).

Definition trg_idle (h : trg_handler) : bool :=
  match h with TRG_IDLE => true | _ => false end.

(** Entry of [spectroTRGInterrupt] up to the first guard of [readADC]. *)
Definition trgEnter (s : Statics) : Statics * trg_handler :=
  if trgPending s then
    let s := set_trgPending false s in
    match specDataReady s, specData s, specDataCounter s with
    | true, Some d, Some c =>
        let s := set_specData (Some (S d)) s in
        let s := set_specDataCounter (Some (S c)) s in
        let (v, s) := adcConvert s in
        let s := storeFirst d c v s in
        (s, TRG_GUARD d c (if ADC_AVG_4 then 2%nat else 0%nat))
    | _, _, _ => (s, TRG_IDLE)
    end
  else (s, TRG_IDLE).

(** One step of the handler. *)
Definition trgStep (m : Statics * trg_handler) : Statics * trg_handler :=
  let (s, h) := m in
  match h with
  | TRG_IDLE => trgEnter s
  | TRG_GUARD d c rest =>
      if negb (specDataReady s) then (s, TRG_IDLE)
      else let (v, s) := adcConvert s in (s, TRG_STORE d c v rest)
  | TRG_STORE d c v rest =>
      let s := if specDataReady s then storeNext d c v s else s in
      (s, match rest with
          | O => TRG_IDLE
          | S rest' => TRG_GUARD d c rest'
          end)
  end.

(** One timer period in which the handler gets [steps] steps before the
    next tick. *)
Definition timerPeriodAt (steps : nat) (m : Statics * trg_handler)
    : Statics * trg_handler :=
  Nat.iter steps trgStep (spectroClockInterrupt (fst m), snd m).

(** The busy wait of the caller, which runs only while no handler does, for
    the schedule [sched] of the handler steps per period. *)
Fixpoint waitForStopAt (sched : nat -> nat) (fuel : nat)
    (m : Statics * trg_handler) : option Statics :=
  if spec_state_eqb (specState (fst m)) SPEC_STOP
     && trg_idle (snd m) && negb (trgPending (fst m))
  then Some (fst m)
  else
    match fuel with
    | O => None
    | S fuel' =>
        waitForStopAt (fun i => sched (S i)) fuel'
          (timerPeriodAt (sched O) m)
    end.

(** The statics and the handler after [n] timer periods of a schedule. *)
Fixpoint runPeriodsAt (sched : nat -> nat) (n : nat)
    (m : Statics * trg_handler) : Statics * trg_handler :=
  match n with
  | O => m
  | S n' => runPeriodsAt (fun i => sched (S i)) n' (timerPeriodAt (sched O) m)
  end.

(** No burst is cut: every period leaves the handler the steps of a whole
    burst before the next tick. *)
Definition uncut (sched : nat -> nat) : Prop :=
  forall i, (2 * adcBurst - 1 <= sched i)%nat.

(** [readSpectrometer], [takeMeasurement] and [takeBlackMeasurement] under
    a schedule. *)
Definition readSpectrometerAt (sched : nat -> nat) (fuel : nat)
    (o : C12666MA) (timeUs : Z) (doExtTriggering doLightTriggering : bool)
    (s : Statics) : option Statics :=
  if timerOn s then Some s
  else
    let savedIntegration := INTEG_TICKS s in
    let s := if 0 <? timeUs then setIntTime timeUs false s else s in
    let s := set_specData (Some 0%nat) s in
    let s := set_specDataCounter (Some 0%nat) s in
    let s :=
      for_range 0 SPEC_PIXELS 1
        (fun i s =>
           let s := set_data (<[i := 0]> (data s)) s in
           set_dataCounts (<[i := 0]> (dataCounts s)) s) s in
    let s := if doExtTriggering then set_extPinTRG (ext_trg_ o) s else s in
    let s :=
      if doLightTriggering then set_extPinLIGHT (ext_trg_ls_ o) s else s in
    let s := startADC (adc_cnv_ o) s in
    let s := startSpecTimer (extTrgMeasDelayUs_ o) doExtTriggering s in
    match waitForStopAt sched fuel (s, TRG_IDLE) with
    | None => None
    | Some s =>
        let s := stopSpecTimer s in
        let s := endADC s in
        let s :=
          if 0 <? timeUs then set_INTEG_TICKS savedIntegration s else s in
        let s := set_extPinTRG NO_PIN s in
        Some (set_extPinLIGHT NO_PIN s)
    end.

Definition takeMeasurementAt (sched : nat -> nat) (fuel : nat) (timeUs : Z)
    (doExtTriggering : bool) (d : Dev) : option Dev :=
  let (o, s) := d in
  if timerOn s || measuringData_ s then Some d
  else
    let s := set_measuringData_ true s in
    match readSpectrometerAt sched fuel o timeUs doExtTriggering
            doExtTriggering s with
    | None => None
    | Some s =>
        let o :=
          set_data_
            (fst (processMeasurement o s (measurementType_ o) (data_ o))) o in
        Some (o, set_measuringData_ false s)
    end.

Definition takeBlackMeasurementAt (sched : nat -> nat) (fuel : nat)
    (timeUs : Z) (d : Dev) : option Dev :=
  let (o, s) := d in
  if timerOn s || measuringData_ s then Some d
  else
    let s := set_measuringData_ true s in
    match readSpectrometerAt sched fuel o timeUs false false s with
    | None => None
    | Some s =>
        let o :=
          set_blackLevels_
            (fst (processMeasurement o s (measurementType_ o)
                    (blackLevels_ o))) o in
        Some (o, set_measuringData_ false s)
    end.

(** *** Limits of the configuration *)

(** The shortest and the longest integration time [setIntTime] accepts, in
    microseconds. *)
Definition minIntTimeUs : Z := ticksToUsec READ_TICKS + MIN_INTEG_TIME_US.

Definition clampIntTime (timeUs : Z) : Z :=
  Z.min MAX_INTEG_TIME_US (Z.max minIntTimeUs timeUs).

(** The delay [setExtTrgMeasDelay] settles on, in ticks: the request, at
    least the hold time of the trigger, made even. *)
Definition settledDelayTicks (extTrgMeasDelayUs : Z) : Z :=
  2 * (Z.max EXT_TRG_HIGH_TICKS
         (extTrgMeasDelayUs * TIMER_US_FACTOR / SPEC_CLK_TICK_TIMER) / 2).

(** The members a change of gain, reference or data leaves alone. *)
Definition sameSetup (o o' : C12666MA) : Prop :=
  spec_gain_ o' = spec_gain_ o /\ ext_trg_ o' = ext_trg_ o
  /\ ext_trg_ls_ o' = ext_trg_ls_ o /\ adc_ref_sel1_ o' = adc_ref_sel1_ o
  /\ adc_ref_sel2_ o' = adc_ref_sel2_ o /\ adc_cnv_ o' = adc_cnv_ o
  /\ measurementType_ o' = measurementType_ o
  /\ extTrgMeasDelayUs_ o' = extTrgMeasDelayUs_ o
  /\ satVoltageHighGain_ o' = satVoltageHighGain_ o
  /\ satVoltageNoGain_ o' = satVoltageNoGain_ o
  /\ blackLevels_ o' = blackLevels_ o.

(** *** Sample states

    A driver object with its pins assigned and both saturation voltages at
    their datasheet minimum, and the statics as their initialisers, the
    constructor's table and the pin assignment of [begin()] leave them, on a
    board whose converter delivers the codes [adc]. *)
Definition sampleDriver : C12666MA :=
  {| spec_gain_ := Some 0%nat; ext_trg_ := Some 1%nat; ext_trg_ls_ := Some 2%nat;
     adc_ref_sel1_ := Some 3%nat; adc_ref_sel2_ := Some 4%nat;
     adc_cnv_ := Some 5%nat;
     calibration_ := [0; 0; 0; 0; 0; 0]%Q;
     applyBandPassCorrection_ := true;
     measurementType_ := MEASURE_RELATIVE;
     gain_ := NO_GAIN; adcRef_ := ADC_5V; extTrgMeasDelayUs_ := 0;
     satVoltageHighGain_ := MIN_SAT_VOLTAGE_HIGH_GAIN;
     satVoltageNoGain_ := MIN_SAT_VOLTAGE_NO_GAIN;
     blackLevels_ := replicate SPEC_PIXELS 0%Q;
     data_ := replicate SPEC_PIXELS 0%Q |}.

Definition idleStatics (adc : nat -> Z) : Statics :=
  {| measuringData_ := false; timerOn := false; specState := SPEC_STOP;
     specDataReady := false; specCLK := LOW; specST := LOW;
     specCounter := 0; extTRGCounter := 0;
     specData := None; specDataCounter := None;
     INTEG_TICKS := uSecToTicks MIN_INTEG_TIME_US;
     LEAD_TICKS := DEF_LEAD_TICKS;
     specRead := initSpecTimerData specRead0;
     adcPinCNV := Some 5%nat; specPinCLK := Some 6%nat; specPinST := Some 7%nat;
     extPinTRG := NO_PIN; extPinLIGHT := NO_PIN;
     data := replicate SPEC_PIXELS 0; dataCounts := replicate SPEC_PIXELS 0;
     pins := fun _ => false; trgPending := false;
     adcReads := 0%nat; adcInput := adc;
     eeprom := fun _ => None |}.

(** The statics with two samples of code 1000 accumulated for every pixel. *)
Definition sampleRaw : Statics :=
  set_dataCounts (replicate SPEC_PIXELS 2)
    (set_data (replicate SPEC_PIXELS 2000) (idleStatics (fun _ => 1000))).

(** An acquisition just started with the light trigger line configured. *)
Definition startedWithLight (adc : nat -> Z) : Statics :=
  startSpecTimer (extTrgMeasDelayUs_ sampleDriver) false
    (set_extPinLIGHT (ext_trg_ls_ sampleDriver) (idleStatics adc)).

(** The idle statics with the external trigger line assigned. *)
Definition idleWithTrigger (adc : nat -> Z) : Statics :=
  set_extPinTRG (ext_trg_ sampleDriver) (idleStatics adc).

End Firmware.

(** ** Colorimetry ([spectron_cct.cpp]) *)

Module Cct.

Local Open Scope R_scope.

Definition Rltb (x y : R) : bool := if Rlt_dec x y then true else false.
Definition Rgeb (x y : R) : bool := if Rge_dec x y then true else false.

(** What the colour code asks of a [SpectronDevice] (declared in
    [spectron_cct.h]). *)
Record SpectronDevice := mkSpectronDevice {
  isConnected : bool;
  totalPixels : nat;
  getWavelength : nat -> R;
  getLastMeasurement : nat -> R
}.

Definition LERP (a b c : R) : R := (b - a) * c + a.

Record UVT := mkUVT { u : R; v : R; t : R }.

Definition DBL_MIN : R := / 2 ^ 1022.

(** Reciprocal temperature (K). *)
Definition rt : list R :=
  [ DBL_MIN; 10.0e-6; 20.0e-6; 30.0e-6; 40.0e-6; 50.0e-6;
    60.0e-6; 70.0e-6; 80.0e-6; 90.0e-6; 100.0e-6; 125.0e-6;
    150.0e-6; 175.0e-6; 200.0e-6; 225.0e-6; 250.0e-6; 275.0e-6;
    300.0e-6; 325.0e-6; 350.0e-6; 375.0e-6; 400.0e-6; 425.0e-6;
    450.0e-6; 475.0e-6; 500.0e-6; 525.0e-6; 550.0e-6; 575.0e-6;
    600.0e-6 ].

Definition uvt : list UVT :=
  [ mkUVT 0.18006 0.26352 (-0.24341);
    mkUVT 0.18066 0.26589 (-0.25479);
    mkUVT 0.18133 0.26846 (-0.26876);
    mkUVT 0.18208 0.27119 (-0.28539);
    mkUVT 0.18293 0.27407 (-0.30470);
    mkUVT 0.18388 0.27709 (-0.32675);
    mkUVT 0.18494 0.28021 (-0.35156);
    mkUVT 0.18611 0.28342 (-0.37915);
    mkUVT 0.18740 0.28668 (-0.40955);
    mkUVT 0.18880 0.28997 (-0.44278);
    mkUVT 0.19032 0.29326 (-0.47888);
    mkUVT 0.19462 0.30141 (-0.58204);
    mkUVT 0.19962 0.30921 (-0.70471);
    mkUVT 0.20525 0.31647 (-0.84901);
    mkUVT 0.21142 0.32312 (-1.0182);
    mkUVT 0.21807 0.32909 (-1.2168);
    mkUVT 0.22511 0.33439 (-1.4512);
    mkUVT 0.23247 0.33904 (-1.7298);
    mkUVT 0.24010 0.34308 (-2.0637);
    mkUVT 0.24792 0.34655 (-2.4681);
    mkUVT 0.25591 0.34951 (-2.9641);
    mkUVT 0.26400 0.35200 (-3.5814);
    mkUVT 0.27218 0.35407 (-4.3633);
    mkUVT 0.28039 0.35577 (-5.3762);
    mkUVT 0.28863 0.35714 (-6.7262);
    mkUVT 0.29685 0.35823 (-8.5955);
    mkUVT 0.30505 0.35907 (-11.324);
    mkUVT 0.31320 0.35968 (-15.628);
    mkUVT 0.32129 0.36011 (-23.325);
    mkUVT 0.32931 0.36038 (-40.770);
    mkUVT 0.33724 0.36051 (-116.45) ].

Definition uvtAt (i : nat) : UVT := nth i uvt (mkUVT 0 0 0).
Definition rtAt (i : nat) : R := nth i rt 0.

(** The scan of the isotherm table, from entry [i] with [dm] the distance to
    the entry before: the index at which the loop breaks with the two
    distances, or [None] when it runs to the end of the table. *)
Fixpoint isothermScan (fuel i : nat) (us vs dm : R) : option (nat * R * R) :=
  match fuel with
  | O => None
  | S fuel' =>
      let di := (vs - v (uvtAt i)) - t (uvtAt i) * (us - u (uvtAt i)) in
      if (0 <? i)%nat
         && ((Rltb di 0 && Rgeb dm 0) || (Rgeb di 0 && Rltb dm 0))
      then Some (i, di, dm)
      else isothermScan fuel' (S i) us vs di
  end.

Definition XYZtoCorColorTemp (xyz : R * R * R) : R :=
  let '(X, Y, Z) := xyz in
  if Rltb X 1.0e-20 && Rltb Y 1.0e-20 && Rltb Z 1.0e-20 then 0
  else
    let us := (4.0 * X) / (X + 15.0 * Y + 3.0 * Z) in
    let vs := (6.0 * Y) / (X + 15.0 * Y + 3.0 * Z) in
    match isothermScan 31 0 us vs 0.0 with
    | None => 0
    | Some (i, di, dm) =>
        let di := di / sqrt (1.0 + t (uvtAt i) * t (uvtAt i)) in
        let dm := dm / sqrt (1.0 + t (uvtAt (i - 1)) * t (uvtAt (i - 1))) in
        let p := dm / (dm - di) in
        1.0 / LERP (rtAt (i - 1)) (rtAt i) p
    end.

Definition xFunc_1931 (wavelength : R) : R :=
  let t1 := (wavelength - 442.0) * (if Rltb wavelength 442.0 then 0.0624 else 0.0374) in
  let t2 := (wavelength - 599.8) * (if Rltb wavelength 599.8 then 0.0264 else 0.0323) in
  let t3 := (wavelength - 501.1) * (if Rltb wavelength 501.1 then 0.0490 else 0.0382) in
  0.362 * exp (-0.5 * t1 * t1) + 1.056 * exp (-0.5 * t2 * t2)
  - 0.065 * exp (-0.5 * t3 * t3).

Definition yFunc_1931 (wavelength : R) : R :=
  let t1 := (wavelength - 568.8) * (if Rltb wavelength 568.8 then 0.0213 else 0.0247) in
  let t2 := (wavelength - 530.9) * (if Rltb wavelength 530.9 then 0.0613 else 0.0322) in
  0.821 * exp (-0.5 * t1 * t1) + 0.286 * exp (-0.5 * t2 * t2).

Definition zFunc_1931 (wavelength : R) : R :=
  let t1 := (wavelength - 437.0) * (if Rltb wavelength 437.0 then 0.0845 else 0.0278) in
  let t2 := (wavelength - 459.0) * (if Rltb wavelength 459.0 then 0.0385 else 0.0725) in
  1.217 * exp (-0.5 * t1 * t1) + 0.681 * exp (-0.5 * t2 * t2).

(** The accumulation of [xyz] over the pixels. *)
Definition accumulateXYZ (spectron : SpectronDevice) : R * R * R :=
  for_range 0 (totalPixels spectron) 1
    (fun i '(X, Y, Z) =>
       let dLamda :=
         if (i =? 0)%nat then
           (getWavelength spectron (i + 1) - getWavelength spectron i) / 2
         else if (Z.of_nat i =? Z.of_nat (totalPixels spectron) - 1)%Z then
           (getWavelength spectron i - getWavelength spectron (i - 1)) / 2
         else
           (getWavelength spectron (i + 1) - getWavelength spectron (i - 1)) / 2 in
       let curWavelength := getWavelength spectron i in
       (X + getLastMeasurement spectron i * xFunc_1931 curWavelength * dLamda,
        Y + getLastMeasurement spectron i * yFunc_1931 curWavelength * dLamda,
        Z + getLastMeasurement spectron i * zFunc_1931 curWavelength * dLamda))
    (0, 0, 0).

(** [calculateColourParam(spectron, CCT, x, y)]: the values of the three
    reference parameters after the call, from their values before it. *)
Definition calculateColourParam (spectron : SpectronDevice)
    (out : R * R * R) : R * R * R :=
  if negb (isConnected spectron) then out
  else
    let xyz := accumulateXYZ spectron in
    let '(X, Y, Z) := xyz in
    let sumXYZ := X + Y + Z in
    let '(x, y) :=
      if Req_dec_T sumXYZ 0 then (0, 0) else (X / sumXYZ, Y / sumXYZ) in
    (XYZtoCorColorTemp xyz, x, y).

(** Components of [xyz] and of the result triple [(CCT, x, y)]. *)
Definition sumXYZ (xyz : R * R * R) : R :=
  fst (fst xyz) + snd (fst xyz) + snd xyz.

Definition outX (out : R * R * R) : R := snd (fst out).
Definition outY (out : R * R * R) : R := snd out.

(** A connected device of two pixels at 442 nm and 443 nm whose first pixel
    reads [m] and whose second pixel is dark. *)
Definition dimDevice (m : R) : SpectronDevice :=
  {| isConnected := true;
     totalPixels := 2;
     getWavelength := fun i => match i with O => 442 | _ => 443 end;
     getLastMeasurement := fun i => match i with O => m | _ => 0 end |}.

End Cct.

(** * Properties *)

(** ** Machine integers and loops *)

(** Reduction of reads of a static through the assignments before it. *)
Ltac sred :=
  cbn [measuringData_ timerOn specState specDataReady specCLK specST
       specCounter extTRGCounter specData specDataCounter INTEG_TICKS
       LEAD_TICKS specRead adcPinCNV specPinCLK specPinST extPinTRG
       extPinLIGHT data dataCounts pins trgPending adcReads adcInput eeprom
       set_measuringData_ set_timerOn set_specState set_specDataReady
       set_specCLK set_specST set_specCounter set_extTRGCounter set_specData
       set_specDataCounter set_INTEG_TICKS set_LEAD_TICKS set_extPinTRG
       set_extPinLIGHT set_data set_dataCounts set_pins set_trgPending
       set_adcReads set_eeprom
       spec_gain_ ext_trg_ ext_trg_ls_ adc_ref_sel1_ adc_ref_sel2_ adc_cnv_
       calibration_ applyBandPassCorrection_ measurementType_ gain_ adcRef_
       extTrgMeasDelayUs_ satVoltageHighGain_ satVoltageNoGain_ blackLevels_
       data_ set_applyBandPassCorrection_ set_gain_ set_adcRef_
       set_satVoltageHighGain_
       set_satVoltageNoGain_ set_blackLevels_ set_data_
       negb andb orb fst snd].

Ltac split_if :=
  match goal with
  | |- context [if ?c then _ else _] => destruct c eqn:?
  end.

Lemma u32_small z : 0 <= z < 2 ^ 32 -> u32 z = z.
Proof. intros H. unfold u32. now apply Z.mod_small. Qed.

Lemma u32_range z : 0 <= u32 z < 2 ^ 32.
Proof. unfold u32. apply Z.mod_pos_bound. lia. Qed.

Lemma land_1_mod2 x : Z.land x 1 = x mod 2.
Proof. change 1 with (Z.ones 1). now rewrite Z.land_ones by lia. Qed.

(** [x & ~1] on a [uint32_t] clears bit 0. *)
Lemma even_mask d : 0 <= d < 2 ^ 32 -> Z.land d (u32 (Z.lnot 1)) = 2 * (d / 2).
Proof.
  intros Hd. unfold u32.
  rewrite <- (Z.land_ones (Z.lnot 1) 32) by lia.
  rewrite (Z.land_comm (Z.lnot 1)), Z.land_assoc, Z.land_ones by lia.
  rewrite Z.mod_small by lia.
  rewrite <- Z.ldiff_land. change 1 with (Z.ones 1).
  rewrite Z.ldiff_ones_r by lia.
  rewrite Z.shiftr_div_pow2, Z.shiftl_mul_pow2 by lia.
  change (2 ^ 1) with 2. lia.
Qed.

Lemma for_loop_invariant {A : Type} (P : A -> Prop) (body : nat -> A -> A) :
  (forall i a, P a -> P (body i a)) ->
  forall fuel i stop stride a, P a -> P (for_loop fuel i stop stride body a).
Proof.
  intros Hbody. induction fuel as [|fuel IH]; intros i stop stride a Ha.
  - exact Ha.
  - simpl. destruct (i <? stop)%nat; [|exact Ha]. apply IH, Hbody, Ha.
Qed.

Section LoopTheory.

Context {A : Type} (body : nat -> A -> A).

(** A loop that runs [count] times is the fold of its body over the round
    numbers. *)
Lemma for_loop_seq stride stop i count :
  forall a fuel s,
    (count <= fuel)%nat ->
    (forall k, (a <= k < a + count)%nat -> (i + k * stride < stop)%nat) ->
    (stop <= i + (a + count) * stride)%nat ->
    for_loop fuel (i + a * stride) stop stride body s
    = fold_left (fun s k => body (i + k * stride)%nat s) (seq a count) s.
Proof.
  induction count as [|count IH]; intros a fuel s Hfuel Hin Hout.
  - replace (a + 0)%nat with a in Hout by lia.
    destruct fuel as [|fuel]; [reflexivity|]. simpl.
    destruct (Nat.ltb_spec (i + a * stride) stop); [lia|reflexivity].
  - destruct fuel as [|fuel]; [lia|]. simpl.
    assert (i + a * stride < stop)%nat as Hlt by (apply Hin; lia).
    destruct (Nat.ltb_spec (i + a * stride) stop); [|lia].
    replace (i + a * stride + stride)%nat with (i + S a * stride)%nat by lia.
    apply IH; [lia| |].
    + intros k Hk. apply Hin. lia.
    + replace (S a + count)%nat with (a + S count)%nat by lia. exact Hout.
Qed.

Lemma for_range_fold start stop stride count s :
  (1 <= stride)%nat ->
  (forall k, (k < count)%nat -> (start + k * stride < stop)%nat) ->
  (stop <= start + count * stride)%nat ->
  for_range start stop stride body s
  = fold_left (fun s k => body (start + k * stride)%nat s) (seq 0 count) s.
Proof.
  intros Hs Hin Hout. unfold for_range.
  replace start with (start + 0 * stride)%nat at 2 by lia.
  apply for_loop_seq; [|intros k Hk; apply Hin; lia|exact Hout].
  destruct count as [|count]; [lia|].
  specialize (Hin count ltac:(lia)). nia.
Qed.

End LoopTheory.

(** Two loops over the same range whose bodies keep a relation between their
    states end in related states. *)
Lemma for_loop_related {A B : Type} (P : A -> B -> Prop)
    (f : nat -> A -> A) (g : nat -> B -> B) stop stride :
  (forall i a b, (i < stop)%nat -> P a b -> P (f i a) (g i b)) ->
  forall fuel i a b, P a b ->
    P (for_loop fuel i stop stride f a) (for_loop fuel i stop stride g b).
Proof.
  intros Hstep. induction fuel as [|fuel IH]; intros i a b H; [exact H|].
  simpl. destruct (Nat.ltb_spec i stop); [|exact H].
  apply IH, Hstep; assumption.
Qed.

(** ** The waveform table *)

Section TableTheory.

Context {build : Build}.

Lemma readyRounds_S n base :
  readyRounds (S n) base = alter setReady (7 + n * 8)%nat (readyRounds n base).
Proof. unfold readyRounds. rewrite seq_S, fold_left_app. reflexivity. Qed.

Lemma readyRounds_length n base : length (readyRounds n base) = length base.
Proof.
  induction n as [|n IH]; [reflexivity|].
  rewrite readyRounds_S, length_alter. exact IH.
Qed.

Lemma readyRounds_other n base j :
  (forall k, (k < n)%nat -> j <> (7 + k * 8)%nat) ->
  readyRounds n base !! j = base !! j.
Proof.
  induction n as [|n IH]; intros Hj; [reflexivity|].
  rewrite readyRounds_S, list_lookup_alter_ne.
  - apply IH. intros k Hk. apply Hj. lia.
  - intros E. apply (Hj n); [lia|]. now symmetry.
Qed.

Lemma readyRounds_hit n base k :
  (k < n)%nat ->
  readyRounds n base !! (7 + k * 8)%nat = setReady <$> base !! (7 + k * 8)%nat.
Proof.
  induction n as [|n IH]; intros Hk; [lia|].
  rewrite readyRounds_S.
  destruct (Nat.eq_dec k n) as [->|Hne].
  - rewrite list_lookup_alter_eq, readyRounds_other; [reflexivity|].
    intros k Hk'. lia.
  - rewrite list_lookup_alter_ne by lia. apply IH. lia.
Qed.

Lemma ready_index_dec n j :
  (exists k, (k < n)%nat /\ j = (7 + k * 8)%nat)
  \/ (forall k, (k < n)%nat -> j <> (7 + k * 8)%nat).
Proof.
  induction n as [|n [[k [Hk E]]|IH]].
  - right. intros k Hk. lia.
  - left. exists k. split; [lia|exact E].
  - destruct (Nat.eq_dec j (7 + n * 8)%nat) as [E|Hne].
    + left. exists n. split; [lia|exact E].
    + right. intros k Hk. destruct (Nat.eq_dec k n) as [->|]; [exact Hne|].
      apply IH. lia.
Qed.

Lemma countReady_alter (t : list Z) i y :
  t !! i = Some y -> has_ready y = false ->
  countReady (alter setReady i t) = S (countReady t).
Proof.
  unfold countReady. revert i. induction t as [|x t IH]; intros i Hi Hy.
  - discriminate.
  - destruct i as [|i]; simpl in Hi |- *.
    + injection Hi as ->. rewrite Hy.
      replace (has_ready (setReady y)) with true; [reflexivity|].
      unfold has_ready, setReady, READY_BIT.
      rewrite Z.land_lor_distr_l. change (Z.land 2 2) with 2.
      symmetry. apply negb_true_iff, Z.eqb_neq. intros E.
      apply Z.lor_eq_0_iff in E. lia.
    + specialize (IH i Hi Hy).
      destruct (has_ready x); simpl; [f_equal|]; exact IH.
Qed.

Lemma countReady_none (t : list Z) :
  (forall j y, t !! j = Some y -> has_ready y = false) -> countReady t = 0%nat.
Proof.
  unfold countReady. induction t as [|x t IH]; intros H; [reflexivity|].
  simpl. rewrite (H 0%nat x eq_refl). apply IH.
  intros j y Hj. apply (H (S j) y Hj).
Qed.

Lemma readyRounds_count n base :
  (n * 8 <= length base)%nat ->
  (forall j y, base !! j = Some y -> has_ready y = false) ->
  countReady (readyRounds n base) = n.
Proof.
  intros Hlen Hbase. induction n as [|n IH].
  - now apply countReady_none.
  - rewrite readyRounds_S.
    destruct (lookup_lt_is_Some_2 base (7 + n * 8)%nat ltac:(lia)) as [y Hy].
    rewrite (countReady_alter _ _ y).
    + rewrite IH; [reflexivity|lia].
    + rewrite readyRounds_other; [exact Hy|]. intros k Hk. lia.
    + exact (Hbase _ _ Hy).
Qed.

Lemma fill_lookup (x : Z) n (t : list Z) j :
  (j < length t)%nat ->
  fold_left (fun t k => <[(0 + k * 1)%nat := x]> t) (seq 0 n) t !! j
  = if (j <? n)%nat then Some x else t !! j.
Proof.
  intros Hj. induction n as [|n IH]; [reflexivity|].
  rewrite seq_S, fold_left_app. cbn [fold_left].
  replace (0 + (0 + n) * 1)%nat with n by lia.
  destruct (Nat.eq_dec j n) as [->|Hne].
  - rewrite list_lookup_insert_eq.
    + destruct (Nat.ltb_spec n (S n)); [reflexivity|lia].
    + clear IH. induction (seq 0 n) as [|a l IHl] in t, Hj |- *; [exact Hj|].
      cbn [fold_left]. apply IHl. now rewrite length_insert.
  - rewrite list_lookup_insert_ne by lia. rewrite IH.
    destruct (Nat.ltb_spec j n), (Nat.ltb_spec j (S n)); try lia; reflexivity.
Qed.

Lemma fill_length (x : Z) n (t : list Z) :
  length (fold_left (fun t k => <[(0 + k * 1)%nat := x]> t) (seq 0 n) t)
  = length t.
Proof.
  induction n as [|n IH]; [reflexivity|].
  rewrite seq_S, fold_left_app. cbn [fold_left]. now rewrite length_insert.
Qed.

Lemma stTable_length t : length (stTable t) = length t.
Proof. unfold stTable. now rewrite !length_alter, fill_length. Qed.

Lemma stTable_lookup t j :
  length t = Z.to_nat READ_TICKS -> (j < length t)%nat ->
  stTable t !! j = Some (if (j <? 2)%nat then 0 else 1).
Proof.
  intros Hlen Hj. unfold stTable.
  destruct j as [|[|j]].
  - rewrite list_lookup_alter_ne by lia. rewrite list_lookup_alter_eq.
    rewrite fill_lookup by exact Hj.
    destruct (Nat.ltb_spec 0 (Z.to_nat READ_TICKS)); [reflexivity|lia].
  - rewrite list_lookup_alter_eq, list_lookup_alter_ne by lia.
    rewrite fill_lookup by exact Hj.
    destruct (Nat.ltb_spec 1 (Z.to_nat READ_TICKS)); [reflexivity|lia].
  - rewrite !list_lookup_alter_ne by lia. rewrite fill_lookup by exact Hj.
    destruct (Nat.ltb_spec (S (S j)) (Z.to_nat READ_TICKS)); [reflexivity|lia].
Qed.

Lemma stTable_no_ready t j y :
  length t = Z.to_nat READ_TICKS ->
  stTable t !! j = Some y -> has_ready y = false.
Proof.
  intros Hlen Hy.
  assert (j < length t)%nat as Hj.
  { rewrite <- (stTable_length t). apply lookup_lt_is_Some_1. eauto. }
  rewrite (stTable_lookup t j Hlen Hj) in Hy. injection Hy as <-.
  destruct (j <? 2)%nat; reflexivity.
Qed.

Lemma READ_TICKS_nat :
  Z.to_nat READ_TICKS = (SPEC_PIXELS * 8 + 12)%nat.
Proof. unfold READ_TICKS, TICKS_PER_PIXEL, TRAIL_TICKS. lia. Qed.

(** The constructor's table, unfolded into its three phases. *)
Lemma initSpecTimerData_rounds t :
  initSpecTimerData t = readyRounds SPEC_PIXELS (stTable t).
Proof.
  unfold initSpecTimerData, readyRounds, stTable.
  rewrite (for_range_fold _ 0 (Z.to_nat READ_TICKS) 1 (Z.to_nat READ_TICKS));
    [|lia|intros; lia|lia].
  rewrite (for_range_fold _ 7 _ _ SPEC_PIXELS);
    unfold TICKS_PER_PIXEL; [reflexivity|lia|intros; lia|lia].
Qed.

Lemma specRead0_length : length specRead0 = Z.to_nat READ_TICKS.
Proof. unfold specRead0. apply length_replicate. Qed.

(** C2. After construction the waveform table has [SPEC_PIXELS * 8 +
    TRAIL_TICKS] entries, exactly [SPEC_PIXELS] of them carry the ready bit,
    these are the entries [7, 15, 23, ...] (eight indices apart, one per
    pixel), and the first two entries have the ST bit cleared. *)
Theorem waveform_table_shape :
  let table := initSpecTimerData specRead0 in
  Z.of_nat (length table)
  = Z.of_nat SPEC_PIXELS * TICKS_PER_PIXEL + TRAIL_TICKS
  /\ countReady table = SPEC_PIXELS
  /\ (forall j,
        (exists x, table !! j = Some x /\ has_ready x = true)
        <-> (exists k, (k < SPEC_PIXELS)%nat
                       /\ j = (7 + k * Z.to_nat TICKS_PER_PIXEL)%nat))
  /\ (exists x0 x1,
        table !! 0%nat = Some x0 /\ table !! 1%nat = Some x1
        /\ has_st x0 = false /\ has_st x1 = false).
Proof.
  intros table. subst table. rewrite initSpecTimerData_rounds.
  pose proof specRead0_length as Hlen.
  pose proof READ_TICKS_nat as HR.
  change (Z.to_nat TICKS_PER_PIXEL) with 8%nat.
  repeat split.
  - rewrite readyRounds_length, stTable_length, Hlen.
    unfold READ_TICKS, TICKS_PER_PIXEL, TRAIL_TICKS. lia.
  - apply readyRounds_count.
    + rewrite stTable_length. lia.
    + intros j y. now apply stTable_no_ready.
  - intros [x [Hx Hr]].
    destruct (ready_index_dec SPEC_PIXELS j) as [Hk|Hno]; [exact Hk|].
    rewrite readyRounds_other in Hx by exact Hno.
    rewrite (stTable_no_ready _ _ _ Hlen Hx) in Hr. discriminate.
  - intros [k [Hk ->]].
    rewrite readyRounds_hit by exact Hk.
    rewrite stTable_lookup; [|exact Hlen|lia].
    eexists. split; [reflexivity|].
    destruct (7 + k * 8 <? 2)%nat; reflexivity.
  - exists 0, 0.
    rewrite !readyRounds_other by (intros; lia).
    rewrite !stTable_lookup; try exact Hlen; try lia.
    repeat split; reflexivity.
Qed.

End TableTheory.

(** ** Tick arithmetic, integration time and lead ticks *)

Section TimingTheory.

Context {build : Build}.

Lemma tick_cases : SPEC_CLK_TICK_TIMER = 50 \/ SPEC_CLK_TICK_TIMER = 85.
Proof. unfold SPEC_CLK_TICK_TIMER. destruct ADC_AVG_4; auto. Qed.

Lemma READ_TICKS_even : exists m, READ_TICKS = 2 * m /\ 6 <= m.
Proof.
  exists (Z.of_nat SPEC_PIXELS * 4 + 6).
  unfold READ_TICKS, TICKS_PER_PIXEL, TRAIL_TICKS. lia.
Qed.

Lemma READ_TICKS_bounds :
  Z.of_nat SPEC_PIXELS <= 65535 -> 12 <= READ_TICKS <= 524292.
Proof. unfold READ_TICKS, TICKS_PER_PIXEL, TRAIL_TICKS. lia. Qed.

Lemma uSecToTicks_range x : 0 <= uSecToTicks x < 2 ^ 32.
Proof.
  unfold uSecToTicks. pose proof (u32_range (x * TIMER_US_FACTOR)) as H.
  destruct tick_cases as [-> | ->]; split;
    try (apply Z.div_pos; lia); apply Z.div_lt_upper_bound; lia.
Qed.

Lemma delayTimeTicks_range x : 0 <= delayTimeTicks x < 2 ^ 32.
Proof.
  unfold delayTimeTicks. pose proof (uSecToTicks_range x) as H.
  rewrite even_mask by exact H.
  pose proof (Z.div_mod (uSecToTicks x) 2 ltac:(lia)).
  pose proof (Z.mod_pos_bound (uSecToTicks x) 2 ltac:(lia)). lia.
Qed.

(** C9 (as amended). With the timer off, for a requested time between the
    shortest supported one (one readout pass plus [MIN_INTEG_TIME_US]) and
    [MAX_INTEG_TIME_US], [getIntTime] after [setIntTime] is the time of an
    even number of ticks: the next even tick count strictly above the
    request converted to ticks. *)
Theorem setIntTime_getIntTime (t : Z) (b : bool) (s : Statics) :
  Z.of_nat SPEC_PIXELS <= 65535 ->
  timerOn s = false ->
  ticksToUsec READ_TICKS + MIN_INTEG_TIME_US <= t <= MAX_INTEG_TIME_US ->
  getIntTime (setIntTime t b s)
  = ticksToUsec (2 * (uSecToTicks t / 2) + 2).
Proof.
  intros HN Hoff Ht.
  destruct READ_TICKS_even as [m [HR Hm]].
  assert (m <= 262146) as Hm'.
  { unfold READ_TICKS, TICKS_PER_PIXEL, TRAIL_TICKS in HR. lia. }
  unfold getIntTime, setIntTime. rewrite Hoff. cbv zeta.
  unfold ticksToUsec, uSecToTicks, MIN_INTEG_TIME_US, MAX_INTEG_TIME_US,
    TIMER_US_FACTOR in *.
  rewrite HR in *.
  set (tick := SPEC_CLK_TICK_TIMER) in *.
  assert (tick = 50 \/ tick = 85) as Htick by apply tick_cases.
  assert (0 <= 2 * m * tick < 2 ^ 32) as Hb1
    by (destruct Htick as [-> | ->]; lia).
  rewrite (u32_small (2 * m * tick)) in Ht by exact Hb1.
  assert (2 * m * tick / 10 * 10 = 2 * m * tick) as Hex.
  { destruct Htick as [-> | ->].
    - replace (2 * m * 50) with (m * 10 * 10) by lia.
      rewrite Z.div_mul by lia. lia.
    - replace (2 * m * 85) with (m * 17 * 10) by lia.
      rewrite Z.div_mul by lia. lia. }
  rewrite (u32_small (t * 10)) by lia.
  rewrite (u32_small (tick * (2 * m) + 1000 * 10)) by lia.
  assert (tick * (2 * m) + 1000 * 10 <= t * 10) as Hmin by lia.
  destruct (Z.ltb_spec (t * 10) (tick * (2 * m) + 1000 * 10)) as [|_]; [lia|].
  destruct (Z.ltb_spec (10000000 * 10) (t * 10)) as [|_]; [lia|].
  set (q := t * 10 / tick).
  assert (2 * m + 117 <= q <= 20000000) as Hq.
  { subst q. destruct Htick as [-> | ->]; split.
    - apply Z.div_le_lower_bound; lia.
    - apply Z.div_le_upper_bound; lia.
    - apply Z.div_le_lower_bound; lia.
    - apply Z.div_le_upper_bound; lia. }
  cbn [INTEG_TICKS set_INTEG_TICKS].
  rewrite (u32_small (q - 2 * m + 1)) by lia.
  destruct (Z.eqb_spec (q - 2 * m + 1) 0) as [|_]; [lia|].
  cbn [INTEG_TICKS set_INTEG_TICKS].
  rewrite land_1_mod2.
  pose proof (Z.div_mod q 2 ltac:(lia)) as Hq2.
  pose proof (Z.mod_pos_bound q 2 ltac:(lia)) as Hq2'.
  pose proof (Z.div_mod (q - 2 * m + 1) 2 ltac:(lia)) as Hi2.
  pose proof (Z.mod_pos_bound (q - 2 * m + 1) 2 ltac:(lia)) as Hi2'.
  destruct (Z.eqb_spec ((q - 2 * m + 1) mod 2) 0) as [E|E];
    destruct b; cbn [negb INTEG_TICKS set_INTEG_TICKS set_eeprom];
    rewrite ?(u32_small (q - 2 * m + 1 + 1)) by lia;
    match goal with
    | |- u32 (u32 ?a * _) / _ = u32 (?b * _) / _ =>
        rewrite (u32_small a) by lia; replace a with b by lia; reflexivity
    end.
Qed.

Lemma startSpecTimer_LEAD (extTrgMeasDelay : Z) (b : bool) (s : Statics) :
  timerOn s = false ->
  LEAD_TICKS (startSpecTimer extTrgMeasDelay b s)
  = if b && is_pin (extPinTRG s) && (0 <? extTrgMeasDelay)
    then if DEF_LEAD_TICKS + READ_TICKS + READ_TICKS
            <? delayTimeTicks extTrgMeasDelay
         then u32 (delayTimeTicks extTrgMeasDelay - READ_TICKS - READ_TICKS)
         else DEF_LEAD_TICKS
    else DEF_LEAD_TICKS.
Proof.
  intros Hoff. unfold startSpecTimer. rewrite Hoff. cbv zeta.
  cbn [extPinTRG set_specCounter set_timerOn].
  destruct (b && is_pin (extPinTRG s) && (0 <? extTrgMeasDelay));
    [destruct (_ <? delayTimeTicks _)|];
    repeat match goal with
           | |- context [if is_pin ?p then _ else _] => destruct (is_pin p)
           end; reflexivity.
Qed.

(** C5 (as amended). When the timer is started with external triggering, a
    configured trigger pin and a positive delay, the lead-tick count is
    recomputed from the delay in ticks (made even): it is the default
    [DEF_LEAD_TICKS] exactly when that delay is at most [DEF_LEAD_TICKS]
    plus two readout passes, and the delay minus the two readout passes
    otherwise. *)
Theorem startSpecTimer_lead_ticks (extTrgMeasDelay : Z) (s : Statics) :
  Z.of_nat SPEC_PIXELS <= 65535 ->
  timerOn s = false ->
  is_pin (extPinTRG s) = true ->
  0 < extTrgMeasDelay ->
  let d := delayTimeTicks extTrgMeasDelay in
  let lead := LEAD_TICKS (startSpecTimer extTrgMeasDelay true s) in
  (lead = DEF_LEAD_TICKS <-> d <= DEF_LEAD_TICKS + 2 * READ_TICKS)
  /\ (DEF_LEAD_TICKS + 2 * READ_TICKS < d -> lead = d - 2 * READ_TICKS).
Proof.
  intros HN Hoff Hpin Hpos d lead. subst lead.
  pose proof (delayTimeTicks_range extTrgMeasDelay) as Hd. fold d in Hd.
  pose proof (READ_TICKS_bounds HN) as HR.
  rewrite startSpecTimer_LEAD by exact Hoff. rewrite Hpin. fold d.
  destruct (Z.ltb_spec 0 extTrgMeasDelay) as [_|]; [|lia].
  cbn [andb]. unfold DEF_LEAD_TICKS.
  destruct (Z.ltb_spec (64 + READ_TICKS + READ_TICKS) d) as [Hlt|Hge].
  - rewrite u32_small by lia. split; [split|]; intros; lia.
  - split; [split|]; intros; lia.
Qed.

End TimingTheory.

(** *** The same on the C12666MA *)

Lemma setIntTime_getIntTime_witness :
  getIntTime (build := c12666ma)
    (setIntTime (build := c12666ma) 20000 false
       (idleStatics (build := c12666ma) (fun _ => 0)))
  = ticksToUsec (build := c12666ma)
      (2 * (uSecToTicks (build := c12666ma) 20000 / 2) + 2).
Proof.
  apply (setIntTime_getIntTime (build := c12666ma));
    [simpl; lia | reflexivity | vm_compute; split; discriminate].
Defined.

(** C9 (as stated) fails.  20000 us is a whole number of ticks in the build
    with two ADC reads (4000 ticks of 5 us), and 20009 us is one in the
    build with four (2354 ticks of 8.5 us); [getIntTime] after [setIntTime]
    returns neither. *)
Lemma getIntTime_differs_from_request :
  (ticksToUsec (build := c12666ma) 4000 = 20000
   /\ getIntTime (build := c12666ma)
        (setIntTime (build := c12666ma) 20000 false
           (idleStatics (build := c12666ma) (fun _ => 0))) = 20010)
  /\ (ticksToUsec (build := c12666ma_avg4) 2354 = 20009
      /\ getIntTime (build := c12666ma_avg4)
           (setIntTime (build := c12666ma_avg4) 20009 false
              (idleStatics (build := c12666ma_avg4) (fun _ => 0))) = 20026).
Proof. repeat split; vm_compute; reflexivity. Qed.

Lemma startSpecTimer_lead_ticks_witness :
  (LEAD_TICKS
     (startSpecTimer (build := c12666ma) 21000 true
        (set_extPinTRG (Some 1%nat)
           (idleStatics (build := c12666ma) (fun _ => 0)))) = DEF_LEAD_TICKS
   <-> delayTimeTicks (build := c12666ma) 21000
       <= DEF_LEAD_TICKS + 2 * READ_TICKS (build := c12666ma))
  /\ (DEF_LEAD_TICKS + 2 * READ_TICKS (build := c12666ma)
      < delayTimeTicks (build := c12666ma) 21000 ->
      LEAD_TICKS
        (startSpecTimer (build := c12666ma) 21000 true
           (set_extPinTRG (Some 1%nat)
              (idleStatics (build := c12666ma) (fun _ => 0))))
      = delayTimeTicks (build := c12666ma) 21000
        - 2 * READ_TICKS (build := c12666ma)).
Proof.
  apply (startSpecTimer_lead_ticks (build := c12666ma));
    [simpl; lia | reflexivity | reflexivity | lia].
Defined.

(** C5 (as stated) fails.  A delay of 4200 ticks is smaller than two readout
    passes plus the trigger hold time (4320 ticks with two ADC reads, 4237
    with four), yet the lead-tick count becomes 80, not the default 64. *)
Lemma lead_ticks_no_fallback_below_hold :
  (delayTimeTicks (build := c12666ma) 21000 = 4200
   /\ 4200 < 2 * READ_TICKS (build := c12666ma)
             + EXT_TRG_HIGH_TICKS (build := c12666ma)
   /\ LEAD_TICKS
        (startSpecTimer (build := c12666ma) 21000 true
           (set_extPinTRG (Some 1%nat)
              (idleStatics (build := c12666ma) (fun _ => 0)))) = 80
   /\ 80 <> DEF_LEAD_TICKS)
  /\ (delayTimeTicks (build := c12666ma_avg4) 35700 = 4200
      /\ 4200 < 2 * READ_TICKS (build := c12666ma_avg4)
                + EXT_TRG_HIGH_TICKS (build := c12666ma_avg4)
      /\ LEAD_TICKS
           (startSpecTimer (build := c12666ma_avg4) 35700 true
              (set_extPinTRG (Some 1%nat)
                 (idleStatics (build := c12666ma_avg4) (fun _ => 0)))) = 80
      /\ 80 <> DEF_LEAD_TICKS).
Proof. repeat split; try (vm_compute; reflexivity); discriminate. Qed.

(** ** The timing state machine *)

Section ClockTheory.

Context {build : Build}.

Lemma sameClock_refl s : sameClock s s.
Proof. unfold sameClock. tauto. Qed.

Lemma sameClock_trans s1 s2 s3 :
  sameClock s1 s2 -> sameClock s2 s3 -> sameClock s1 s3.
Proof. unfold sameClock. intuition congruence. Qed.

Lemma sameClock_inv s s' : sameClock s s' -> clockInv s -> clockInv s'.
Proof.
  unfold sameClock, clockInv, phaseLimit.
  intros (E1 & E2 & E3 & E4 & E5). rewrite E1, E2, E3, E4, E5. tauto.
Qed.

Lemma sameClock_ticksToStop s s' :
  sameClock s s' -> ticksToStop s' = ticksToStop s.
Proof.
  unfold sameClock, ticksToStop, phaseLimit.
  intros (E1 & E2 & E3 & E4 & E5). now rewrite E2, E3, E4, E5.
Qed.

Lemma driveClock_clock s : sameClock s (driveClock s).
Proof. unfold sameClock, driveClock. sred. tauto. Qed.

Lemma processTrigger_clock s : sameClock s (processTrigger s).
Proof.
  unfold sameClock, processTrigger. repeat split_if; sred; tauto.
Qed.

Lemma adcConvert_clock s : sameClock s (snd (adcConvert s)).
Proof. unfold sameClock, adcConvert. sred. tauto. Qed.

Lemma storeFirst_clock d c v s : sameClock s (storeFirst d c v s).
Proof. unfold sameClock, storeFirst. sred. tauto. Qed.

Lemma storeNext_clock d c v s : sameClock s (storeNext d c v s).
Proof. unfold sameClock, storeNext. sred. tauto. Qed.

Lemma readAgain_clock d c k s :
  (forall s', sameClock s' (k s')) -> sameClock s (readAgain d c k s).
Proof.
  intros Hk. unfold readAgain.
  destruct (negb (specDataReady s)); [apply sameClock_refl|].
  destruct (adcConvert s) as [v s1] eqn:E.
  assert (sameClock s s1) as H1.
  { replace s1 with (snd (adcConvert s)) by now rewrite E.
    apply adcConvert_clock. }
  eapply sameClock_trans; [|apply Hk].
  destruct (specDataReady s1); [|exact H1].
  eapply sameClock_trans; [exact H1|apply storeNext_clock].
Qed.

Lemma readADC_clock d c s : sameClock s (readADC d c s).
Proof.
  unfold readADC.
  destruct (adcConvert s) as [v s1] eqn:E.
  assert (sameClock s s1) as H1.
  { replace s1 with (snd (adcConvert s)) by now rewrite E.
    apply adcConvert_clock. }
  eapply sameClock_trans; [exact H1|].
  eapply sameClock_trans; [apply storeFirst_clock|].
  destruct ADC_AVG_4; repeat (apply readAgain_clock; intros);
    apply sameClock_refl.
Qed.

Lemma spectroTRGInterrupt_clock s : sameClock s (spectroTRGInterrupt s).
Proof.
  unfold spectroTRGInterrupt.
  destruct (trgPending s); [|apply sameClock_refl].
  cbv zeta.
  assert (sameClock s (set_trgPending false s)) as H0
    by (unfold sameClock; sred; tauto).
  destruct (specDataReady (set_trgPending false s));
    [|exact H0].
  destruct (specData (set_trgPending false s)); [|exact H0].
  destruct (specDataCounter (set_trgPending false s)); [|exact H0].
  eapply sameClock_trans; [exact H0|].
  eapply sameClock_trans; [|apply readADC_clock].
  unfold sameClock. sred. tauto.
Qed.

(** One step of the state machine takes one tick off the way to the stop. *)
Lemma clockStateMachine_progress s :
  Z.of_nat SPEC_PIXELS <= 65535 ->
  clockInv s -> specState s <> SPEC_STOP ->
  clockInv (clockStateMachine s)
  /\ ticksToStop (clockStateMachine s) = ticksToStop s - 1
  /\ LEAD_TICKS (clockStateMachine s) = LEAD_TICKS s
  /\ INTEG_TICKS (clockStateMachine s) = INTEG_TICKS s.
Proof.
  intros HN (Hon & HL & HI & Hc) Hns.
  destruct Hc as [|Hc]; [contradiction|].
  pose proof (READ_TICKS_bounds HN) as HR.
  unfold clockInv, ticksToStop, phaseLimit, clockStateMachine, TRAIL_TICKS in *.
  destruct (specState s) eqn:Hst; try contradiction;
    try match goal with
        | |- context [negb (Z.land ?t READY_BIT =? 0)] =>
            destruct (negb (Z.land t READY_BIT =? 0))
        end; sred;
    rewrite (u32_small (specCounter s + 1)) by lia;
    match goal with
    | |- context [specCounter s + 1 =? ?l] =>
        destruct (Z.eqb_spec (specCounter s + 1) l)
    end; sred; repeat split_if; sred; rewrite ?Hst;
    repeat split; auto; try lia; try (right; lia).
Qed.

Lemma timerPeriod_progress s :
  Z.of_nat SPEC_PIXELS <= 65535 ->
  clockInv s -> specState s <> SPEC_STOP ->
  clockInv (timerPeriod s)
  /\ ticksToStop (timerPeriod s) = ticksToStop s - 1
  /\ LEAD_TICKS (timerPeriod s) = LEAD_TICKS s
  /\ INTEG_TICKS (timerPeriod s) = INTEG_TICKS s.
Proof.
  intros HN Hinv Hns.
  pose proof (driveClock_clock s) as Hd.
  assert (specState (driveClock s) <> SPEC_STOP) as Hns'.
  { destruct Hd as (_ & -> & _). exact Hns. }
  destruct (clockStateMachine_progress (driveClock s) HN
              (sameClock_inv _ _ Hd Hinv) Hns') as (Hi & Ht & Hl & Hg).
  set (mid := clockStateMachine (driveClock s)) in *.
  assert (sameClock mid (timerPeriod s)) as Hs.
  { unfold timerPeriod, spectroClockInterrupt.
    destruct Hinv as (-> & _). cbn [negb]. cbv zeta. fold mid.
    eapply sameClock_trans; [apply processTrigger_clock|].
    apply spectroTRGInterrupt_clock. }
  split; [exact (sameClock_inv _ _ Hs Hi)|].
  rewrite (sameClock_ticksToStop _ _ Hs), Ht, (sameClock_ticksToStop _ _ Hd).
  destruct Hs as (_ & _ & _ & -> & ->), Hd as (_ & _ & _ & E4 & E5).
  rewrite Hl, Hg, E4, E5. auto.
Qed.

Lemma ticksToStop_pos s :
  Z.of_nat SPEC_PIXELS <= 65535 ->
  clockInv s -> specState s <> SPEC_STOP -> 0 < ticksToStop s.
Proof.
  intros HN (_ & HL & HI & [|Hc]) Hns; [contradiction|].
  pose proof (READ_TICKS_bounds HN) as HR.
  unfold ticksToStop, phaseLimit, TRAIL_TICKS in *.
  destruct (specState s); try contradiction; lia.
Qed.

(** The busy wait ends, given fuel for the ticks left. *)
Lemma waitForStop_terminates fuel :
  forall s,
    Z.of_nat SPEC_PIXELS <= 65535 ->
    clockInv s -> ticksToStop s <= Z.of_nat fuel ->
    exists s', waitForStop fuel s = Some s'
               /\ INTEG_TICKS s' = INTEG_TICKS s.
Proof.
  induction fuel as [|fuel IH]; intros s HN Hinv Hfuel.
  - destruct (specState s) eqn:Hst;
      try (pose proof (ticksToStop_pos s HN Hinv) as Hp;
           rewrite Hst in Hp; specialize (Hp ltac:(discriminate)); lia).
    exists s. simpl. now rewrite Hst.
  - destruct (spec_state_eqb (specState s) SPEC_STOP) eqn:Hst.
    + exists s. simpl. now rewrite Hst.
    + assert (specState s <> SPEC_STOP) as Hns.
      { intros E. rewrite E in Hst. discriminate. }
      destruct (timerPeriod_progress s HN Hinv Hns) as (Hi & Ht & _ & Hg).
      destruct (IH (timerPeriod s) HN Hi ltac:(lia)) as (s' & Hs' & Hg').
      exists s'. simpl. rewrite Hst. split; [exact Hs'|congruence].
Qed.


Lemma startSpecTimer_clock (d : Z) (b : bool) (s : Statics) :
  timerOn s = false ->
  timerOn (startSpecTimer d b s) = true
  /\ specState (startSpecTimer d b s) = SPEC_LEAD
  /\ specCounter (startSpecTimer d b s) = 0
  /\ INTEG_TICKS (startSpecTimer d b s) = INTEG_TICKS s.
Proof.
  intros Hoff. unfold startSpecTimer. rewrite Hoff. cbv zeta.
  cbn [extPinTRG set_specCounter set_timerOn].
  destruct (b && is_pin (extPinTRG s) && (0 <? d));
    [destruct (_ <? delayTimeTicks _)|];
    repeat match goal with
           | |- context [if is_pin ?p then _ else _] => destruct (is_pin p)
           end; repeat split; reflexivity.
Qed.

Lemma startSpecTimer_starts (d : Z) (b : bool) (s : Statics) :
  Z.of_nat SPEC_PIXELS <= 65535 ->
  timerOn s = false -> 0 < INTEG_TICKS s < 2 ^ 32 ->
  clockInv (startSpecTimer d b s)
  /\ ticksToStop (startSpecTimer d b s) <= 2 ^ 34.
Proof.
  intros HN Hoff HI.
  destruct (startSpecTimer_clock d b s Hoff) as (Hon & Hst & Hc & Hg).
  pose proof (startSpecTimer_LEAD d b s Hoff) as Hl.
  pose proof (READ_TICKS_bounds HN) as HR.
  pose proof (delayTimeTicks_range d) as Hd.
  assert (0 < LEAD_TICKS (startSpecTimer d b s) < 2 ^ 32) as HL.
  { rewrite Hl. unfold DEF_LEAD_TICKS.
    destruct (b && is_pin (extPinTRG s) && (0 <? d)); [|lia].
    destruct (Z.ltb_spec (64 + READ_TICKS + READ_TICKS) (delayTimeTicks d));
      [rewrite u32_small|]; lia. }
  unfold clockInv, ticksToStop, phaseLimit. rewrite Hon, Hst, Hc, Hg.
  unfold TRAIL_TICKS. repeat split; try lia; right; lia.
Qed.

Lemma setIntTime_timerOn t b s : timerOn (setIntTime t b s) = timerOn s.
Proof.
  unfold setIntTime. destruct (timerOn s) eqn:E; [exact E|].
  cbv zeta. repeat split_if; sred; exact E.
Qed.

Lemma setIntTime_INTEG_range t b s :
  Z.of_nat SPEC_PIXELS <= 65535 -> timerOn s = false ->
  0 < INTEG_TICKS (setIntTime t b s) < 2 ^ 32.
Proof.
  intros HN Hoff.
  pose proof (READ_TICKS_bounds HN) as HR.
  unfold setIntTime. rewrite Hoff. cbv zeta.
  unfold MIN_INTEG_TIME_US, MAX_INTEG_TIME_US, TIMER_US_FACTOR.
  set (tick := SPEC_CLK_TICK_TIMER).
  assert (tick = 50 \/ tick = 85) as Htick by apply tick_cases.
  pose proof (u32_range (t * 10)) as Ht.
  rewrite (u32_small (tick * READ_TICKS + 1000 * 10))
    by (destruct Htick as [-> | ->]; lia).
  set (c := if 10000000 * 10 <? _ then _ else _).
  assert (tick * READ_TICKS + 10000 <= c <= 100000000) as Hc.
  { subst c. destruct Htick as [-> | ->];
      repeat match goal with
             | |- context [?a <? ?b] => destruct (Z.ltb_spec a b)
             end; lia. }
  set (q := c / tick).
  assert (READ_TICKS + 117 <= q <= 2000000) as Hq.
  { subst q. destruct Htick as [-> | ->]; split.
    - apply Z.div_le_lower_bound; lia.
    - apply Z.div_le_upper_bound; lia.
    - apply Z.div_le_lower_bound; lia.
    - apply Z.div_le_upper_bound; lia. }
  sred. rewrite (u32_small (q - READ_TICKS + 1)) by lia.
  destruct (Z.eqb_spec (q - READ_TICKS + 1) 0) as [|_]; [lia|].
  sred. destruct (negb _); destruct b; sred;
    rewrite ?(u32_small (q - READ_TICKS + 1 + 1)) by lia; lia.
Qed.

(** The handlers never write the EEPROM. *)
Lemma readAgain_eeprom d c k s :
  (forall s', eeprom (k s') = eeprom s') ->
  eeprom (readAgain d c k s) = eeprom s.
Proof.
  intros Hk. unfold readAgain, adcConvert, storeNext.
  destruct (negb (specDataReady s)); [reflexivity|].
  rewrite Hk. sred. destruct (specDataReady s); reflexivity.
Qed.

Lemma readADC_eeprom d c s : eeprom (readADC d c s) = eeprom s.
Proof.
  unfold readADC, adcConvert, storeFirst.
  destruct ADC_AVG_4;
    rewrite !readAgain_eeprom;
    try reflexivity; intros; rewrite ?readAgain_eeprom; try reflexivity;
    intros; rewrite ?readAgain_eeprom; try reflexivity; intros; reflexivity.
Qed.

Lemma spectroTRGInterrupt_eeprom s :
  eeprom (spectroTRGInterrupt s) = eeprom s.
Proof.
  unfold spectroTRGInterrupt.
  destruct (trgPending s); [|reflexivity]. cbv zeta.
  destruct (specDataReady (set_trgPending false s)); [|reflexivity].
  destruct (specData (set_trgPending false s)); [|reflexivity].
  destruct (specDataCounter (set_trgPending false s)); [|reflexivity].
  now rewrite readADC_eeprom.
Qed.

Lemma spectroClockInterrupt_eeprom s :
  eeprom (spectroClockInterrupt s) = eeprom s.
Proof.
  unfold spectroClockInterrupt, processTrigger, clockStateMachine, driveClock.
  destruct (timerOn s); [|reflexivity]. cbn [negb]. cbv zeta. sred.
  destruct (specState s); repeat split_if; reflexivity.
Qed.

Lemma timerPeriod_eeprom s : eeprom (timerPeriod s) = eeprom s.
Proof.
  unfold timerPeriod.
  now rewrite spectroTRGInterrupt_eeprom, spectroClockInterrupt_eeprom.
Qed.

Lemma waitForStop_eeprom fuel :
  forall s s', waitForStop fuel s = Some s' -> eeprom s' = eeprom s.
Proof.
  induction fuel as [|fuel IH]; intros s s'; simpl;
    destruct (spec_state_eqb (specState s) SPEC_STOP); intros E;
    try discriminate; try (now injection E as <-).
  rewrite (IH _ _ E). apply timerPeriod_eeprom.
Qed.

Lemma startSpecTimer_eeprom d b s : eeprom (startSpecTimer d b s) = eeprom s.
Proof.
  unfold startSpecTimer. destruct (timerOn s); [reflexivity|]. cbv zeta.
  repeat split_if; reflexivity.
Qed.

Lemma setIntTime_eeprom t s : eeprom (setIntTime t false s) = eeprom s.
Proof.
  unfold setIntTime. destruct (timerOn s); [reflexivity|]. cbv zeta.
  repeat split_if; reflexivity.
Qed.
Lemma stopSpecTimer_eeprom s : eeprom (stopSpecTimer s) = eeprom s.
Proof. unfold stopSpecTimer. cbv zeta. repeat split_if; reflexivity. Qed.

Lemma readSpectrometer_restores fuel o timeUs ext light s :
  Z.of_nat SPEC_PIXELS <= 65535 -> 0 < timeUs ->
  (Z.to_nat (2 ^ 34) <= fuel)%nat ->
  exists s', readSpectrometer fuel o timeUs ext light s = Some s'
             /\ INTEG_TICKS s' = INTEG_TICKS s
             /\ eeprom s' = eeprom s.
Proof.
  intros HN Ht Hfuel. unfold readSpectrometer.
  destruct (timerOn s) eqn:Hoff; [eauto|].
  cbv zeta. destruct (Z.ltb_spec 0 timeUs) as [_|]; [|lia].
  match goal with
  | |- context [waitForStop fuel (startSpecTimer ?d ?b ?s0)] =>
      set (pre := s0);
      assert (timerOn pre = false /\ 0 < INTEG_TICKS pre < 2 ^ 32
              /\ eeprom pre = eeprom s) as (Hp1 & Hp2 & Hp3)
  end.
  { subst pre. unfold startADC.
    repeat match goal with
           | |- context [if ?c then _ else _] => destruct c
           end; sred;
    (apply (for_loop_invariant
             (fun a => timerOn a = false /\ 0 < INTEG_TICKS a < 2 ^ 32
                       /\ eeprom a = eeprom s));
     [intros i a Ha; sred; exact Ha|]); sred;
    (split; [now rewrite setIntTime_timerOn|];
     split; [now apply setIntTime_INTEG_range|apply setIntTime_eeprom]). }
  destruct (startSpecTimer_starts (extTrgMeasDelayUs_ o) ext pre HN Hp1 Hp2)
    as [Hinv Hticks].
  destruct (waitForStop_terminates fuel _ HN Hinv) as (s' & Hs' & _).
  { lia. }
  rewrite Hs'. eexists. split; [reflexivity|]. split; [reflexivity|].
  unfold endADC. sred.
  rewrite stopSpecTimer_eeprom, (waitForStop_eeprom _ _ _ Hs'),
    startSpecTimer_eeprom.
  exact Hp3.
Qed.

(** C10. A non-zero duration override is undone: with fuel for the cycle
    (no cycle takes [2 ^ 34] timer periods), [readSpectrometer] returns,
    [INTEG_TICKS] is what it was before the call and the EEPROM is not
    written; so it is after [takeMeasurement] and [takeBlackMeasurement]
    with an explicit duration. *)
Theorem duration_override_restores_integration fuel o timeUs ext light s :
  Z.of_nat SPEC_PIXELS <= 65535 -> 0 < timeUs ->
  (Z.to_nat (2 ^ 34) <= fuel)%nat ->
  (exists s', readSpectrometer fuel o timeUs ext light s = Some s'
              /\ INTEG_TICKS s' = INTEG_TICKS s
              /\ eeprom s' = eeprom s)
  /\ (exists d', takeMeasurement fuel timeUs ext (o, s) = Some d'
                 /\ INTEG_TICKS (snd d') = INTEG_TICKS s
                 /\ eeprom (snd d') = eeprom s)
  /\ (exists d', takeBlackMeasurement fuel timeUs (o, s) = Some d'
                 /\ INTEG_TICKS (snd d') = INTEG_TICKS s
                 /\ eeprom (snd d') = eeprom s).
Proof.
  intros HN Ht Hfuel. split; [now apply readSpectrometer_restores|]. split.
  - unfold takeMeasurement.
    destruct (timerOn s || measuringData_ s); [eauto|].
    destruct (readSpectrometer_restores fuel o timeUs ext ext
                (set_measuringData_ true s) HN Ht Hfuel) as (s' & E & Hg).
    rewrite E. eexists. split; [reflexivity|]. exact Hg.
  - unfold takeBlackMeasurement.
    destruct (timerOn s || measuringData_ s); [eauto|].
    destruct (readSpectrometer_restores fuel o timeUs false false
                (set_measuringData_ true s) HN Ht Hfuel) as (s' & E & Hg).
    rewrite E. eexists. split; [reflexivity|]. exact Hg.
Qed.

Lemma pinLevel_pinWrite_same n v g :
  pinLevel (Some n) (pinWrite (Some n) v g) = v.
Proof. simpl. now rewrite Nat.eqb_refl. Qed.

Lemma pinLevel_pinWrite_other p q v g :
  p <> q -> pinLevel p (pinWrite q v g) = pinLevel p g.
Proof.
  intros Hne. destruct p as [n|], q as [m|]; simpl; try reflexivity.
  destruct (Nat.eqb_spec n m); [congruence|reflexivity].
Qed.

(** C6 (as amended). With a light trigger line configured (and distinct
    from the external trigger line), the line is driven high by the tick
    that completes the second reset pass, the tick on which the machine
    leaves [SPEC_RESET2] and enters [SPEC_INTEGRATION]. *)
Theorem light_asserted_entering_integration s :
  timerOn s = true ->
  specState s = SPEC_RESET2 ->
  u32 (specCounter s + 1) = READ_TICKS ->
  is_pin (extPinLIGHT s) = true ->
  extPinLIGHT s <> extPinTRG s ->
  specState (spectroClockInterrupt s) = SPEC_INTEGRATION
  /\ pinLevel (extPinLIGHT s) (pins (spectroClockInterrupt s)) = true.
Proof.
  intros Hon Hst Hc Hpin Hne.
  unfold spectroClockInterrupt. rewrite Hon. cbn [negb]. cbv zeta.
  destruct (processTrigger_clock (clockStateMachine (driveClock s)))
    as (_ & -> & _).
  unfold clockStateMachine, driveClock. sred. rewrite Hst. sred.
  rewrite Hc, Z.eqb_refl, Hpin. sred. split; [reflexivity|].
  unfold processTrigger. sred.
  destruct (extPinLIGHT s) as [n|]; [|discriminate].
  repeat split_if; sred; unfold pinSetFast, pinResetFast;
    rewrite ?pinLevel_pinWrite_other by exact Hne;
    apply pinLevel_pinWrite_same.
Qed.

End ClockTheory.

Lemma duration_override_restores_integration_witness :
  (exists s',
      readSpectrometer (build := c12666ma) (Z.to_nat (2 ^ 34))
        (sampleDriver (build := c12666ma)) 20000 false false
        (idleStatics (build := c12666ma) (fun _ => 1000)) = Some s'
      /\ INTEG_TICKS s'
         = INTEG_TICKS (idleStatics (build := c12666ma) (fun _ => 1000))
      /\ eeprom s'
         = eeprom (idleStatics (build := c12666ma) (fun _ => 1000)))
  /\ (exists d',
        takeMeasurement (build := c12666ma) (Z.to_nat (2 ^ 34)) 20000 false
          (sampleDriver (build := c12666ma),
           idleStatics (build := c12666ma) (fun _ => 1000)) = Some d'
        /\ INTEG_TICKS (snd d')
           = INTEG_TICKS (idleStatics (build := c12666ma) (fun _ => 1000))
        /\ eeprom (snd d')
           = eeprom (idleStatics (build := c12666ma) (fun _ => 1000)))
  /\ (exists d',
        takeBlackMeasurement (build := c12666ma) (Z.to_nat (2 ^ 34)) 20000
          (sampleDriver (build := c12666ma),
           idleStatics (build := c12666ma) (fun _ => 1000)) = Some d'
        /\ INTEG_TICKS (snd d')
           = INTEG_TICKS (idleStatics (build := c12666ma) (fun _ => 1000))
        /\ eeprom (snd d')
           = eeprom (idleStatics (build := c12666ma) (fun _ => 1000))).
Proof.
  apply (duration_override_restores_integration (build := c12666ma));
    [simpl; lia | lia | apply le_n].
Defined.

Lemma light_asserted_entering_integration_witness :
  specState
    (spectroClockInterrupt (build := c12666ma)
       (runPeriods (build := c12666ma) 4183
          (startedWithLight (build := c12666ma) (fun _ => 1000))))
  = SPEC_INTEGRATION
  /\ pinLevel
       (extPinLIGHT
          (runPeriods (build := c12666ma) 4183
             (startedWithLight (build := c12666ma) (fun _ => 1000))))
       (pins
          (spectroClockInterrupt (build := c12666ma)
             (runPeriods (build := c12666ma) 4183
                (startedWithLight (build := c12666ma) (fun _ => 1000)))))
     = true.
Proof.
  apply (light_asserted_entering_integration (build := c12666ma));
    try (vm_compute; reflexivity); vm_compute; discriminate.
Defined.

(** C6 (as stated) fails.  After the 64 lead ticks and the 2060 ticks of the
    first reset pass the machine enters [SPEC_RESET2] with the light trigger
    line still low; the line stays low for the whole second pass and goes
    high with the tick that enters [SPEC_INTEGRATION]. *)
Lemma light_not_asserted_entering_reset2 :
  specState (runPeriods (build := c12666ma) 2123
               (startedWithLight (build := c12666ma) (fun _ => 1000)))
  = SPEC_RESET
  /\ specState (runPeriods (build := c12666ma) 2124
                  (startedWithLight (build := c12666ma) (fun _ => 1000)))
     = SPEC_RESET2
  /\ extPinLIGHT (runPeriods (build := c12666ma) 2124
                    (startedWithLight (build := c12666ma) (fun _ => 1000)))
     = Some 2%nat
  /\ pins (runPeriods (build := c12666ma) 2124
             (startedWithLight (build := c12666ma) (fun _ => 1000))) 2%nat
     = false
  /\ specState (runPeriods (build := c12666ma) 4183
                  (startedWithLight (build := c12666ma) (fun _ => 1000)))
     = SPEC_RESET2
  /\ pins (runPeriods (build := c12666ma) 4183
             (startedWithLight (build := c12666ma) (fun _ => 1000))) 2%nat
     = false
  /\ specState (runPeriods (build := c12666ma) 4184
                  (startedWithLight (build := c12666ma) (fun _ => 1000)))
     = SPEC_INTEGRATION
  /\ pins (runPeriods (build := c12666ma) 4184
             (startedWithLight (build := c12666ma) (fun _ => 1000))) 2%nat
     = true.
Proof.
  split; [vm_compute; reflexivity|].
  split; [vm_compute; reflexivity|].
  split; [vm_compute; reflexivity|].
  split; [vm_compute; reflexivity|].
  split; [vm_compute; reflexivity|].
  split; [vm_compute; reflexivity|].
  split; vm_compute; reflexivity.
Qed.

(** ** Measurement processor, exposure search and result access *)

Lemma Qltb_true x y : Qltb x y = true <-> (x < y)%Q.
Proof.
  unfold Qltb. rewrite negb_true_iff. split.
  - intros H. apply Qnot_le_lt. intros Hle.
    apply Qle_bool_iff in Hle. congruence.
  - intros H. destruct (Qle_bool y x) eqn:E; [|reflexivity].
    apply Qle_bool_iff in E. exfalso. exact (Qlt_not_le _ _ H E).
Qed.

Lemma Qltb_false x y : Qltb x y = false <-> (y <= x)%Q.
Proof.
  unfold Qltb. rewrite negb_false_iff. apply Qle_bool_iff.
Qed.

Lemma Qleb_true x y : Qleb x y = true <-> (x <= y)%Q.
Proof. apply Qle_bool_iff. Qed.

Section MeasurementTheory.

Context {build : Build}.

(** C8 (as amended). [setSaturationVoltages] stores an input inside the
    datasheet bounds unchanged, replaces a positive input outside them by
    the datasheet minimum of that gain, and leaves the stored voltage as it
    is when the input is zero or negative. *)
Theorem setSaturationVoltages_stored (h n : Q) (b : bool) (o : C12666MA)
    (s : Statics) :
  let o' := fst (setSaturationVoltages h n b (o, s)) in
  ((MIN_SAT_VOLTAGE_HIGH_GAIN <= h <= MAX_SAT_VOLTAGE_HIGH_GAIN)%Q ->
   satVoltageHighGain_ o' = h)
  /\ ((0 < h)%Q ->
      ~ (MIN_SAT_VOLTAGE_HIGH_GAIN <= h <= MAX_SAT_VOLTAGE_HIGH_GAIN)%Q ->
      satVoltageHighGain_ o' = MIN_SAT_VOLTAGE_HIGH_GAIN)
  /\ ((h <= 0)%Q -> satVoltageHighGain_ o' = satVoltageHighGain_ o)
  /\ ((MIN_SAT_VOLTAGE_NO_GAIN <= n <= MAX_SAT_VOLTAGE_NO_GAIN)%Q ->
      satVoltageNoGain_ o' = n)
  /\ ((0 < n)%Q ->
      ~ (MIN_SAT_VOLTAGE_NO_GAIN <= n <= MAX_SAT_VOLTAGE_NO_GAIN)%Q ->
      satVoltageNoGain_ o' = MIN_SAT_VOLTAGE_NO_GAIN)
  /\ ((n <= 0)%Q -> satVoltageNoGain_ o' = satVoltageNoGain_ o).
Proof.
  intros o'. subst o'. unfold setSaturationVoltages.
  assert (0 < MIN_SAT_VOLTAGE_HIGH_GAIN)%Q as HposH by reflexivity.
  assert (0 < MIN_SAT_VOLTAGE_NO_GAIN)%Q as HposN by reflexivity.
  destruct (Qltb 0 h) eqn:Hh0;
    [apply Qltb_true in Hh0|apply Qltb_false in Hh0];
  destruct (Qltb 0 n) eqn:Hn0;
    [apply Qltb_true in Hn0|apply Qltb_false in Hn0
    |apply Qltb_true in Hn0|apply Qltb_false in Hn0];
  destruct (Qleb MIN_SAT_VOLTAGE_HIGH_GAIN h) eqn:Hh1;
  destruct (Qleb h MAX_SAT_VOLTAGE_HIGH_GAIN) eqn:Hh2;
  destruct (Qleb MIN_SAT_VOLTAGE_NO_GAIN n) eqn:Hn1;
  destruct (Qleb n MAX_SAT_VOLTAGE_NO_GAIN) eqn:Hn2;
  destruct b; sred;
  repeat match goal with
         | H : Qleb _ _ = true |- _ => apply Qleb_true in H
         | H : Qleb _ _ = false |- _ =>
             apply not_true_iff_false in H; rewrite Qleb_true in H
         end;
  unfold MIN_SAT_VOLTAGE_HIGH_GAIN, MAX_SAT_VOLTAGE_HIGH_GAIN,
    MIN_SAT_VOLTAGE_NO_GAIN, MAX_SAT_VOLTAGE_NO_GAIN in *;
  repeat split; intros; try reflexivity; exfalso;
  first [ Lqa.lra
        | match goal with
          | H : ~ (_ <= _ <= _)%Q |- _ => apply H; split; Lqa.lra
          end ].
Qed.
Lemma getData_nonneg p (data black : list Q) :
  (p < length data)%nat -> (p < length black)%nat ->
  exists v, getData p true data black = Some v /\ (0 <= v)%Q.
Proof.
  intros Hd Hb.
  destruct (lookup_lt_is_Some_2 data p Hd) as [d Ed].
  destruct (lookup_lt_is_Some_2 black p Hb) as [b Eb].
  unfold getData. cbn [negb]. rewrite Ed, Eb. cbn.
  eexists. split; [reflexivity|].
  destruct (Qltb d b) eqn:E; [Lqa.lra|].
  apply Qltb_false in E. Lqa.lra.
Qed.

(** C4 (as amended). For a pixel inside the arrays the black-subtracted
    value [max(0, data - black)] is never negative, and neither is
    [getMeasurement(p, true)] when bandpass correction is disabled. *)
Theorem black_subtraction_nonneg (o : C12666MA) (p : nat) :
  (p < length (data_ o))%nat -> (p < length (blackLevels_ o))%nat ->
  (exists v, getData p true (data_ o) (blackLevels_ o) = Some v
             /\ (0 <= v)%Q)
  /\ (applyBandPassCorrection_ o = false ->
      exists v, getMeasurement o p true = Some v /\ (0 <= v)%Q).
Proof.
  intros Hd Hb.
  destruct (getData_nonneg p _ _ Hd Hb) as (v & Ev & Hv).
  split; [eauto|]. intros Hoff.
  unfold getMeasurement. rewrite Ev, Hoff. cbn. eauto.
Qed.

(** *** processMeasurement *)

Lemma convertReading_formula mt vref vsat d c :
  c <> 0 -> ~ (vsat == 0)%Q ->
  (convertReading mt vref vsat d c == measurementFormula mt d c vref vsat)%Q.
Proof.
  intros Hc Hv. unfold convertReading, measurementFormula, ADC_MAX_VALUE.
  destruct (Z.eqb_spec c 0) as [|_]; [contradiction|].
  assert (~ (inject_Z c == 0)%Q) as Hc'.
  { intros E. apply Hc. unfold Qeq in E. simpl in E. lia. }
  destruct mt; rewrite ?inject_Z_mult; change (inject_Z 65535) with 65535%Q;
    field; auto.
Qed.

Lemma convertReading_nonneg mt vref vsat d c :
  0 <= d -> 0 < c -> (0 < vref)%Q -> (0 < vsat)%Q ->
  (0 <= convertReading mt vref vsat d c)%Q.
Proof.
  intros Hd Hc Hr Hs. unfold convertReading, ADC_MAX_VALUE.
  assert (0 <= inject_Z d)%Q as Hd'.
  { unfold Qle. simpl. lia. }
  assert (0 < inject_Z c)%Q as Hc'.
  { unfold Qlt. simpl. lia. }
  assert (0 < inject_Z (c * 65535))%Q as Hc''.
  { unfold Qlt. simpl. lia. }
  destruct mt; apply Qle_shift_div_l; rewrite ?Qmult_0_l;
    try exact Hc'';
    try (apply Qmult_le_0_compat; [exact Hd'|apply Qlt_le_weak, Hr]);
    try exact Hd'.
  apply Qmult_lt_0_compat; [apply Qmult_lt_0_compat|]; try assumption.
  reflexivity.
Qed.

Lemma adcVoltages_pos r : (0 < adcVoltages r)%Q.
Proof. destruct r; reflexivity. Qed.

Lemma processPixel_step s mt vref vsat i (m : list Q) mx :
  (i < length m)%nat ->
  let r := if nth i (dataCounts s) 0 =? 0 then 0%Q
           else convertReading mt vref vsat (nth i (data s) 0)
                  (nth i (dataCounts s) 0) in
  processPixel s mt vref vsat i (m, mx)
  = (<[i := r]> m, if Qltb mx r then r else mx).
Proof.
  intros Hi r. subst r. unfold processPixel.
  destruct (nth i (dataCounts s) 0 =? 0); cbn [negb].
  - rewrite (nth_lookup_Some _ i 0%Q 0%Q); [reflexivity|].
    now apply list_lookup_insert_eq.
  - rewrite list_insert_insert_eq.
    rewrite (nth_lookup_Some _ i 0%Q
               (convertReading mt vref vsat (nth i (data s) 0)
                  (nth i (dataCounts s) 0))); [reflexivity|].
    now apply list_lookup_insert_eq.
Qed.

(** The loop of [processMeasurement] after [n] pixels. *)
Lemma processMeasurement_rounds o s mt (m : list Q) n :
  (n <= length m)%nat ->
  let st :=
    fold_left
      (fun st k =>
         processPixel s mt (adcVoltages (adcRef_ o)) (satVoltageOf o)
           (0 + k * 1)%nat st)
      (seq 0 n) (m, 0%Q) in
  length (fst st) = length m
  /\ (forall i, (i < n)%nat -> fst st !! i = Some (pixelReading o s mt i))
  /\ (0 <= snd st)%Q
  /\ (forall i, (i < n)%nat -> (pixelReading o s mt i <= snd st)%Q)
  /\ (snd st = 0%Q
      \/ exists i, (i < n)%nat /\ snd st = pixelReading o s mt i).
Proof.
  induction n as [|n IH]; intros Hn st; subst st.
  - cbn. repeat split; try (intros; lia); [Lqa.lra|now left].
  - rewrite seq_S, fold_left_app. cbn [fold_left].
    specialize (IH ltac:(lia)). cbv zeta in IH.
    destruct (fold_left _ (seq 0 n) (m, 0%Q)) as [m' mx] eqn:E.
    cbn [fst snd] in IH. destruct IH as (Hl & Hv & H0 & Hle & Hat).
    replace (0 + (0 + n) * 1)%nat with n by lia.
    rewrite processPixel_step by lia. cbv zeta.
    fold (pixelReading o s mt n). cbn [fst snd].
    set (r := pixelReading o s mt n).
    split; [now rewrite length_insert|].
    split.
    { intros i Hi. destruct (Nat.eq_dec i n) as [->|Hne].
      - apply list_lookup_insert_eq. lia.
      - rewrite list_lookup_insert_ne by lia. apply Hv. lia. }
    destruct (Qltb mx r) eqn:Hlt;
      [apply Qltb_true in Hlt|apply Qltb_false in Hlt].
    + split; [Lqa.lra|]. split.
      * intros i Hi. destruct (Nat.eq_dec i n) as [->|Hne];
          [apply Qle_refl|].
        specialize (Hle i ltac:(lia)). Lqa.lra.
      * right. exists n. split; [lia|reflexivity].
    + split; [exact H0|]. split.
      * intros i Hi. destruct (Nat.eq_dec i n) as [->|Hne];
          [exact Hlt|apply Hle; lia].
      * destruct Hat as [Hz|(i & Hi & Ei)]; [now left|].
        right. exists i. split; [lia|exact Ei].
Qed.

Lemma nth_nonneg (l : list Z) i : Forall (Z.le 0) l -> 0 <= nth i l 0.
Proof.
  intros H. destruct (nth_lookup_or_length l i 0) as [E|E].
  - exact (proj1 (Forall_lookup _ _) H _ _ E).
  - rewrite nth_overflow by lia. lia.
Qed.

Lemma pixelReading_nonneg o s mt i :
  Forall (Z.le 0) (data s) -> Forall (Z.le 0) (dataCounts s) ->
  (0 < satVoltageOf o)%Q -> (0 <= pixelReading o s mt i)%Q.
Proof.
  intros Hd Hc Hs. unfold pixelReading.
  destruct (Z.eqb_spec (nth i (dataCounts s) 0) 0) as [|Hne]; [Lqa.lra|].
  apply convertReading_nonneg; auto using nth_nonneg, adcVoltages_pos.
  pose proof (nth_nonneg _ i Hc). lia.
Qed.

(** C1. [processMeasurement] stores for every pixel the design's formula of
    its sum and count (zero for a count of zero), with the configured
    reference voltage and the saturation voltage of the gain in use, and
    returns the maximum of the stored values.  Sums and counts are unsigned
    and the saturation voltage is positive. *)
Theorem processMeasurement_spec (o : C12666MA) (s : Statics) (mt : measure_t)
    (m : list Q) :
  length m = SPEC_PIXELS ->
  Forall (Z.le 0) (data s) -> Forall (Z.le 0) (dataCounts s) ->
  (0 < satVoltageOf o)%Q ->
  let m' := fst (processMeasurement o s mt m) in
  let maxVal := snd (processMeasurement o s mt m) in
  (forall i S C,
      (i < SPEC_PIXELS)%nat ->
      data s !! i = Some S -> dataCounts s !! i = Some C ->
      exists v, m' !! i = Some v
                /\ (v == measurementFormula mt S C (adcVoltages (adcRef_ o))
                          (satVoltageOf o))%Q)
  /\ (forall i v, m' !! i = Some v -> (v <= maxVal)%Q)
  /\ ((0 < SPEC_PIXELS)%nat ->
      exists i v, m' !! i = Some v /\ (v == maxVal)%Q).
Proof.
  intros Hlen Hd Hc Hs m' maxVal. subst m' maxVal.
  unfold processMeasurement. cbv zeta.
  rewrite (for_range_fold _ 0 SPEC_PIXELS 1 SPEC_PIXELS);
    [|lia|intros; lia|lia].
  fold (satVoltageOf o).
  pose proof (processMeasurement_rounds o s mt m SPEC_PIXELS ltac:(lia))
    as H. cbv zeta in H.
  destruct (fold_left _ (seq 0 SPEC_PIXELS) (m, 0%Q)) as [m' mx].
  cbn [fst snd] in *. destruct H as (Hl & Hv & H0 & Hle & Hat).
  split; [|split].
  - intros i S C Hi ES EC. exists (pixelReading o s mt i).
    split; [now apply Hv|]. unfold pixelReading.
    rewrite (nth_lookup_Some _ _ 0 _ ES), (nth_lookup_Some _ _ 0 _ EC).
    destruct (Z.eqb_spec C 0) as [->|Hne]; [reflexivity|].
    apply convertReading_formula; [exact Hne|].
    intros E. rewrite E in Hs. now apply Qlt_irrefl in Hs.
  - intros i v Ev.
    assert (i < SPEC_PIXELS)%nat as Hi.
    { rewrite <- Hlen, <- Hl. apply lookup_lt_is_Some_1. eauto. }
    rewrite (Hv i Hi) in Ev. injection Ev as <-. now apply Hle.
  - intros Hpos. destruct Hat as [->|(i & Hi & ->)].
    + exists 0%nat, (pixelReading o s mt 0). split; [now apply Hv|].
      apply Qle_antisym; [now apply Hle|].
      now apply pixelReading_nonneg.
    + exists i, (pixelReading o s mt i). split; [now apply Hv|reflexivity].
Qed.

End MeasurementTheory.

(** *** The search step

    Rounding to binary32, and the step of line 1128 against the exact
    quotient. *)

Section SearchStepTheory.

Context {build : Build}.

Local Open Scope Q_scope.

Lemma pow2_pos e : 0 < 2 ^ e.
Proof. apply Qpower_0_lt. reflexivity. Qed.

Lemma pow2_neq0 e : ~ 2 ^ e == 0.
Proof.
  intros E. pose proof (pow2_pos e) as H. rewrite E in H.
  now apply Qlt_irrefl in H.
Qed.

Lemma pow2_add a b : 2 ^ (a + b) == 2 ^ a * 2 ^ b.
Proof. apply Qpower_plus. discriminate. Qed.

Lemma pow2_le a b : (a <= b)%Z -> 2 ^ a <= 2 ^ b.
Proof. intros H. apply Qpower_le_compat_l; [exact H|]. discriminate. Qed.

Lemma pow2_lt a b : (a < b)%Z -> 2 ^ a < 2 ^ b.
Proof. intros H. apply Qpower_lt_compat_l; [exact H|]. reflexivity. Qed.

Lemma pow2_lt_inv a b : 2 ^ a < 2 ^ b -> (a < b)%Z.
Proof.
  intros H. destruct (Z.lt_ge_cases a b) as [|Hge]; [assumption|].
  apply pow2_le in Hge. exfalso. apply (Qlt_irrefl (2 ^ a)).
  eapply Qlt_le_trans; eassumption.
Qed.

Lemma pow2_Z n : (0 <= n)%Z -> inject_Z (2 ^ n) == 2 ^ n.
Proof. intros H. now rewrite Zpower_Qpower. Qed.

Lemma Qlog2_spec q : 0 < q -> 2 ^ Qlog2 q <= q /\ q < 2 ^ (Qlog2 q + 1).
Proof.
  intros Hq. unfold Qlog2.
  set (a := Qnum q). set (b := Zpos (Qden q)).
  assert (0 < a)%Z as Ha by (unfold Qlt in Hq; simpl in Hq; subst a; lia).
  assert (0 < b)%Z as Hb by (subst b; lia).
  rewrite (Z.abs_eq a) by lia.
  rewrite (Qabs_pos q) by now apply Qlt_le_weak.
  destruct (Z.log2_spec a Ha) as [Ha1 Ha2].
  destruct (Z.log2_spec b Hb) as [Hb1 Hb2].
  set (la := Z.log2 a) in *. set (lb := Z.log2 b) in *.
  assert (0 <= la)%Z by apply Z.log2_nonneg.
  assert (0 <= lb)%Z by apply Z.log2_nonneg.
  assert (q == inject_Z a / inject_Z b) as Eq.
  { subst a b. destruct q as [n d]. simpl. apply Qmake_Qdiv. }
  assert (0 < inject_Z b) as HB by (unfold Qlt; simpl; lia).
  assert (2 ^ la <= inject_Z a) as A1.
  { rewrite <- pow2_Z by lia. rewrite <- Zle_Qle. exact Ha1. }
  assert (inject_Z a < 2 ^ (la + 1)) as A2.
  { rewrite <- pow2_Z by lia. rewrite <- Zlt_Qlt.
    now rewrite <- Z.add_1_r in Ha2. }
  assert (2 ^ lb <= inject_Z b) as B1.
  { rewrite <- pow2_Z by lia. rewrite <- Zle_Qle. exact Hb1. }
  assert (inject_Z b < 2 ^ (lb + 1)) as B2.
  { rewrite <- pow2_Z by lia. rewrite <- Zlt_Qlt.
    now rewrite <- Z.add_1_r in Hb2. }
  assert (q < 2 ^ (la - lb + 1)) as Hup.
  { rewrite Eq. apply Qlt_shift_div_r; [exact HB|].
    replace (la - lb + 1)%Z with ((la + 1) + - lb)%Z by lia.
    rewrite pow2_add, Qpower_opp.
    pose proof (pow2_pos lb) as Hp. pose proof (pow2_pos (la + 1)) as Hp'.
    apply Qlt_le_trans with (2 ^ (la + 1)); [exact A2|].
    rewrite <- (Qmult_1_r (2 ^ (la + 1))) at 1.
    rewrite <- Qmult_assoc. apply Qmult_le_l; [exact Hp'|].
    assert (0 < / 2 ^ lb) as Hi by now apply Qinv_lt_0_compat.
    assert (/ 2 ^ lb * 2 ^ lb == 1) as E1
      by (rewrite Qmult_comm; apply Qmult_inv_r; intros E0; rewrite E0 in Hp;
          now apply Qlt_irrefl in Hp).
    rewrite <- E1. apply Qmult_le_l; assumption. }
  assert (2 ^ (la - lb - 1) <= q) as Hlo.
  { rewrite Eq. apply Qle_shift_div_l; [exact HB|].
    replace (la - lb - 1)%Z with (la + - (lb + 1))%Z by lia.
    rewrite pow2_add, Qpower_opp.
    pose proof (pow2_pos (lb + 1)) as Hp. pose proof (pow2_pos la) as Hp'.
    apply Qle_trans with (2 ^ la); [|exact A1].
    rewrite <- (Qmult_1_r (2 ^ la)) at 2.
    rewrite <- Qmult_assoc. apply Qmult_le_l; [exact Hp'|].
    assert (0 < / 2 ^ (lb + 1)) as Hi by now apply Qinv_lt_0_compat.
    assert (/ 2 ^ (lb + 1) * 2 ^ (lb + 1) == 1) as E1
      by (rewrite Qmult_comm; apply Qmult_inv_r; intros E0; rewrite E0 in Hp;
          now apply Qlt_irrefl in Hp).
    rewrite <- E1. apply Qmult_le_l; [exact Hi|]. now apply Qlt_le_weak. }
  destruct (Qle_bool (2 ^ (la - lb)) q) eqn:E.
  - apply Qle_bool_iff in E. split; assumption.
  - replace (la - lb - 1 + 1)%Z with (la - lb)%Z by lia.
    split; [exact Hlo|].
    apply Qnot_le_lt. intros Hc. apply Qle_bool_iff in Hc. congruence.
Qed.

Lemma roundHalfEven_near q :
  q - (1 # 2) <= inject_Z (roundHalfEven q)
  /\ inject_Z (roundHalfEven q) <= q + (1 # 2).
Proof.
  unfold roundHalfEven.
  pose proof (Qfloor_le q) as H1. pose proof (Qlt_floor q) as H2.
  rewrite inject_Z_plus in H2. change (inject_Z 1) with 1 in H2.
  set (f := Qfloor q) in *.
  destruct (q - inject_Z f ?= 1 # 2) eqn:E.
  - apply Qeq_alt in E.
    destruct (Z.even f); rewrite ?inject_Z_plus;
      change (inject_Z 1) with 1; split; Lqa.lra.
  - apply Qlt_alt in E. split; Lqa.lra.
  - apply Qgt_alt in E. rewrite inject_Z_plus. change (inject_Z 1) with 1.
    split; Lqa.lra.
Qed.

Lemma roundHalfEven_Z z : roundHalfEven (inject_Z z) = z.
Proof.
  unfold roundHalfEven. rewrite Qfloor_Z.
  assert ((inject_Z z - inject_Z z ?= 1 # 2) = Lt) as ->; [|reflexivity].
  apply (proj1 (Qlt_alt _ _)).
  assert (inject_Z z - inject_Z z == 0) as -> by ring. reflexivity.
Qed.

#[local] Instance roundHalfEven_comp : Proper (Qeq ==> eq) roundHalfEven.
Proof.
  intros x y E. unfold roundHalfEven.
  rewrite (Qfloor_comp _ _ E).
  assert ((x - inject_Z (Qfloor y) ?= 1 # 2)
          = (y - inject_Z (Qfloor y) ?= 1 # 2)) as ->; [|reflexivity].
  now rewrite E.
Qed.

Lemma roundHalfEven_nonneg q : 0 <= q -> (0 <= roundHalfEven q)%Z.
Proof.
  intros H. destruct (roundHalfEven_near q) as [H1 _].
  assert (-1 < inject_Z (roundHalfEven q)) as H2 by Lqa.lra.
  change (-1) with (inject_Z (-1)) in H2. rewrite <- Zlt_Qlt in H2. lia.
Qed.

(** Rounding does not pass an integer. *)
Lemma roundHalfEven_le q n :
  q <= inject_Z n -> (roundHalfEven q <= n)%Z.
Proof.
  intros H. destruct (roundHalfEven_near q) as [_ H2].
  assert (inject_Z (roundHalfEven q) < inject_Z (n + 1)) as H3
    by (rewrite inject_Z_plus; change (inject_Z 1) with 1; Lqa.lra).
  rewrite <- Zlt_Qlt in H3. lia.
Qed.

Lemma roundHalfEven_ge q n :
  inject_Z n <= q -> (n <= roundHalfEven q)%Z.
Proof.
  intros H. destruct (roundHalfEven_near q) as [H2 _].
  assert (inject_Z (n + -1) < inject_Z (roundHalfEven q)) as H3.
  { rewrite inject_Z_plus. change (inject_Z (-1)) with (-1 # 1). Lqa.lra. }
  rewrite <- Zlt_Qlt in H3. lia.
Qed.

Lemma f32_nearest_err q :
  Qabs (f32_nearest q - q) <= 2 ^ (f32_ulp q - 1).
Proof.
  unfold f32_nearest. set (e := f32_ulp q).
  pose proof (pow2_pos e) as Hp.
  destruct (roundHalfEven_near (q / 2 ^ e)) as [H1 H2].
  set (m := inject_Z (roundHalfEven (q / 2 ^ e))) in *.
  assert (q == q / 2 ^ e * 2 ^ e) as Eq.
  { field. intros E0. rewrite E0 in Hp. now apply Qlt_irrefl in Hp. }
  assert (2 ^ (e - 1) == (1 # 2) * 2 ^ e) as Eh.
  { unfold Z.sub. rewrite pow2_add. change (2 ^ (-1)) with (1 # 2).
    apply Qmult_comm. }
  rewrite Eh. apply Qabs_Qle_condition.
  set (x := q / 2 ^ e) in *. rewrite Eq. clearbody x m.
  split; Lqa.nra.
Qed.

Lemma Qlog2_ge q e : 0 < q -> 2 ^ e <= q -> (e <= Qlog2 q)%Z.
Proof.
  intros Hq H. destruct (Qlog2_spec q Hq) as [_ H2].
  assert (2 ^ e < 2 ^ (Qlog2 q + 1)) as H3 by (eapply Qle_lt_trans; eassumption).
  apply pow2_lt_inv in H3. lia.
Qed.

Lemma Qlog2_lt q e : 0 < q -> q < 2 ^ e -> (Qlog2 q < e)%Z.
Proof.
  intros Hq H. destruct (Qlog2_spec q Hq) as [H1 _].
  apply pow2_lt_inv. eapply Qle_lt_trans; eassumption.
Qed.

(** In the normal range the relative error is at most [2 ^ -24]. *)
Lemma f32_nearest_normal q :
  2 ^ (-126) <= q ->
  q * (1 - 2 ^ (-24)) <= f32_nearest q <= q * (1 + 2 ^ (-24)).
Proof.
  intros Hn.
  assert (0 < q) as Hq
    by (eapply Qlt_le_trans; [apply (pow2_pos (-126))|exact Hn]).
  pose proof (f32_nearest_err q) as He.
  pose proof (Qlog2_ge q (-126) Hq Hn) as Hl.
  destruct (Qlog2_spec q Hq) as [H1 _].
  unfold f32_ulp in He. rewrite Z.max_r in He by lia.
  replace (Qlog2 q - 23 - 1)%Z with (Qlog2 q + -24)%Z in He by lia.
  rewrite pow2_add in He.
  apply Qabs_Qle_condition in He.
  pose proof (pow2_pos (-24)) as Hu.
  set (u := 2 ^ (-24)) in *. set (p := 2 ^ Qlog2 q) in *.
  set (r := f32_nearest q) in *. clearbody u p r.
  split; Lqa.nra.
Qed.


Lemma f32_nearest_zero q : q == 0 -> f32_nearest q == 0.
Proof.
  intros E. unfold f32_nearest.
  set (e := f32_ulp q). clearbody e.
  assert (q / 2 ^ e == inject_Z 0) as ->.
  { rewrite E. unfold Qdiv. apply Qmult_0_l. }
  rewrite roundHalfEven_Z. apply Qmult_0_l.
Qed.

Lemma f32_nearest_subnormal q :
  f32_grid q -> 0 <= q -> q < 2 ^ (-126) -> f32_nearest q == q.
Proof.
  intros [z Ez] H0 Hs.
  destruct (Qeq_dec q 0) as [E0|Hne].
  { rewrite E0 at 2. now apply f32_nearest_zero. }
  assert (0 < q) as Hq.
  { apply Qle_lteq in H0. destruct H0 as [|E]; [assumption|].
    exfalso. apply Hne. now symmetry. }
  pose proof (Qlog2_lt q (-126) Hq Hs) as Hl.
  unfold f32_nearest, f32_ulp. rewrite Z.max_l by lia.
  assert (q / 2 ^ (-149) == inject_Z z) as ->.
  { rewrite Ez. field. discriminate. }
  rewrite roundHalfEven_Z. now symmetry.
Qed.

(** On the multiples of the least unit the relative error is at most
    [2 ^ -24] throughout. *)
Lemma f32_nearest_rel q :
  f32_grid q -> 0 <= q ->
  q * (1 - 2 ^ (-24)) <= f32_nearest q <= q * (1 + 2 ^ (-24)).
Proof.
  intros Hg H0.
  destruct (Qlt_le_dec q (2 ^ (-126))) as [Hs|Hn].
  - rewrite (f32_nearest_subnormal q Hg H0 Hs).
    pose proof (pow2_pos (-24)) as Hu. set (u := 2 ^ (-24)) in *.
    clearbody u. split; Lqa.nra.
  - now apply f32_nearest_normal.
Qed.

Lemma f32_nearest_grid q : f32_grid (f32_nearest q).
Proof.
  unfold f32_nearest, f32_grid, f32_ulp.
  set (e := Z.max (-149) (Qlog2 q - 23)).
  set (m := roundHalfEven (q / 2 ^ e)).
  exists (m * 2 ^ (e + 149))%Z.
  rewrite inject_Z_mult, pow2_Z by lia.
  replace e with ((e + 149) + -149)%Z at 1 by lia.
  rewrite pow2_add. ring.
Qed.

Lemma f32_nearest_nonneg q : 0 <= q -> 0 <= f32_nearest q.
Proof.
  intros H. unfold f32_nearest.
  set (e := f32_ulp q).
  pose proof (pow2_pos e) as Hp.
  apply Qmult_le_0_compat; [|now apply Qlt_le_weak].
  change 0 with (inject_Z 0). rewrite <- Zle_Qle.
  apply roundHalfEven_nonneg.
  apply Qle_shift_div_l; [exact Hp|]. now rewrite Qmult_0_l.
Qed.

(** The conversion of an unsigned integer gives a whole number. *)
Lemma f32_nearest_Z n :
  (0 <= n)%Z -> exists z, (0 <= z)%Z /\ f32_nearest (inject_Z n) == inject_Z z.
Proof.
  intros Hn. pose proof (f32_nearest_nonneg (inject_Z n)) as H0.
  unfold f32_nearest in *.
  set (e := f32_ulp (inject_Z n)) in *.
  set (m := roundHalfEven (inject_Z n / 2 ^ e)) in *.
  assert (0 <= m)%Z as Hm.
  { subst m. apply roundHalfEven_nonneg.
    apply Qle_shift_div_l; [apply pow2_pos|]. rewrite Qmult_0_l.
    change 0 with (inject_Z 0). now rewrite <- Zle_Qle. }
  destruct (Z.le_gt_cases 0 e) as [He|He].
  - exists (m * 2 ^ e)%Z. split; [lia|].
    now rewrite inject_Z_mult, pow2_Z.
  - exists n. split; [exact Hn|].
    assert (inject_Z n / 2 ^ e == inject_Z (n * 2 ^ (- e))) as E.
    { rewrite inject_Z_mult, pow2_Z by lia. rewrite Qpower_opp.
      field. apply pow2_neq0. }
    subst m. rewrite E, roundHalfEven_Z.
    rewrite inject_Z_mult, pow2_Z by lia. rewrite Qpower_opp.
    field. apply pow2_neq0.
Qed.

(** Below the normal range the result stays below it. *)
Lemma f32_nearest_small q :
  0 <= q -> q <= 2 ^ (-126) -> f32_nearest q <= 2 ^ (-126).
Proof.
  intros H0 Hs.
  destruct (Qeq_dec q 0) as [E0|Hne].
  { rewrite (f32_nearest_zero q E0). apply Qlt_le_weak, pow2_pos. }
  assert (0 < q) as Hq.
  { apply Qle_lteq in H0. destruct H0 as [|E]; [assumption|].
    exfalso. apply Hne. now symmetry. }
  assert (Qlog2 q <= -126)%Z as Hl.
  { destruct (Qlog2_spec q Hq) as [H1 _].
    destruct (Z.le_gt_cases (Qlog2 q) (-126)) as [|Hgt]; [assumption|].
    exfalso. apply (pow2_lt (-126) (Qlog2 q)) in Hgt.
    apply (Qlt_irrefl q). eapply Qle_lt_trans; [exact Hs|].
    eapply Qlt_le_trans; eassumption. }
  unfold f32_nearest, f32_ulp. rewrite Z.max_l by lia.
  assert (roundHalfEven (q / 2 ^ (-149)) <= 2 ^ 23)%Z as Hm.
  { apply roundHalfEven_le. apply Qle_shift_div_r; [apply pow2_pos|].
    eapply Qle_trans; [exact Hs|]. apply Qle_lteq. right. reflexivity. }
  rewrite Zle_Qle in Hm.
  assert (inject_Z (2 ^ 23) * 2 ^ (-149) == 2 ^ (-126)) as E by reflexivity.
  rewrite <- E. apply Qmult_le_compat_r; [exact Hm|].
  apply Qlt_le_weak, pow2_pos.
Qed.

#[local] Instance f32_grid_comp : Proper (Qeq ==> iff) f32_grid.
Proof.
  intros x y E. unfold f32_grid. split; intros [z Hz]; exists z.
  - now rewrite <- E.
  - now rewrite E.
Qed.

Lemma is_f32_grid q : is_f32 q -> f32_grid q.
Proof.
  unfold is_f32, f32_round.
  destruct (Qle_bool (2 ^ 128) (Qabs (f32_nearest q))); [tauto|].
  intros E. rewrite <- E. apply f32_nearest_grid.
Qed.

Lemma f32_grid_sub a b : f32_grid a -> f32_grid b -> f32_grid (a - b).
Proof.
  intros [x Hx] [y Hy]. exists (x - y)%Z.
  unfold Z.sub. rewrite inject_Z_plus, inject_Z_opp, Hx, Hy. ring.
Qed.

Lemma f32_grid_Z n : f32_grid (inject_Z n).
Proof.
  exists (n * 2 ^ 149)%Z. rewrite inject_Z_mult.
  assert (inject_Z (2 ^ 149) * 2 ^ (-149) == 1) as E by reflexivity.
  rewrite <- Qmult_assoc, E. ring.
Qed.

Lemma f32_grid_mul_Z a z : f32_grid a -> f32_grid (a * inject_Z z).
Proof.
  intros [x Hx]. exists (x * z)%Z. rewrite inject_Z_mult, Hx. ring.
Qed.

Lemma f32_round_some q :
  0 <= q -> f32_nearest q < 2 ^ 128 -> f32_round q = Some (f32_nearest q).
Proof.
  intros H0 Hb. unfold f32_round.
  rewrite (Qabs_pos _ (f32_nearest_nonneg q H0)).
  destruct (Qle_bool (2 ^ 128) (f32_nearest q)) eqn:E; [|reflexivity].
  apply Qle_bool_iff in E. exfalso. apply (Qlt_irrefl (2 ^ 128)).
  eapply Qle_lt_trans; eassumption.
Qed.

(** Relative error bounds compose. *)
Lemma rel_mul x y X Y l1 h1 l2 h2 :
  0 <= x -> 0 <= y -> 0 <= l1 -> 0 <= l2 ->
  x * l1 <= X <= x * h1 -> y * l2 <= Y <= y * h2 ->
  (x * y) * (l1 * l2) <= X * Y <= (x * y) * (h1 * h2).
Proof.
  intros Hx Hy Hl1 Hl2 [A1 A2] [B1 B2].
  assert (0 <= x * l1) by now apply Qmult_le_0_compat.
  assert (0 <= y * l2) by now apply Qmult_le_0_compat.
  split; Lqa.nra.
Qed.

Lemma rel_round v x l h :
  f32_grid v -> 0 <= v -> 0 <= x ->
  x * l <= v <= x * h ->
  x * (l * (1 - 2 ^ (-24))) <= f32_nearest v <= x * (h * (1 + 2 ^ (-24))).
Proof.
  intros Hg H0 Hx [A1 A2].
  destruct (f32_nearest_rel v Hg H0) as [B1 B2].
  change (2 ^ (-24)) with (1 # 16777216) in *.
  set (r := f32_nearest v) in *. clearbody r. split; Lqa.nra.
Qed.

(** The step of line 1128 against the exact quotient. *)
Lemma stepUp_spec (target peak : Q) (integ : Z) :
  is_f32 target -> is_f32 peak ->
  0 < peak -> peak < target -> target <= 5 ->
  let x := (target - peak) * inject_Z (u32 (integ + READ_TICKS)) / peak in
  x * (1 + 2 ^ (-21)) < 2 ^ 32 ->
  exists k : Z,
    stepUp target peak integ = Some k
    /\ (0 <= k < 2 ^ 32)%Z
    /\ x * (1 - 2 ^ (-21)) - 1 < inject_Z k
    /\ inject_Z k <= x * (1 + 2 ^ (-21)).
Proof.
  intros Ft Fp Hp Hlt H5 x Hx.
  pose proof (u32_range (integ + READ_TICKS)) as Hn.
  set (nz := u32 (integ + READ_TICKS)) in *.
  set (n := inject_Z nz) in *.
  assert (0 <= n) as Hn0
    by (subst n; change 0 with (inject_Z 0); rewrite <- Zle_Qle; lia).
  assert (n < 2 ^ 32) as Hn1.
  { subst n. change (2 ^ 32) with (inject_Z (2 ^ 32)). rewrite <- Zlt_Qlt.
    lia. }
  set (d := target - peak) in *.
  assert (0 < d) as Hd0 by (subst d; Lqa.lra).
  assert (d <= 5) as Hd5 by (subst d; Lqa.lra).
  assert (f32_grid d) as Gd
    by (apply f32_grid_sub; now apply is_f32_grid).
  assert (f32_grid n) as Gn by apply f32_grid_Z.
  destruct (f32_nearest_Z nz ltac:(lia)) as (z & Hz0 & Ez).
  fold n in Ez.
  assert (stepUp target peak integ
          = (d' ← f32_round d; n' ← f32_round n; p ← f32_round (d' * n');
             if Qeq_bool peak 0 then None
             else q ← f32_round (p / peak); f32_to_u32 q)) as Estep
    by reflexivity.
  assert (x == d * n * / peak) as Ex by reflexivity.
  clearbody x d n. clear Hn nz.
  change (2 ^ (-21)) with (1 # 2097152) in *.
  change (2 ^ 32) with 4294967296 in *.
  assert (0 <= d) as Hd0' by Lqa.lra.
  assert (d * 1 <= d <= d * 1) as Hd1 by Lqa.lra.
  assert (n * 1 <= n <= n * 1) as Hn1' by Lqa.lra.
  assert (0 <= 1) as H01 by Lqa.lra.
  (* the difference *)
  destruct (rel_round d d 1 1 Gd Hd0' Hd0' Hd1) as [D1 D2].
  pose proof (f32_nearest_nonneg d Hd0') as D0.
  pose proof (f32_nearest_grid d) as GD.
  (* the tick count *)
  destruct (rel_round n n 1 1 Gn Hn0 Hn0 Hn1') as [N1 N2].
  pose proof (f32_nearest_nonneg n Hn0) as N0.
  change (2 ^ (-24)) with (1 # 16777216) in *.
  set (D := f32_nearest d) in *. set (N := f32_nearest n) in *.
  assert (f32_round d = Some D) as RD.
  { apply f32_round_some; [Lqa.lra|]. fold D.
    apply Qle_lt_trans with 6; [Lqa.lra|reflexivity]. }
  assert (f32_round n = Some N) as RN.
  { apply f32_round_some; [exact Hn0|]. fold N.
    apply Qle_lt_trans with 8589934592; [Lqa.lra|reflexivity]. }
  (* the product *)
  assert (f32_grid (D * N)) as GP
    by (rewrite Ez; now apply f32_grid_mul_Z).
  assert (0 <= D * N) as P0 by now apply Qmult_le_0_compat.
  assert (0 <= 1 * (1 - (1 # 16777216))) as Hl by Lqa.lra.
  destruct (rel_mul d n D N _ _ _ _ Hd0' Hn0 Hl Hl
              (conj D1 D2) (conj N1 N2)) as [M1 M2].
  assert (0 <= d * n) as Hdn by (apply Qmult_le_0_compat; Lqa.lra).
  destruct (rel_round (D * N) (d * n) _ _ GP P0 Hdn (conj M1 M2))
    as [P1 P2].
  change (2 ^ (-24)) with (1 # 16777216) in *.
  pose proof (f32_nearest_nonneg (D * N) P0) as PP0.
  set (P := f32_nearest (D * N)) in *.
  assert (d * n <= 5 * 4294967296) as Hdn5 by Lqa.nra.
  assert (f32_round (D * N) = Some P) as RP.
  { apply f32_round_some; [exact P0|]. fold P.
    apply Qle_lt_trans with (6 * 4294967296); [Lqa.nra|reflexivity]. }
  (* the quotient *)
  assert (~ peak == 0) as Hp0 by (intros E; rewrite E in Hp; discriminate).
  assert (0 < / peak) as Hip by now apply Qinv_lt_0_compat.
  set (Y := P / peak).
  assert (Y == P * / peak) as EY by reflexivity.
  assert (0 <= x) as Hx0 by (rewrite Ex; apply Qmult_le_0_compat; Lqa.lra).
  assert (0 <= Y) as Y0 by (rewrite EY; apply Qmult_le_0_compat; Lqa.lra).
  assert (x * (1 * (1 - (1 # 16777216)) * (1 * (1 - (1 # 16777216)))
               * (1 - (1 # 16777216))) <= Y) as Y1.
  { rewrite Ex, EY.
    rewrite <- (Qmult_assoc (d * n)), (Qmult_comm (/ peak)), Qmult_assoc.
    apply Qmult_le_compat_r; [exact P1|Lqa.lra]. }
  assert (Y <= x * (1 * (1 + (1 # 16777216)) * (1 * (1 + (1 # 16777216)))
                    * (1 + (1 # 16777216)))) as Y2.
  { rewrite Ex, EY.
    rewrite <- (Qmult_assoc (d * n)), (Qmult_comm (/ peak)), Qmult_assoc.
    apply Qmult_le_compat_r; [exact P2|Lqa.lra]. }
  pose proof (f32_nearest_nonneg Y Y0) as Q0.
  pose proof (Qfloor_le (f32_nearest Y)) as F1.
  pose proof (Qlt_floor (f32_nearest Y)) as F2.
  rewrite inject_Z_plus in F2. change (inject_Z 1) with 1 in F2.
  assert (0 <= Qfloor (f32_nearest Y))%Z as K0.
  { change 0%Z with (Qfloor 0). now apply Qfloor_resp_le. }
  assert (0 <= inject_Z (Qfloor (f32_nearest Y))) as K0'.
  { change 0 with (inject_Z 0). now rewrite <- Zle_Qle. }
  assert (f32_nearest Y < 4294967296
          /\ inject_Z (Qfloor (f32_nearest Y)) <= x * (1 + (1 # 2097152))
          /\ x * (1 - (1 # 2097152)) - 1 < inject_Z (Qfloor (f32_nearest Y)))
    as (Q2 & Q3 & Q1).
  { destruct (Qlt_le_dec Y (2 ^ (-126))) as [Hs|Hnm].
    - pose proof (f32_nearest_small Y Y0 (Qlt_le_weak _ _ Hs)) as Hs'.
      assert (2 ^ (-126) < 1) as H1 by reflexivity.
      set (tiny := 2 ^ (-126)) in *. clearbody tiny.
      set (q := f32_nearest Y) in *. clearbody q.
      assert (inject_Z (Qfloor q) < 1) as Hk by Lqa.lra.
      change 1 with (inject_Z 1) in Hk. rewrite <- Zlt_Qlt in Hk.
      assert (Qfloor q = 0)%Z as -> by lia.
      change (inject_Z 0) with 0.
      repeat split; [Lqa.lra|Lqa.nra|Lqa.nra].
    - destruct (f32_nearest_normal Y Hnm) as [E1 E2].
      change (2 ^ (-24)) with (1 # 16777216) in *.
      clear Hnm.
      set (q := f32_nearest Y) in *. clearbody q.
      assert (q <= x * (1 + (1 # 2097152))) by Lqa.nra.
      assert (x * (1 - (1 # 2097152)) <= q) by Lqa.nra.
      repeat split; Lqa.lra. }
  set (q := f32_nearest Y) in *.
  assert (f32_round Y = Some q) as RQ.
  { apply f32_round_some; [exact Y0|]. fold q.
    apply Qlt_trans with 4294967296; [Lqa.lra|reflexivity]. }
  exists (Qfloor q).
  assert (Qfloor q < 2 ^ 32)%Z as K1.
  { rewrite Zlt_Qlt. change (inject_Z (2 ^ 32)) with 4294967296. Lqa.lra. }
  split; [|split; [lia|split; Lqa.lra]].
  rewrite Estep, RD. cbn [mbind option_bind].
  rewrite RN. cbn [mbind option_bind]. rewrite RP. cbn [mbind option_bind].
  destruct (Qeq_bool peak 0) eqn:E0; [apply Qeq_bool_iff in E0; tauto|].
  fold Y. rewrite RQ. cbn [mbind option_bind].
  unfold f32_to_u32, Qtrunc.
  rewrite (proj2 (Qle_bool_iff 0 q) Q0).
  destruct (Z.leb_spec 0 (Qfloor q)); [|lia].
  destruct (Z.ltb_spec (Qfloor q) (2 ^ 32)); [|lia]. reflexivity.
Qed.

(** C3 (as amended). In the search loop, a peak below the target increases
    the integration tick count, modulo [2 ^ 32], by the step
    [(target - peak) * (INTEG_TICKS + READ_TICKS) / peak] evaluated in single
    precision and truncated: a whole number [k] with
    [x * (1 - 2 ^ -21) - 1 < k <= x * (1 + 2 ^ -21)] for the exact quotient
    [x], the sum of the ticks in it taken modulo [2 ^ 32]; the step scales
    the whole integration, readout pass included.  This is for [float]
    voltages with a positive peak and a target of at most 5 V, the largest
    ADC reference, and for [x * (1 + 2 ^ -21)] below [2 ^ 32].  A peak at or
    above the target halves the previous step and subtracts it, floored at
    0. *)
Theorem searchStep_spec (target peak : Q) (integ step : Z) :
  (is_f32 target -> is_f32 peak ->
   (0 < peak)%Q -> (peak < target)%Q -> (target <= 5)%Q ->
   let x :=
     ((target - peak) * inject_Z (u32 (integ + READ_TICKS)) / peak)%Q in
   (x * (1 + 2 ^ (-21)) < 2 ^ 32)%Q ->
   exists k : Z,
     searchStep target peak integ step = Some (u32 (integ + k), k)
     /\ (x * (1 - 2 ^ (-21)) - 1 < inject_Z k)%Q
     /\ (inject_Z k <= x * (1 + 2 ^ (-21)))%Q)
  /\ ((target <= peak)%Q ->
      searchStep target peak integ step
      = Some (Z.max 0 (integ - step / 2), step / 2)%Z).
Proof.
  split.
  - intros Ft Fp Hp Hlt H5 x Hx.
    destruct (stepUp_spec target peak integ Ft Fp Hp Hlt H5 Hx)
      as (k & Ek & _ & K1 & K2).
    exists k. split; [|split; assumption].
    unfold searchStep. rewrite (proj2 (Qltb_true _ _) Hlt), Ek.
    reflexivity.
  - intros Hge. unfold searchStep.
    rewrite (proj2 (Qltb_false _ _) Hge).
    rewrite Z.shiftr_div_pow2 by lia. change (2 ^ 1)%Z with 2%Z.
    destruct (Z.ltb_spec integ (step / 2)); do 2 f_equal; lia.
Qed.

End SearchStepTheory.

(** *** The same on the C12666MA *)

Lemma setSaturationVoltages_stored_witness :
  satVoltageHighGain_
    (fst (setSaturationVoltages 3 5 false
            (sampleDriver (build := c12666ma),
             idleStatics (build := c12666ma) (fun _ => 0)))) = 3%Q
  /\ satVoltageNoGain_
       (fst (setSaturationVoltages 3 5 false
               (sampleDriver (build := c12666ma),
                idleStatics (build := c12666ma) (fun _ => 0))))
     = MIN_SAT_VOLTAGE_NO_GAIN.
Proof.
  pose proof (setSaturationVoltages_stored 3 5 false
                (sampleDriver (build := c12666ma))
                (idleStatics (build := c12666ma) (fun _ => 0))) as H.
  cbv zeta in H. destruct H as (H1 & _ & _ & _ & H5 & _).
  split.
  - apply H1. unfold MIN_SAT_VOLTAGE_HIGH_GAIN, MAX_SAT_VOLTAGE_HIGH_GAIN.
    split; Lqa.lra.
  - apply H5; [Lqa.lra|].
    unfold MIN_SAT_VOLTAGE_NO_GAIN, MAX_SAT_VOLTAGE_NO_GAIN.
    intros [_ H]. Lqa.lra.
Defined.

(** C8 (as stated) fails.  The inputs 0 and -1 lie outside the datasheet
    bounds, yet the stored voltages 3 and 2 are kept: they are not reset to
    the minima 2.3 and 1.4. *)
Lemma nonpositive_saturation_input_ignored :
  ~ (MIN_SAT_VOLTAGE_HIGH_GAIN <= 0 <= MAX_SAT_VOLTAGE_HIGH_GAIN)%Q
  /\ ~ (MIN_SAT_VOLTAGE_NO_GAIN <= -1 <= MAX_SAT_VOLTAGE_NO_GAIN)%Q
  /\ satVoltageHighGain_
       (fst (setSaturationVoltages 0 (-1) false
               (set_satVoltageHighGain_ 3
                  (set_satVoltageNoGain_ 2
                     (sampleDriver (build := c12666ma))),
                idleStatics (build := c12666ma) (fun _ => 0)))) = 3%Q
  /\ satVoltageNoGain_
       (fst (setSaturationVoltages 0 (-1) false
               (set_satVoltageHighGain_ 3
                  (set_satVoltageNoGain_ 2
                     (sampleDriver (build := c12666ma))),
                idleStatics (build := c12666ma) (fun _ => 0)))) = 2%Q
  /\ ~ (3 == MIN_SAT_VOLTAGE_HIGH_GAIN)%Q
  /\ ~ (2 == MIN_SAT_VOLTAGE_NO_GAIN)%Q.
Proof.
  unfold MIN_SAT_VOLTAGE_HIGH_GAIN, MAX_SAT_VOLTAGE_HIGH_GAIN,
    MIN_SAT_VOLTAGE_NO_GAIN, MAX_SAT_VOLTAGE_NO_GAIN.
  split; [intros [H _]; Lqa.lra|].
  split; [intros [H _]; Lqa.lra|].
  split; [reflexivity|]. split; [reflexivity|].
  split; intros H; Lqa.lra.
Qed.

Lemma black_subtraction_nonneg_witness :
  (exists v,
      getData 3 true
        (data_ (enableBandpassCorrection false
                  (sampleDriver (build := c12666ma))))
        (blackLevels_ (enableBandpassCorrection false
                         (sampleDriver (build := c12666ma)))) = Some v
      /\ (0 <= v)%Q)
  /\ (applyBandPassCorrection_
        (enableBandpassCorrection false (sampleDriver (build := c12666ma)))
      = false ->
      exists v,
        getMeasurement (build := c12666ma)
          (enableBandpassCorrection false (sampleDriver (build := c12666ma)))
          3 true = Some v
        /\ (0 <= v)%Q).
Proof.
  apply (black_subtraction_nonneg (build := c12666ma)); simpl; lia.
Defined.

(** C4 (as stated) fails.  With bandpass correction enabled, a dark first
    pixel next to a pixel reading 1 (black levels zero) gives
    [1.083 * 0 - 0.083 * 1], a negative value. *)
Lemma bandpass_correction_goes_negative :
  exists v,
    getMeasurement (build := c12666ma)
      (set_data_ (<[1%nat := 1%Q]> (data_ (sampleDriver (build := c12666ma))))
         (sampleDriver (build := c12666ma)))
      0 true = Some v
    /\ (v < 0)%Q.
Proof.
  eexists. split; [vm_compute; reflexivity|]. vm_compute. reflexivity.
Qed.

Lemma processMeasurement_spec_witness :
  (forall i S C,
      (i < 256)%nat ->
      data (sampleRaw (build := c12666ma)) !! i = Some S ->
      dataCounts (sampleRaw (build := c12666ma)) !! i = Some C ->
      exists v,
        fst (processMeasurement (build := c12666ma)
               (sampleDriver (build := c12666ma))
               (sampleRaw (build := c12666ma)) MEASURE_VOLTAGE
               (data_ (sampleDriver (build := c12666ma)))) !! i = Some v
        /\ (v == measurementFormula MEASURE_VOLTAGE S C
                  (adcVoltages (adcRef_ (sampleDriver (build := c12666ma))))
                  (satVoltageOf (sampleDriver (build := c12666ma))))%Q)
  /\ (forall i v,
        fst (processMeasurement (build := c12666ma)
               (sampleDriver (build := c12666ma))
               (sampleRaw (build := c12666ma)) MEASURE_VOLTAGE
               (data_ (sampleDriver (build := c12666ma)))) !! i = Some v ->
        (v <= snd (processMeasurement (build := c12666ma)
                     (sampleDriver (build := c12666ma))
                     (sampleRaw (build := c12666ma)) MEASURE_VOLTAGE
                     (data_ (sampleDriver (build := c12666ma)))))%Q)
  /\ ((0 < 256)%nat ->
      exists i v,
        fst (processMeasurement (build := c12666ma)
               (sampleDriver (build := c12666ma))
               (sampleRaw (build := c12666ma)) MEASURE_VOLTAGE
               (data_ (sampleDriver (build := c12666ma)))) !! i = Some v
        /\ (v == snd (processMeasurement (build := c12666ma)
                        (sampleDriver (build := c12666ma))
                        (sampleRaw (build := c12666ma)) MEASURE_VOLTAGE
                        (data_ (sampleDriver (build := c12666ma)))))%Q).
Proof.
  apply (processMeasurement_spec (build := c12666ma)).
  - reflexivity.
  - apply Forall_replicate. lia.
  - apply Forall_replicate. lia.
  - reflexivity.
Defined.

Lemma searchStep_spec_witness :
  (exists k : Z,
      searchStep (build := c12666ma) (9550430 # 4194304)
        (11305133 # 2147483648) 200 200
      = Some (u32 (200 + k), k)
      /\ (((9550430 # 4194304) - (11305133 # 2147483648))
          * inject_Z (u32 (200 + READ_TICKS (build := c12666ma)))
          / (11305133 # 2147483648) * (1 - 2 ^ (-21)) - 1 < inject_Z k)%Q
      /\ (inject_Z k
          <= ((9550430 # 4194304) - (11305133 # 2147483648))
             * inject_Z (u32 (200 + READ_TICKS (build := c12666ma)))
             / (11305133 # 2147483648) * (1 + 2 ^ (-21)))%Q)
  /\ searchStep (build := c12666ma) 2 3 500 300
     = Some (Z.max 0 (500 - 300 / 2), 300 / 2).
Proof.
  split.
  - apply (proj1 (searchStep_spec (build := c12666ma) (9550430 # 4194304)
                    (11305133 # 2147483648) 200 200));
      [vm_compute; reflexivity | vm_compute; reflexivity
      | reflexivity | reflexivity | vm_compute; discriminate
      | vm_compute; reflexivity].
  - apply (proj2 (searchStep_spec (build := c12666ma) 2 3 500 300)).
    vm_compute. discriminate.
Defined.

(** The step is the single precision one: with a target of 2.277 V (2.3 V
    less one percent), a peak of 138 codes over two reads at 5 V and 200
    integration ticks the code steps by 975260 ticks, where the exact
    quotient truncates to 975259. *)
Lemma searchStep_single_precision :
  searchStep (build := c12666ma) (9550430 # 4194304)
    (11305133 # 2147483648) 200 200 = Some (975460, 975260)
  /\ Qfloor (((9550430 # 4194304) - (11305133 # 2147483648))
             * inject_Z (200 + READ_TICKS (build := c12666ma))
             / (11305133 # 2147483648)) = 975259.
Proof. split; vm_compute; reflexivity. Qed.

(** C3 (as stated) fails.  With 200 integration ticks, a peak of 1 V and a
    target of 2 V the design's step is [(2 - 1) * 200 / 1 = 200]; the code
    steps by [(2 - 1) * (200 + 2060) / 1 = 2260] and sets the integration
    to 2460 ticks. *)
Lemma search_step_counts_readout_ticks :
  designStep 2 1 200 = 200
  /\ searchStep (build := c12666ma) 2 1 200 200 = Some (2460, 2260)
  /\ 2260 <> designStep 2 1 200
  /\ 2460 <> 200 + designStep 2 1 200.
Proof.
  split; [reflexivity|]. split; [vm_compute; reflexivity|].
  split; vm_compute; discriminate.
Qed.

(** ** The acquisition cycle *)

Section CycleTheory.

Context {build : Build}.

Lemma pinWrite_other p v g n : p <> Some n -> pinWrite p v g n = g n.
Proof.
  intros H. destruct p as [m|]; [|reflexivity]. simpl.
  destruct (Nat.eqb_spec n m); [congruence|reflexivity].
Qed.

Lemma pinWrite_same n v g : pinWrite (Some n) v g n = v.
Proof. simpl. now rewrite Nat.eqb_refl. Qed.

Lemma pinSetVal_other p x g n : p <> Some n -> pinSetVal p x g n = g n.
Proof.
  intros H. unfold pinSetVal, pinSetFast, pinResetFast.
  destruct (x =? 0); now apply pinWrite_other.
Qed.

(** The clock interrupt up to the trigger counter. *)
Lemma clockStateMachine_frame s :
  let s' := clockStateMachine (driveClock s) in
  sameWiring s s' /\ timerOn s' = timerOn s
  /\ extTRGCounter s' = extTRGCounter s
  /\ data s' = data s /\ dataCounts s' = dataCounts s
  /\ adcReads s' = adcReads s
  /\ (forall n, specPinCLK s <> Some n -> specPinST s <> Some n ->
                extPinLIGHT s <> Some n -> pins s' n = pins s n).
Proof.
  unfold sameWiring, clockStateMachine, driveClock. cbv zeta. sred.
  destruct (specState s); repeat split_if; sred; repeat split;
    intros n H1 H2 H3; unfold pinSetFast, pinResetFast;
    rewrite ?pinWrite_other by assumption;
    rewrite !pinSetVal_other by assumption; reflexivity.
Qed.

Lemma processTrigger_frame s :
  let s' := processTrigger s in
  sameWiring s s' /\ timerOn s' = timerOn s
  /\ data s' = data s /\ dataCounts s' = dataCounts s
  /\ adcReads s' = adcReads s
  /\ specState s' = specState s /\ specCounter s' = specCounter s
  /\ specData s' = specData s /\ specDataCounter s' = specDataCounter s
  /\ specDataReady s' = specDataReady s /\ trgPending s' = trgPending s
  /\ (forall n, extPinTRG s <> Some n -> pins s' n = pins s n).
Proof.
  unfold sameWiring, processTrigger. cbv zeta.
  repeat split_if; sred; repeat split;
    intros n H1; unfold pinSetFast, pinResetFast;
    rewrite ?pinWrite_other by assumption; reflexivity.
Qed.

Lemma state_of_ticks s :
  Z.of_nat SPEC_PIXELS <= 65535 ->
  clockInv s ->
  specState s
  = phaseAt (LEAD_TICKS s) (INTEG_TICKS s) (cycleTicks s - ticksToStop s).
Proof.
  intros HN (_ & HL & HI & Hc).
  pose proof (READ_TICKS_bounds HN) as HR.
  unfold phaseAt, cycleTicks, ticksToStop, phaseLimit, TRAIL_TICKS in *.
  destruct (specState s) eqn:E;
    (destruct Hc as [Hc|Hc]; [try discriminate|]);
    repeat match goal with
           | |- context [?a <? ?b] => destruct (Z.ltb_spec a b); try lia
           end; reflexivity.
Qed.

Lemma ticksToStop_stop s : specState s = SPEC_STOP -> ticksToStop s = 0.
Proof. intros E. unfold ticksToStop. now rewrite E. Qed.

Lemma runPeriods_S n s : runPeriods (S n) s = timerPeriod (runPeriods n s).
Proof. reflexivity. Qed.

Lemma runPeriods_progress n s :
  Z.of_nat SPEC_PIXELS <= 65535 ->
  clockInv s -> Z.of_nat n <= ticksToStop s ->
  clockInv (runPeriods n s)
  /\ ticksToStop (runPeriods n s) = ticksToStop s - Z.of_nat n
  /\ LEAD_TICKS (runPeriods n s) = LEAD_TICKS s
  /\ INTEG_TICKS (runPeriods n s) = INTEG_TICKS s.
Proof.
  intros HN Hinv. induction n as [|n IH]; intros Hn.
  - change (runPeriods 0 s) with s. repeat split; try apply Hinv; lia.
  - destruct (IH ltac:(lia)) as (Hi & Ht & Hl & Hg).
    rewrite runPeriods_S.
    assert (specState (runPeriods n s) <> SPEC_STOP) as Hns.
    { intros E. apply ticksToStop_stop in E. lia. }
    destruct (timerPeriod_progress _ HN Hi Hns) as (Hi' & Ht' & Hl' & Hg').
    repeat split; try congruence; try apply Hi'. lia.
Qed.

Lemma timerPeriod_stop s :
  specState s = SPEC_STOP -> specState (timerPeriod s) = SPEC_STOP.
Proof.
  intros E. unfold timerPeriod.
  destruct (spectroTRGInterrupt_clock (spectroClockInterrupt s))
    as (_ & -> & _).
  unfold spectroClockInterrupt.
  destruct (timerOn s); cbn [negb]; [|exact E]. cbv zeta.
  destruct (processTrigger_clock (clockStateMachine (driveClock s)))
    as (_ & -> & _).
  unfold clockStateMachine.
  destruct (driveClock_clock s) as (_ & E' & _). rewrite E', E. sred.
  now rewrite E', E.
Qed.

Lemma runPeriods_stop n s :
  specState s = SPEC_STOP -> specState (runPeriods n s) = SPEC_STOP.
Proof.
  intros E. induction n as [|n IH]; [exact E|].
  rewrite runPeriods_S. now apply timerPeriod_stop.
Qed.

Lemma runPeriods_add n m s :
  runPeriods (n + m) s = runPeriods n (runPeriods m s).
Proof. unfold runPeriods. apply Nat.iter_add. Qed.

Lemma runPeriods_state n s :
  Z.of_nat SPEC_PIXELS <= 65535 ->
  clockInv s -> specState s = SPEC_LEAD -> specCounter s = 0 ->
  specState (runPeriods n s)
  = phaseAt (LEAD_TICKS s) (INTEG_TICKS s) (Z.of_nat n).
Proof.
  intros HN Hinv Hst Hc.
  pose proof (READ_TICKS_bounds HN) as HR.
  assert (ticksToStop s = cycleTicks s) as Ht.
  { unfold ticksToStop, cycleTicks, phaseLimit. rewrite Hst, Hc. lia. }
  destruct (Z.le_gt_cases (Z.of_nat n) (cycleTicks s)) as [Hle|Hgt].
  - destruct (runPeriods_progress n s HN Hinv ltac:(lia))
      as (Hi & Ht' & Hl & Hg).
    rewrite (state_of_ticks _ HN Hi), Hl, Hg, Ht'.
    f_equal. unfold cycleTicks. rewrite Hl, Hg. fold (cycleTicks s). lia.
  - destruct Hinv as (Hon & HL & HI & Hcc).
    assert (0 <= cycleTicks s) as Hpos
      by (unfold cycleTicks, TRAIL_TICKS; lia).
    replace n with ((n - Z.to_nat (cycleTicks s))
                    + Z.to_nat (cycleTicks s))%nat by lia.
    rewrite runPeriods_add, runPeriods_stop.
    + unfold phaseAt, cycleTicks, TRAIL_TICKS in *.
      repeat match goal with
             | |- context [?a <? ?b] => destruct (Z.ltb_spec a b); try lia
             end; reflexivity.
    + destruct (runPeriods_progress (Z.to_nat (cycleTicks s)) s HN
                  (conj Hon (conj HL (conj HI Hcc))) ltac:(lia))
        as (Hi & Ht' & Hl & Hg).
      rewrite (state_of_ticks _ HN Hi), Hl, Hg, Ht'.
      unfold phaseAt, cycleTicks, TRAIL_TICKS in *. rewrite Hl, Hg.
      repeat match goal with
             | |- context [?a <? ?b] => destruct (Z.ltb_spec a b); try lia
             end; reflexivity.
Qed.

Lemma startSpecTimer_schedule (d : Z) (b : bool) (s : Statics) (n : nat) :
  Z.of_nat SPEC_PIXELS <= 65535 ->
  timerOn s = false -> 0 < INTEG_TICKS s < 2 ^ 32 ->
  specState (runPeriods n (startSpecTimer d b s))
  = phaseAt (LEAD_TICKS (startSpecTimer d b s)) (INTEG_TICKS s) (Z.of_nat n).
Proof.
  intros HN Hoff HI.
  destruct (startSpecTimer_starts d b s HN Hoff HI) as [Hinv _].
  destruct (startSpecTimer_clock d b s Hoff) as (_ & Hst & Hc & Hg).
  rewrite <- Hg. now apply runPeriods_state.
Qed.

(** The busy wait returns the state after exactly the periods left. *)
Lemma waitForStop_runs fuel :
  forall s,
    Z.of_nat SPEC_PIXELS <= 65535 ->
    clockInv s -> ticksToStop s <= Z.of_nat fuel ->
    waitForStop fuel s = Some (runPeriods (Z.to_nat (ticksToStop s)) s).
Proof.
  induction fuel as [|fuel IH]; intros s HN Hinv Hfuel.
  - destruct (specState s) eqn:Hst;
      try (pose proof (ticksToStop_pos s HN Hinv) as Hp;
           rewrite Hst in Hp; specialize (Hp ltac:(discriminate)); lia).
    rewrite (ticksToStop_stop s Hst). simpl. now rewrite Hst.
  - destruct (spec_state_eqb (specState s) SPEC_STOP) eqn:Hst.
    + assert (specState s = SPEC_STOP) as E
        by (destruct (specState s); try discriminate; reflexivity).
      rewrite (ticksToStop_stop s E). simpl. now rewrite Hst.
    + assert (specState s <> SPEC_STOP) as Hns.
      { intros E. rewrite E in Hst. discriminate. }
      destruct (timerPeriod_progress s HN Hinv Hns) as (Hi & Ht & _).
      pose proof (ticksToStop_pos s HN Hinv Hns) as Hp.
      simpl. rewrite Hst. rewrite (IH (timerPeriod s) HN Hi ltac:(lia)).
      f_equal. rewrite Ht.
      replace (Z.to_nat (ticksToStop s))
        with (S (Z.to_nat (ticksToStop s - 1))) by lia.
      unfold runPeriods. now rewrite Nat.iter_succ_r.
Qed.

(** X1. A cycle follows the schedule Lead, Reset, Reset2, Integration, Read,
    Trail, Stop: after [n] periods of a started timer the machine is in the
    state the schedule gives for [n], with [LEAD_TICKS] lead ticks, two
    reset passes and a read pass of [READ_TICKS] ticks each, [INTEG_TICKS]
    integration ticks and [TRAIL_TICKS] trailing ticks; and the busy wait
    for [SPEC_STOP] ends after exactly the sum of these. *)
Theorem acquisition_cycle_schedule (d : Z) (b : bool) (s : Statics) :
  Z.of_nat SPEC_PIXELS <= 65535 ->
  timerOn s = false -> 0 < INTEG_TICKS s < 2 ^ 32 ->
  let s0 := startSpecTimer d b s in
  (forall n,
      specState (runPeriods n s0)
      = phaseAt (LEAD_TICKS s0) (INTEG_TICKS s) (Z.of_nat n))
  /\ (forall fuel,
        (Z.to_nat (cycleTicks s0) <= fuel)%nat ->
        waitForStop fuel s0
        = Some (runPeriods (Z.to_nat (cycleTicks s0)) s0)).
Proof.
  intros HN Hoff HI s0. subst s0. split.
  - intros n. now apply startSpecTimer_schedule.
  - intros fuel Hfuel.
    destruct (startSpecTimer_starts d b s HN Hoff HI) as [Hinv _].
    destruct (startSpecTimer_clock d b s Hoff) as (_ & Hst & Hc & _).
    assert (ticksToStop (startSpecTimer d b s)
            = cycleTicks (startSpecTimer d b s)) as Ht.
    { unfold ticksToStop, cycleTicks, phaseLimit. rewrite Hst, Hc. lia. }
    rewrite <- Ht in *. apply waitForStop_runs; [exact HN|exact Hinv|].
    destruct Hinv as (_ & HL & HI' & _).
    pose proof (READ_TICKS_bounds HN).
    rewrite Ht in *. unfold cycleTicks, TRAIL_TICKS in *. lia.
Qed.

Lemma sameTiming_refl s : sameTiming s s.
Proof. unfold sameTiming. repeat split; reflexivity. Qed.

Lemma sameTiming_trans s1 s2 s3 :
  sameTiming s1 s2 -> sameTiming s2 s3 -> sameTiming s1 s3.
Proof.
  unfold sameTiming.
  intros (A1&A2&A3&A4&A5&A6&A7&A8&A9&A10&A11&A12&A13&A14&A15&A16&A17&A18&A19)
         (B1&B2&B3&B4&B5&B6&B7&B8&B9&B10&B11&B12&B13&B14&B15&B16&B17&B18&B19).
  repeat split; try congruence.
  intros n Hn. rewrite B19 by congruence. now apply A19.
Qed.

Lemma readFirst_spec d c s :
  let s' := readFirst d c s in
  sameTiming s s'
  /\ data s' = <[d := u16 (adcInput s (adcReads s))]> (data s)
  /\ dataCounts s' = alter (fun n => u8 (n + 1)) c (dataCounts s)
  /\ adcReads s' = S (adcReads s)
  /\ specData s' = specData s /\ specDataCounter s' = specDataCounter s
  /\ trgPending s' = trgPending s.
Proof.
  unfold readFirst, adcConvert, storeFirst, sameTiming. cbv zeta. sred.
  repeat split. intros n Hn. unfold pinResetFast, pinSetFast.
  now rewrite !pinWrite_other by assumption.
Qed.

Lemma readNext_spec d c s :
  let s' := readNext d c s in
  sameTiming s s'
  /\ data s'
     = alter (fun x => u32 (x + u16 (adcInput s (adcReads s)))) d (data s)
  /\ dataCounts s' = alter (fun n => u8 (n + 1)) c (dataCounts s)
  /\ adcReads s' = S (adcReads s)
  /\ specData s' = specData s /\ specDataCounter s' = specDataCounter s
  /\ trgPending s' = trgPending s.
Proof.
  unfold readNext, adcConvert, storeNext, sameTiming. cbv zeta. sred.
  repeat split. intros n Hn. unfold pinResetFast, pinSetFast.
  now rewrite !pinWrite_other by assumption.
Qed.

Lemma readAgain_ready d c k s :
  specDataReady s = true -> readAgain d c k s = k (readNext d c s).
Proof.
  intros H. unfold readAgain, readNext, adcConvert. rewrite H. cbn [negb].
  sred. now rewrite H.
Qed.

Lemma readADC_ready d c s :
  specDataReady s = true ->
  readADC d c s
  = if ADC_AVG_4
    then readNext d c (readNext d c (readNext d c (readFirst d c s)))
    else readNext d c (readFirst d c s).
Proof.
  intros H.
  assert (readADC d c s
          = if ADC_AVG_4
            then readAgain d c (readAgain d c (readAgain d c (fun s => s)))
                   (readFirst d c s)
            else readAgain d c (fun s => s) (readFirst d c s)) as ->.
  { unfold readADC, readFirst. now destruct (adcConvert s). }
  destruct (readFirst_spec d c s) as (T1 & _).
  assert (specDataReady (readFirst d c s) = true) as H1.
  { destruct T1 as (_&_&_&_&_&_&_&_&_&_&_&_&_&_&_&E&_). congruence. }
  destruct ADC_AVG_4.
  - rewrite (readAgain_ready _ _ _ _ H1).
    destruct (readNext_spec d c (readFirst d c s)) as (T2 & _).
    assert (specDataReady (readNext d c (readFirst d c s)) = true) as H2.
    { destruct T2 as (_&_&_&_&_&_&_&_&_&_&_&_&_&_&_&E&_). congruence. }
    rewrite (readAgain_ready _ _ _ _ H2).
    destruct (readNext_spec d c (readNext d c (readFirst d c s))) as (T3 & _).
    assert (specDataReady (readNext d c (readNext d c (readFirst d c s)))
            = true) as H3.
    { destruct T3 as (_&_&_&_&_&_&_&_&_&_&_&_&_&_&_&E&_). congruence. }
    now rewrite (readAgain_ready _ _ _ _ H3).
  - now rewrite (readAgain_ready _ _ _ _ H1).
Qed.

Lemma u16_range z : 0 <= u16 z < 2 ^ 16.
Proof. unfold u16. apply Z.mod_pos_bound. lia. Qed.

Lemma readADC_burst d c s :
  specDataReady s = true ->
  let s' := readADC d c s in
  sameTiming s s'
  /\ specData s' = specData s /\ specDataCounter s' = specDataCounter s
  /\ trgPending s' = trgPending s
  /\ adcReads s' = (adcReads s + adcBurst)%nat
  /\ length (data s') = length (data s)
  /\ length (dataCounts s') = length (dataCounts s)
  /\ ((d < length (data s))%nat ->
      data s' !! d = Some (codeSum (adcInput s) (adcReads s) adcBurst))
  /\ (forall j, j <> d -> data s' !! j = data s !! j)
  /\ (dataCounts s !! c = Some 0 ->
      dataCounts s' !! c = Some (Z.of_nat adcBurst))
  /\ (forall j, j <> c -> dataCounts s' !! j = dataCounts s !! j).
Proof.
  intros H s'. subst s'. rewrite (readADC_ready _ _ _ H). unfold adcBurst.
  destruct (readFirst_spec d c s) as (T1 & D1 & C1 & R1 & P1 & Q1 & G1).
  set (s1 := readFirst d c s) in *.
  destruct (readNext_spec d c s1) as (T2 & D2 & C2 & R2 & P2 & Q2 & G2).
  set (s2 := readNext d c s1) in *.
  assert (adcInput s1 = adcInput s) as I1 by apply T1.
  assert (adcInput s2 = adcInput s) as I2
    by (rewrite <- I1; apply T2).
  pose proof (u16_range (adcInput s (adcReads s))) as V0.
  pose proof (u16_range (adcInput s (S (adcReads s)))) as V1.
  pose proof (u16_range (adcInput s (S (S (adcReads s))))) as V2.
  pose proof (u16_range (adcInput s (S (S (S (adcReads s)))))) as V3.
  destruct ADC_AVG_4.
  - destruct (readNext_spec d c s2) as (T3 & D3 & C3 & R3 & P3 & Q3 & G3).
    set (s3 := readNext d c s2) in *.
    destruct (readNext_spec d c s3) as (T4 & D4 & C4 & R4 & P4 & Q4 & G4).
    set (s4 := readNext d c s3) in *.
    assert (adcInput s3 = adcInput s) as I3
      by (rewrite <- I2; apply T3).
    split.
    { eapply sameTiming_trans; [|exact T4].
      eapply sameTiming_trans; [|exact T3].
      eapply sameTiming_trans; [exact T1|exact T2]. }
    rewrite D4, D3, D2, D1, C4, C3, C2, C1, I3, I2, I1, R3, R2, R1.
    repeat split; try congruence.
    + lia.
    + now rewrite !length_alter, length_insert.
    + now rewrite !length_alter.
    + intros Hd. rewrite !list_lookup_alter_eq, list_lookup_insert_eq by lia.
      cbn [fmap option_fmap option_map codeSum]. f_equal.
      repeat match goal with
             | |- context [u32 ?x] => rewrite (u32_small x) by lia
             end.
      lia.
    + intros j Hj.
      now rewrite !list_lookup_alter_ne, list_lookup_insert_ne by congruence.
    + intros E. rewrite !list_lookup_alter_eq, E. reflexivity.
    + intros j Hj. now rewrite !list_lookup_alter_ne by congruence.
  - split.
    { eapply sameTiming_trans; [exact T1|exact T2]. }
    rewrite D2, D1, C2, C1, I1, R1.
    repeat split; try congruence.
    + lia.
    + now rewrite !length_alter, length_insert.
    + now rewrite !length_alter.
    + intros Hd. rewrite !list_lookup_alter_eq, list_lookup_insert_eq by lia.
      cbn [fmap option_fmap option_map codeSum]. f_equal.
      repeat match goal with
             | |- context [u32 ?x] => rewrite (u32_small x) by lia
             end.
      lia.
    + intros j Hj.
      now rewrite !list_lookup_alter_ne, list_lookup_insert_ne by congruence.
    + intros E. rewrite !list_lookup_alter_eq, E. reflexivity.
    + intros j Hj. now rewrite !list_lookup_alter_ne by congruence.
Qed.

Lemma spectroTRGInterrupt_idle s :
  trgPending s = false -> spectroTRGInterrupt s = s.
Proof. intros H. unfold spectroTRGInterrupt. now rewrite H. Qed.

Lemma spectroTRGInterrupt_read s d c :
  trgPending s = true -> specDataReady s = true ->
  specData s = Some d -> specDataCounter s = Some c ->
  spectroTRGInterrupt s
  = readADC d c
      (set_specDataCounter (Some (S c))
         (set_specData (Some (S d)) (set_trgPending false s))).
Proof.
  intros H1 H2 H3 H4. unfold spectroTRGInterrupt. rewrite H1. cbv zeta.
  sred. now rewrite H2, H3, H4.
Qed.

(** The next state and counter. *)
Lemma clock_next s :
  Z.of_nat SPEC_PIXELS <= 65535 ->
  clockInv s -> specState s <> SPEC_STOP ->
  let m := clockStateMachine (driveClock s) in
  (specCounter s + 1 < phaseLimit s
   /\ specState m = specState s /\ specCounter m = specCounter s + 1)
  \/ (specCounter s + 1 = phaseLimit s
      /\ specState m = nextState (specState s) /\ specCounter m = 0).
Proof.
  intros HN (Hon & HL & HI & Hc) Hns.
  destruct Hc as [|Hc]; [contradiction|].
  pose proof (READ_TICKS_bounds HN) as HR.
  unfold phaseLimit, clockStateMachine, driveClock, TRAIL_TICKS in *.
  cbv zeta. sred.
  destruct (specState s) eqn:Hst; try contradiction;
    try match goal with
        | |- context [negb (Z.land ?t READY_BIT =? 0)] =>
            destruct (negb (Z.land t READY_BIT =? 0))
        end; sred;
    rewrite (u32_small (specCounter s + 1)) by lia;
    match goal with
    | |- context [specCounter s + 1 =? ?l] =>
        destruct (Z.eqb_spec (specCounter s + 1) l)
    end; sred; repeat split_if; sred;
    first [ left; repeat split; auto; lia | right; repeat split; auto; lia ].
Qed.

(** The data-ready signal, the raised interrupt and the cursors. *)
Lemma clockStateMachine_cursors s :
  let m := clockStateMachine (driveClock s) in
  match specState s with
  | SPEC_READ =>
      specDataReady m = has_ready (tableAt s (specCounter s))
      /\ trgPending m
         = (has_ready (tableAt s (specCounter s)) || trgPending s)
      /\ (if u32 (specCounter s + 1) =? READ_TICKS
          then specData m = None /\ specDataCounter m = None
          else specData m = specData s
               /\ specDataCounter m = specDataCounter s)
  | _ =>
      specDataReady m = specDataReady s /\ trgPending m = trgPending s
      /\ specData m = specData s /\ specDataCounter m = specDataCounter s
  end.
Proof.
  unfold clockStateMachine, driveClock, has_ready, tableAt. cbv zeta. sred.
  destruct (specState s); sred;
    try match goal with
        | |- context [negb (Z.land ?t READY_BIT =? 0)] =>
            destruct (negb (Z.land t READY_BIT =? 0))
        end; sred;
    try match goal with
        | |- context [u32 (specCounter s + 1) =? ?l] =>
            destruct (u32 (specCounter s + 1) =? l)
        end; sred; repeat split_if; sred; repeat split; reflexivity.
Qed.

Lemma table_ready s c :
  specRead s = initSpecTimerData specRead0 ->
  0 <= c < READ_TICKS ->
  has_ready (tableAt s c)
  = (c mod 8 =? 7) && (c <? 8 * Z.of_nat SPEC_PIXELS).
Proof.
  intros Ht Hc. unfold tableAt. rewrite Ht, initSpecTimerData_rounds.
  pose proof specRead0_length as Hlen.
  destruct (ready_index_dec SPEC_PIXELS (Z.to_nat c)) as [(k & Hk & E)|Hno].
  - rewrite E, (nth_lookup_Some _ _ 0 (setReady 1)).
    + destruct (Z.eqb_spec (c mod 8) 7) as [|Hm];
        [|exfalso; apply Hm; Z.div_mod_to_equations; lia].
      destruct (Z.ltb_spec c (8 * Z.of_nat SPEC_PIXELS)); [reflexivity|lia].
    + rewrite readyRounds_hit by exact Hk.
      rewrite stTable_lookup; [|exact Hlen|lia].
      destruct (Nat.ltb_spec (7 + k * 8) 2); [lia|reflexivity].
  - rewrite (nth_lookup_Some _ _ 0
               (if (Z.to_nat c <? 2)%nat then 0 else 1)).
    + destruct (Z.eqb_spec (c mod 8) 7) as [E|E];
        destruct (Z.ltb_spec c (8 * Z.of_nat SPEC_PIXELS)) as [L|L];
        cbn [andb]; try (now destruct (Z.to_nat c <? 2)%nat).
      exfalso. apply (Hno (Z.to_nat (c / 8))); Z.div_mod_to_equations; lia.
    + rewrite readyRounds_other by exact Hno.
      apply stTable_lookup; [exact Hlen|lia].
Qed.

Lemma timerPeriod_on s :
  timerOn s = true ->
  timerPeriod s
  = spectroTRGInterrupt (processTrigger (clockStateMachine (driveClock s))).
Proof.
  intros H. unfold timerPeriod, spectroClockInterrupt. now rewrite H.
Qed.

(** A period in which the TRG interrupt is not raised. *)
Lemma acq_step_quiet adc r0 s :
  clockInv s -> acqInv adc r0 s ->
  let m := clockStateMachine (driveClock s) in
  trgPending m = false ->
  pixelsDone m = pixelsDone s ->
  (specState m = SPEC_TRAIL \/ specState m = SPEC_STOP
   \/ (specData m = specData s /\ specDataCounter m = specDataCounter s
       /\ specState s <> SPEC_TRAIL /\ specState s <> SPEC_STOP)) ->
  acqInv adc r0 (timerPeriod s).
Proof.
  intros (Hon & _) (Ht & Ha & Hp & Hld & Hlc & Hr & Hdone & Hzero & Hcur)
         m Hpm Hdm Hcm.
  rewrite (timerPeriod_on s Hon). fold m.
  destruct (clockStateMachine_frame s)
    as ((_&_&_&_&_& W6 & W7 &_) & _ & _ & Fd & Fc & Fr & _).
  fold m in W6, W7, Fd, Fc, Fr.
  destruct (processTrigger_frame m)
    as ((_&_&_&_&_& V6 & V7 &_) & _ & Gd & Gc & Gr & Gs & Gn & Gp & Gq & _
        & Gt & _).
  set (p := processTrigger m) in *.
  rewrite spectroTRGInterrupt_idle by congruence.
  assert (pixelsDone p = pixelsDone s) as Hdp.
  { rewrite <- Hdm. unfold pixelsDone. now rewrite Gs, Gn. }
  unfold acqInv. rewrite Hdp, Gd, Gc, Gr, Fd, Fc, Fr, Gs, Gp, Gq.
  repeat split; try congruence; try (intros; now apply Hdone);
    try (intros; now apply Hzero).
  destruct Hcm as [E|[E|(E1 & E2 & E3 & E4)]]; [now left|right; now left|].
  right. right. rewrite E1, E2.
  destruct Hcur as [|[|Hcur]]; [contradiction|contradiction|exact Hcur].
Qed.

Lemma acq_step adc r0 s :
  Z.of_nat SPEC_PIXELS <= 65535 ->
  clockInv s -> specState s <> SPEC_STOP ->
  acqInv adc r0 s -> acqInv adc r0 (timerPeriod s).
Proof.
  intros HN Hinv Hns Hacq.
  pose proof (READ_TICKS_bounds HN) as HR.
  pose proof (clockStateMachine_cursors s) as C. cbv zeta in C.
  pose proof (clock_next s HN Hinv Hns) as Hnext. cbv zeta in Hnext.
  pose proof Hacq as (Ht & Ha & Hp & Hld & Hlc & Hr & Hdone & Hzero & Hcur).
  pose proof Hinv as (Hon & HL & HI & Hc).
  destruct Hc as [|Hc]; [contradiction|].
  set (m := clockStateMachine (driveClock s)) in *.
  unfold phaseLimit in Hnext, Hc.
  destruct (specState s) eqn:Hst; try contradiction.
  - (* LEAD *)
    destruct C as (_ & Cp & Cd & Cc).
    apply acq_step_quiet; try assumption; fold m; [congruence| |].
    + unfold pixelsDone. rewrite Hst.
      destruct Hnext as [(_ & -> & _)|(_ & -> & _)]; reflexivity.
    + right. right. rewrite Hst. repeat split; auto; discriminate.
  - (* RESET *)
    destruct C as (_ & Cp & Cd & Cc).
    apply acq_step_quiet; try assumption; fold m; [congruence| |].
    + unfold pixelsDone. rewrite Hst.
      destruct Hnext as [(_ & -> & _)|(_ & -> & _)]; reflexivity.
    + right. right. rewrite Hst. repeat split; auto; discriminate.
  - (* RESET2 *)
    destruct C as (_ & Cp & Cd & Cc).
    apply acq_step_quiet; try assumption; fold m; [congruence| |].
    + unfold pixelsDone. rewrite Hst.
      destruct Hnext as [(_ & -> & _)|(_ & -> & _)]; reflexivity.
    + right. right. rewrite Hst. repeat split; auto; discriminate.
  - (* INTEGRATION *)
    destruct C as (_ & Cp & Cd & Cc).
    apply acq_step_quiet; try assumption; fold m; [congruence| |].
    + unfold pixelsDone. rewrite Hst.
      destruct Hnext as [(_ & -> & _)|(_ & -> & ->)]; [reflexivity|].
      cbn [nextState]. change (0 / 8) with 0. lia.
    + right. right. rewrite Hst. repeat split; auto; discriminate.
  - (* READ *)
    destruct C as (Cr & Cp & Cd).
    rewrite (table_ready s _ Ht Hc) in Cr, Cp. rewrite Hp in Cp.
    rewrite (u32_small (specCounter s + 1)) in Cd by lia.
    assert (pixelsDone s
            = Nat.min SPEC_PIXELS (Z.to_nat (specCounter s / 8))) as Hpd
      by (unfold pixelsDone; now rewrite Hst).
    destruct ((specCounter s mod 8 =? 7)
              && (specCounter s <? 8 * Z.of_nat SPEC_PIXELS)) eqn:Hrdy;
      cbn [orb] in Cp.
    + (* a pixel is converted *)
      apply andb_true_iff in Hrdy. destruct Hrdy as [Hm Hlt].
      apply Z.eqb_eq in Hm. apply Z.ltb_lt in Hlt.
      assert (READ_TICKS = Z.of_nat SPEC_PIXELS * 8 + 12) as HRd
        by reflexivity.
      destruct Hnext as [(_ & Est & Ecnt)|(Heq & _)]; [|lia].
      destruct (Z.eqb_spec (specCounter s + 1) READ_TICKS) as [|_]; [lia|].
      destruct Cd as [Cd Cc].
      destruct Hcur as [|[|[Hcd Hcc]]]; try discriminate.
      set (k := pixelsDone s) in *.
      assert (k < SPEC_PIXELS)%nat as Hk
        by (rewrite Hpd; Z.div_mod_to_equations; lia).
      rewrite (timerPeriod_on s Hon). fold m.
      destruct (clockStateMachine_frame s)
        as ((_&_&_&_&_& W6 & W7 &_) & _ & _ & Fd & Fc & Fr & _).
      fold m in W6, W7, Fd, Fc, Fr.
      destruct (processTrigger_frame m)
        as ((_&_&_&_&_& V6 & V7 &_) & _ & Gd & Gc & Gr & Gs & Gn & Gp & Gq
            & Gy & Gt & _).
      set (p := processTrigger m) in *.
      rewrite (spectroTRGInterrupt_read p k k) by congruence.
      set (q := set_specDataCounter (Some (S k))
                  (set_specData (Some (S k)) (set_trgPending false p))).
      assert (specDataReady q = true) as Hq by (subst q; sred; congruence).
      destruct (readADC_burst k k q Hq)
        as (T & Bd & Bc & Bp & Br & Bld & Blc & Bv & Bo & Bn & Bco).
      set (s' := readADC k k q) in *.
      destruct T as (_&_&_&_&_& T6 & T7 &_&_&_& T11 & T12 &_).
      subst q. cbn [specData specDataCounter trgPending adcReads data
        dataCounts adcInput specRead specState specCounter
        set_specDataCounter set_specData set_trgPending] in *.
      assert (pixelsDone s' = S k) as Hd'.
      { unfold pixelsDone. rewrite T11, T12, Gs, Gn, Est, Ecnt.
        rewrite Hpd. Z.div_mod_to_equations. lia. }
      unfold acqInv. rewrite Hd'.
      assert (adcInput p = adc) as Hap by congruence.
      assert (adcReads p = (r0 + adcBurst * k)%nat) as Hrp by congruence.
      repeat split; try congruence.
      * rewrite Br, Hrp. lia.
      * destruct (Nat.eq_dec i k) as [->|Hne].
        -- rewrite Bv by congruence. now rewrite Hap, Hrp.
        -- rewrite Bo by exact Hne. rewrite Gd, Fd. apply Hdone. lia.
      * destruct (Nat.eq_dec i k) as [->|Hne].
        -- apply Bn. rewrite Gc, Fc. apply Hzero. lia.
        -- rewrite Bco by exact Hne. rewrite Gc, Fc. apply Hdone. lia.
      * intros i Hi. rewrite Bco by lia. rewrite Gc, Fc. apply Hzero. lia.
      * right. right. rewrite Bd, Bc. split; reflexivity.
    + (* no conversion on this tick *)
      apply andb_false_iff in Hrdy.
      assert (READ_TICKS = Z.of_nat SPEC_PIXELS * 8 + 12) as HRd
        by reflexivity.
      apply acq_step_quiet; try assumption; fold m.
      * unfold pixelsDone at 1. rewrite Hpd.
        destruct Hnext as [(Hlt & -> & ->)|(Heq & -> & _)].
        -- destruct Hrdy as [Hm|Hge].
           ++ apply Z.eqb_neq in Hm. Z.div_mod_to_equations. lia.
           ++ apply Z.ltb_ge in Hge. Z.div_mod_to_equations. lia.
        -- cbn [nextState]. Z.div_mod_to_equations. lia.
      * destruct Hnext as [(Hlt & _)|(Heq & -> & _)]; [|now left].
        right. right.
        destruct (Z.eqb_spec (specCounter s + 1) READ_TICKS) as [|_]; [lia|].
        rewrite Hst. destruct Cd as [-> ->].
        repeat split; auto; discriminate.
  - (* TRAIL *)
    destruct C as (_ & Cp & Cd & Cc).
    apply acq_step_quiet; try assumption; fold m; [congruence| |].
    + unfold pixelsDone. rewrite Hst.
      destruct Hnext as [(_ & -> & _)|(_ & -> & _)]; reflexivity.
    + destruct Hnext as [(_ & -> & _)|(_ & -> & _)]; [now left|].
      right. now left.
Qed.

Lemma waitForStop_invariant (P : Statics -> Prop) :
  (forall s, P s -> specState s <> SPEC_STOP -> P (timerPeriod s)) ->
  forall fuel s s',
    P s -> waitForStop fuel s = Some s' -> P s' /\ specState s' = SPEC_STOP.
Proof.
  intros Hstep. induction fuel as [|fuel IH]; intros s s' HP; simpl;
    destruct (spec_state_eqb (specState s) SPEC_STOP) eqn:E; intros Hw;
    try discriminate;
    try (injection Hw as <-; split; [exact HP|];
         destruct (specState s); try discriminate; reflexivity).
  apply (IH (timerPeriod s)); [|exact Hw].
  apply Hstep; [exact HP|]. intros E'. rewrite E' in E. discriminate.
Qed.

Lemma sameBuffers_refl s : sameBuffers s s.
Proof. unfold sameBuffers. tauto. Qed.

Lemma sameBuffers_trans s1 s2 s3 :
  sameBuffers s1 s2 -> sameBuffers s2 s3 -> sameBuffers s1 s3.
Proof. unfold sameBuffers. intuition congruence. Qed.

Lemma setIntTime_buffers t b s : sameBuffers s (setIntTime t b s).
Proof.
  unfold sameBuffers, setIntTime. destruct (timerOn s); [tauto|]. cbv zeta.
  repeat split_if; sred; tauto.
Qed.

Lemma startSpecTimer_buffers d b s :
  sameBuffers s (startSpecTimer d b s)
  /\ (timerOn s = false -> trgPending (startSpecTimer d b s) = false).
Proof.
  unfold sameBuffers, startSpecTimer. destruct (timerOn s); [split; [tauto|discriminate]|].
  cbv zeta. repeat split_if; sred; tauto.
Qed.

Lemma stopSpecTimer_buffers s : sameBuffers s (stopSpecTimer s).
Proof.
  unfold sameBuffers, stopSpecTimer. cbv zeta. repeat split_if; sred; tauto.
Qed.

(** The loop of [readSpectrometer] that clears the sums and the counts. *)
Lemma clear_rounds n s :
  (n <= length (data s))%nat -> (n <= length (dataCounts s))%nat ->
  let s' :=
    fold_left
      (fun s k =>
         let s := set_data (<[(0 + k * 1)%nat := 0]> (data s)) s in
         set_dataCounts (<[(0 + k * 1)%nat := 0]> (dataCounts s)) s)
      (seq 0 n) s in
  length (data s') = length (data s)
  /\ length (dataCounts s') = length (dataCounts s)
  /\ (forall i, (i < n)%nat ->
        data s' !! i = Some 0 /\ dataCounts s' !! i = Some 0)
  /\ specRead s' = specRead s /\ adcInput s' = adcInput s
  /\ adcReads s' = adcReads s /\ specData s' = specData s
  /\ specDataCounter s' = specDataCounter s
  /\ timerOn s' = timerOn s /\ INTEG_TICKS s' = INTEG_TICKS s.
Proof.
  induction n as [|n IH]; intros Hd Hc s'; subst s'.
  - cbn. repeat split; intros; lia.
  - rewrite seq_S, fold_left_app. cbn [fold_left].
    specialize (IH ltac:(lia) ltac:(lia)). cbv zeta in IH.
    destruct IH as (L1 & L2 & Hz & I1 & I2 & I3 & I4 & I5 & I6 & I7).
    set (s1 := fold_left _ (seq 0 n) s) in *.
    replace (0 + (0 + n) * 1)%nat with n by lia. sred.
    rewrite !length_insert.
    repeat split; try assumption.
    + destruct (Nat.eq_dec i n) as [->|Hne].
      * apply list_lookup_insert_eq. lia.
      * rewrite list_lookup_insert_ne by lia. apply Hz. lia.
    + destruct (Nat.eq_dec i n) as [->|Hne].
      * apply list_lookup_insert_eq. lia.
      * rewrite list_lookup_insert_ne by lia. apply Hz. lia.
Qed.

Lemma readSpectrometer_acquires fuel o timeUs ext light s :
  Z.of_nat SPEC_PIXELS <= 65535 ->
  timerOn s = false ->
  0 < timeUs \/ 0 < INTEG_TICKS s < 2 ^ 32 ->
  specRead s = initSpecTimerData specRead0 ->
  length (data s) = SPEC_PIXELS -> length (dataCounts s) = SPEC_PIXELS ->
  (Z.to_nat (2 ^ 34) <= fuel)%nat ->
  exists s',
    readSpectrometer fuel o timeUs ext light s = Some s'
    /\ adcReads s' = (adcReads s + adcBurst * SPEC_PIXELS)%nat
    /\ adcInput s' = adcInput s
    /\ length (data s') = SPEC_PIXELS
    /\ length (dataCounts s') = SPEC_PIXELS
    /\ forall i, (i < SPEC_PIXELS)%nat ->
         data s' !! i
         = Some (codeSum (adcInput s) (adcReads s + adcBurst * i) adcBurst)
         /\ dataCounts s' !! i = Some (Z.of_nat adcBurst).
Proof.
  intros HN Hoff Hint Htab Hld Hlc Hfuel. unfold readSpectrometer.
  rewrite Hoff. cbv zeta.
  match goal with
  | |- context [waitForStop fuel (startSpecTimer ?d ?b ?s0)] =>
      set (pre := s0)
  end.
  assert (timerOn pre = false /\ 0 < INTEG_TICKS pre < 2 ^ 32
          /\ specRead pre = specRead s /\ adcInput pre = adcInput s
          /\ adcReads pre = adcReads s
          /\ specData pre = Some 0%nat /\ specDataCounter pre = Some 0%nat
          /\ length (data pre) = SPEC_PIXELS
          /\ length (dataCounts pre) = SPEC_PIXELS
          /\ (forall i, (i < SPEC_PIXELS)%nat ->
                dataCounts pre !! i = Some 0))
    as (P1 & P2 & P3 & P4 & P5 & P6 & P7 & P8 & P9 & P10).
  { subst pre. unfold startADC.
    rewrite (for_range_fold _ 0 SPEC_PIXELS 1 SPEC_PIXELS);
      [|lia|intros; lia|lia].
    match goal with
    | |- context [fold_left _ _ ?s0] => set (s1 := s0)
    end.
    assert (timerOn s1 = false /\ 0 < INTEG_TICKS s1 < 2 ^ 32
            /\ specRead s1 = specRead s /\ adcInput s1 = adcInput s
            /\ adcReads s1 = adcReads s
            /\ specData s1 = Some 0%nat /\ specDataCounter s1 = Some 0%nat
            /\ length (data s1) = SPEC_PIXELS
            /\ length (dataCounts s1) = SPEC_PIXELS)
      as (Q1 & Q2 & Q3 & Q4 & Q5 & Q6 & Q7 & Q8 & Q9).
    { subst s1. sred.
      destruct (Z.ltb_spec 0 timeUs) as [Hpos|Hnp].
      - destruct (setIntTime_buffers timeUs false s)
          as (B1 & B2 & B3 & B4 & B5 & _).
        rewrite setIntTime_timerOn, B1, B2, B3, B4, B5.
        repeat split; auto; now apply setIntTime_INTEG_range.
      - repeat split; auto; lia. }
    destruct (clear_rounds SPEC_PIXELS s1 ltac:(lia) ltac:(lia))
      as (L1 & L2 & Hz & I1 & I2 & I3 & I4 & I5 & I6 & I7).
    cbv zeta in *.
    set (s2 := fold_left _ (seq 0 SPEC_PIXELS) s1) in *.
    destruct ext, light; sred; rewrite ?I7;
      repeat split; try congruence; try lia;
      intros i Hi; now apply Hz. }
  clearbody pre.
  destruct (startSpecTimer_starts (extTrgMeasDelayUs_ o) ext pre HN P1 P2)
    as [Hinv Hticks].
  destruct (startSpecTimer_clock (extTrgMeasDelayUs_ o) ext pre P1)
    as (_ & Hst & Hcnt & _).
  destruct (startSpecTimer_buffers (extTrgMeasDelayUs_ o) ext pre)
    as ((B1 & B2 & B3 & B4 & B5 & B6 & B7) & Bp).
  specialize (Bp P1).
  set (s0 := startSpecTimer (extTrgMeasDelayUs_ o) ext pre) in *.
  clearbody s0.
  assert (acqInv (adcInput s) (adcReads s) s0) as Hacq.
  { clear Hfuel Hticks.
    assert (pixelsDone s0 = 0%nat) as Hd0
      by (unfold pixelsDone; now rewrite Hst).
    unfold acqInv. rewrite Hd0.
    repeat split; try congruence; try lia.
    - intros i Hi. rewrite B5. now apply P10.
    - right. right. split; congruence. }
  destruct (waitForStop_terminates fuel s0 HN Hinv ltac:(lia))
    as (s1 & Hw & _).
  rewrite Hw.
  destruct (waitForStop_invariant
              (fun a => clockInv a /\ acqInv (adcInput s) (adcReads s) a))
    with (fuel := fuel) (s := s0) (s' := s1) as ((_ & Hfin) & Hstop);
    [|split; assumption|exact Hw|].
  { intros a (Ha1 & Ha2) Hns. split.
    - now apply timerPeriod_progress.
    - now apply acq_step. }
  destruct Hfin as (_ & F2 & _ & F4 & F5 & F6 & F7 & _).
  assert (pixelsDone s1 = SPEC_PIXELS) as Hd1
    by (unfold pixelsDone; now rewrite Hstop).
  rewrite Hd1 in F6, F7.
  destruct (stopSpecTimer_buffers s1) as (S1 & S2 & S3 & S4 & S5 & _).
  eexists. split; [reflexivity|]. unfold endADC.
  destruct (0 <? timeUs); sred; rewrite ?S2, ?S3, ?S4, ?S5;
    repeat split; try congruence; now apply F7.
Qed.

Lemma spectroTRGInterrupt_timing s : sameTiming s (spectroTRGInterrupt s).
Proof.
  unfold spectroTRGInterrupt.
  destruct (trgPending s); [|apply sameTiming_refl]. cbv zeta.
  assert (sameTiming s (set_trgPending false s)) as H0
    by (unfold sameTiming; sred; repeat split; reflexivity).
  destruct (specDataReady (set_trgPending false s)) eqn:Hr; [|exact H0].
  destruct (specData (set_trgPending false s)) as [d|]; [|exact H0].
  destruct (specDataCounter (set_trgPending false s)) as [c|]; [|exact H0].
  eapply sameTiming_trans; [exact H0|].
  eapply sameTiming_trans; [|apply readADC_burst; sred; exact Hr].
  unfold sameTiming. sred. repeat split; reflexivity.
Qed.

Lemma EXT_TRG_HIGH_TICKS_range : 0 < EXT_TRG_HIGH_TICKS < 2 ^ 16.
Proof.
  unfold EXT_TRG_HIGH_TICKS, uSecToTicks, TIMER_US_FACTOR, SPEC_CLK_TICK_TIMER.
  destruct ADC_AVG_4; vm_compute; split; reflexivity.
Qed.

(** One period of the trigger counter and of the trigger line. *)
Lemma timerPeriod_trigger s t :
  timerOn s = true -> extPinTRG s = Some t ->
  specPinCLK s <> Some t -> specPinST s <> Some t ->
  extPinLIGHT s <> Some t -> adcPinCNV s <> Some t ->
  let c := extTRGCounter s in
  let s' := timerPeriod s in
  sameWiring s s' /\ timerOn s' = true
  /\ extTRGCounter s' = (if c =? 0 then 0 else u32 (c - 1))
  /\ pins s' t
     = (if c =? 0 then pins s t
        else if u32 (c - 1) =? EXT_TRG_HIGH_TICKS then true
        else if u32 (c - 1) =? 0 then false
        else pins s t).
Proof.
  intros Hon Ht H1 H2 H3 H4 c s'. subst s' c.
  rewrite (timerPeriod_on s Hon).
  destruct (clockStateMachine_frame s)
    as (W & Fon & Fx & _ & _ & _ & Fp).
  set (m := clockStateMachine (driveClock s)) in *.
  specialize (Fp t H1 H2 H3).
  destruct (spectroTRGInterrupt_timing (processTrigger m)) as
    (T1&T2&T3&T4&T5&T6&T7&T8&T9&T10&_&_&_&_&T15&_&_&_&T19).
  set (s' := spectroTRGInterrupt (processTrigger m)) in *.
  destruct W as (W1&W2&W3&W4&W5&W6&W7&W8&W9).
  assert (sameWiring m (processTrigger m)
          /\ timerOn (processTrigger m) = timerOn m
          /\ extTRGCounter (processTrigger m)
             = (if extTRGCounter m =? 0 then 0
                else u32 (extTRGCounter m - 1))
          /\ pins (processTrigger m) t
             = (if extTRGCounter m =? 0 then pins m t
                else if u32 (extTRGCounter m - 1) =? EXT_TRG_HIGH_TICKS
                     then true
                     else if u32 (extTRGCounter m - 1) =? 0 then false
                          else pins m t))
    as ((V1&V2&V3&V4&V5&V6&V7&V8&V9) & Von & Vx & Vp).
  { unfold processTrigger, sameWiring. clearbody m. cbv zeta.
    destruct (Z.eqb_spec (extTRGCounter m) 0) as [E0|E0]; cbn [negb]; sred;
      [repeat split; try reflexivity; exact E0|].
    rewrite W4, Ht.
    destruct (u32 (extTRGCounter m - 1) =? EXT_TRG_HIGH_TICKS); sred;
      [repeat split; try reflexivity; try congruence; apply pinWrite_same|].
    destruct (u32 (extTRGCounter m - 1) =? 0); sred;
      repeat split; try reflexivity; try congruence; apply pinWrite_same. }
  clearbody m s'.
  rewrite T19 by congruence. rewrite T15, Vx, Vp, Fx, Fp.
  unfold sameWiring. repeat split; congruence.
Qed.

(** The trigger line over the periods of a cycle, from a low line. *)
Lemma trigger_wave s t n :
  timerOn s = true -> extPinTRG s = Some t ->
  specPinCLK s <> Some t -> specPinST s <> Some t ->
  extPinLIGHT s <> Some t -> adcPinCNV s <> Some t ->
  pins s t = false -> 0 <= extTRGCounter s < 2 ^ 32 ->
  let c0 := extTRGCounter s in
  sameWiring s (runPeriods n s) /\ timerOn (runPeriods n s) = true
  /\ extTRGCounter (runPeriods n s) = Z.max 0 (c0 - Z.of_nat n)
  /\ pins (runPeriods n s) t
     = (EXT_TRG_HIGH_TICKS <? c0)
       && (c0 - EXT_TRG_HIGH_TICKS <=? Z.of_nat n) && (Z.of_nat n <? c0).
Proof.
  intros Hon Ht H1 H2 H3 H4 Hp Hc c0. subst c0.
  pose proof EXT_TRG_HIGH_TICKS_range as HH.
  induction n as [|n IH].
  - change (runPeriods 0 s) with s. split; [|split; [exact Hon|split]].
    + unfold sameWiring. repeat split; reflexivity.
    + lia.
    + rewrite Hp. symmetry.
      destruct (Z.ltb_spec EXT_TRG_HIGH_TICKS (extTRGCounter s));
        destruct (Z.leb_spec (extTRGCounter s - EXT_TRG_HIGH_TICKS)
                    (Z.of_nat 0));
        destruct (Z.ltb_spec (Z.of_nat 0) (extTRGCounter s));
        cbn [andb]; try reflexivity; lia.
  - destruct IH as (W & Hon' & Hx & Hpn).
    pose proof W as (W1&W2&W3&W4&W5&W6&W7&W8&W9).
    rewrite runPeriods_S.
    destruct (timerPeriod_trigger (runPeriods n s) t Hon'
                ltac:(congruence) ltac:(congruence) ltac:(congruence)
                ltac:(congruence) ltac:(congruence))
      as (V & Von & Vx & Vp).
    cbv zeta in Vx, Vp.
    set (sn := runPeriods n s) in *. clearbody sn.
    set (s' := timerPeriod sn) in *. clearbody s'.
    split; [|split; [exact Von|]].
    { destruct V as (V1&V2&V3&V4&V5&V6&V7&V8&V9).
      unfold sameWiring. repeat split; congruence. }
    rewrite Vx, Vp, Hx, Hpn. clear Vx Vp Hx Hpn.
    set (c0 := extTRGCounter s) in *.
    set (h := EXT_TRG_HIGH_TICKS) in *.
    destruct (Z.eqb_spec (Z.max 0 (c0 - Z.of_nat n)) 0) as [E0|E0].
    + split; [lia|].
      destruct (Z.ltb_spec h c0); destruct (Z.leb_spec (c0 - h) (Z.of_nat n));
        destruct (Z.ltb_spec (Z.of_nat n) c0);
        destruct (Z.leb_spec (c0 - h) (Z.of_nat (S n)));
        destruct (Z.ltb_spec (Z.of_nat (S n)) c0);
        cbn [andb]; try reflexivity; lia.
    + rewrite (u32_small (Z.max 0 (c0 - Z.of_nat n) - 1)) by lia.
      split; [lia|].
      destruct (Z.eqb_spec (Z.max 0 (c0 - Z.of_nat n) - 1) h);
        [|destruct (Z.eqb_spec (Z.max 0 (c0 - Z.of_nat n) - 1) 0)];
        destruct (Z.ltb_spec h c0); destruct (Z.leb_spec (c0 - h) (Z.of_nat n));
        destruct (Z.ltb_spec (Z.of_nat n) c0);
        destruct (Z.leb_spec (c0 - h) (Z.of_nat (S n)));
        destruct (Z.ltb_spec (Z.of_nat (S n)) c0);
        cbn [andb]; try reflexivity; lia.
Qed.

(** The trigger counter and the trigger line as [startSpecTimer] leaves
    them. *)
Lemma startSpecTimer_trigger (delay : Z) (s : Statics) t :
  timerOn s = false -> extPinTRG s = Some t -> 0 < delay ->
  let s0 := startSpecTimer delay true s in
  sameWiring s s0
  /\ extTRGCounter s0
     = u32 (EXT_TRG_HIGH_TICKS + LEAD_TICKS s0 + READ_TICKS + READ_TICKS
            - delayTimeTicks delay)
  /\ pins s0 t = false.
Proof.
  intros Hoff Ht Hd s0. subst s0. unfold startSpecTimer, sameWiring.
  rewrite Hoff. cbv zeta. cbn [extPinTRG set_specCounter set_timerOn].
  rewrite Ht. destruct (Z.ltb_spec 0 delay) as [_|]; [|lia].
  cbn [is_pin andb].
  destruct (_ <? delayTimeTicks delay); sred; rewrite Ht; cbn [is_pin];
    sred; destruct (extPinLIGHT s) as [l|] eqn:El; cbn [is_pin]; sred;
    rewrite ?El, ?Ht; repeat split; try reflexivity; try congruence;
    unfold pinResetFast;
    try (destruct (Nat.eq_dec l t) as [->|Hne];
         [apply pinWrite_same|rewrite pinWrite_other by congruence]);
    apply pinWrite_same.
Qed.

Lemma trigger_line (delay : Z) (s : Statics) (t n : nat) :
  Z.of_nat SPEC_PIXELS <= 65535 ->
  timerOn s = false -> extPinTRG s = Some t ->
  specPinCLK s <> Some t -> specPinST s <> Some t ->
  extPinLIGHT s <> Some t -> adcPinCNV s <> Some t ->
  0 < delay ->
  pins (runPeriods n (startSpecTimer delay true s)) t
  = (0 <? triggerRise delay) && (triggerRise delay <=? Z.of_nat n)
    && (Z.of_nat n <? triggerRise delay + EXT_TRG_HIGH_TICKS).
Proof.
  intros HN Hoff Ht H1 H2 H3 H4 Hd.
  pose proof (READ_TICKS_bounds HN) as HR.
  pose proof EXT_TRG_HIGH_TICKS_range as HH.
  pose proof (delayTimeTicks_range delay) as Hdt.
  destruct (startSpecTimer_trigger delay s t Hoff Ht Hd) as (W & Hx & Hp).
  cbv zeta in W, Hx, Hp.
  pose proof (startSpecTimer_LEAD delay true s Hoff) as Hl.
  rewrite Ht in Hl. cbn [is_pin andb] in Hl.
  destruct (Z.ltb_spec 0 delay) as [_|]; [|lia].
  destruct (startSpecTimer_clock delay true s Hoff) as (Hon & _).
  set (s0 := startSpecTimer delay true s) in *. clearbody s0.
  pose proof W as (W1&W2&W3&W4&W5&W6&W7&W8&W9).
  unfold triggerRise, DEF_LEAD_TICKS in *.
  set (d := delayTimeTicks delay) in *.
  set (h := EXT_TRG_HIGH_TICKS) in *.
  assert (extTRGCounter s0 = if 64 + READ_TICKS + READ_TICKS <? d
                             then h else h + (64 + 2 * READ_TICKS - d))
    as Hc0.
  { rewrite Hx, Hl.
    destruct (Z.ltb_spec (64 + READ_TICKS + READ_TICKS) d).
    - rewrite (u32_small (d - READ_TICKS - READ_TICKS)) by lia.
      rewrite u32_small by lia. lia.
    - rewrite u32_small by lia. lia. }
  destruct (trigger_wave s0 t n Hon ltac:(congruence) ltac:(congruence)
              ltac:(congruence) ltac:(congruence) ltac:(congruence) Hp)
    as (_ & _ & _ & Hw).
  { rewrite Hc0.
    destruct (Z.ltb_spec (64 + READ_TICKS + READ_TICKS) d); lia. }
  cbv zeta in Hw. rewrite Hw, Hc0. clear Hw Hc0 Hx Hl.
  destruct (Z.ltb_spec (64 + READ_TICKS + READ_TICKS) d);
    repeat match goal with
           | |- context [?a <? ?b] => destruct (Z.ltb_spec a b)
           | |- context [?a <=? ?b] => destruct (Z.leb_spec a b)
           end; cbn [andb]; try reflexivity; lia.
Qed.

(** X4. With external triggering, a positive delay of [d] ticks (made even)
    that is shorter than the default lead plus two reset passes, and a
    trigger line distinct from the other lines, the trigger line is high
    exactly during the [EXT_TRG_HIGH_TICKS] periods from period
    [triggerRise] on, and the machine enters [SPEC_INTEGRATION] exactly [d]
    periods after the rise. *)
Theorem external_trigger_pulse (delay : Z) (s : Statics) (t : nat) :
  Z.of_nat SPEC_PIXELS <= 65535 ->
  timerOn s = false -> 0 < INTEG_TICKS s < 2 ^ 32 ->
  extPinTRG s = Some t ->
  specPinCLK s <> Some t -> specPinST s <> Some t ->
  extPinLIGHT s <> Some t -> adcPinCNV s <> Some t ->
  0 < delay -> 0 < triggerRise delay ->
  let s0 := startSpecTimer delay true s in
  let rise := triggerRise delay in
  (forall n,
      pins (runPeriods n s0) t
      = (rise <=? Z.of_nat n) && (Z.of_nat n <? rise + EXT_TRG_HIGH_TICKS))
  /\ specState
       (runPeriods (Z.to_nat (rise + delayTimeTicks delay - 1)) s0)
     = SPEC_RESET2
  /\ specState (runPeriods (Z.to_nat (rise + delayTimeTicks delay)) s0)
     = SPEC_INTEGRATION.
Proof.
  intros HN Hoff HI Ht H1 H2 H3 H4 Hd Hrise s0 rise. subst s0 rise.
  pose proof (READ_TICKS_bounds HN) as HR.
  pose proof (delayTimeTicks_range delay) as Hdt.
  split.
  - intros n. rewrite trigger_line by assumption.
    destruct (Z.ltb_spec 0 (triggerRise delay)); [reflexivity|lia].
  - pose proof (startSpecTimer_LEAD delay true s Hoff) as Hl.
    rewrite Ht in Hl. cbn [is_pin andb] in Hl.
    unfold triggerRise, DEF_LEAD_TICKS in *.
    destruct (Z.ltb_spec 0 delay) as [_|]; [|lia].
    destruct (Z.ltb_spec (64 + READ_TICKS + READ_TICKS)
                (delayTimeTicks delay)); [lia|].
    rewrite !startSpecTimer_schedule by assumption.
    rewrite Hl. unfold phaseAt. rewrite !Z2Nat.id by lia.
    split;
      repeat match goal with
             | |- context [?a <? ?b] => destruct (Z.ltb_spec a b); try lia
             end; reflexivity.
Qed.

(** X5. With a delay of at least the default lead plus two reset passes
    (in ticks, made even) the trigger counter starts at
    [EXT_TRG_HIGH_TICKS], the value it is compared with only after the
    decrement: the trigger line is never driven high. *)
Theorem external_trigger_silent (delay : Z) (s : Statics) (t n : nat) :
  Z.of_nat SPEC_PIXELS <= 65535 ->
  timerOn s = false -> extPinTRG s = Some t ->
  specPinCLK s <> Some t -> specPinST s <> Some t ->
  extPinLIGHT s <> Some t -> adcPinCNV s <> Some t ->
  0 < delay ->
  DEF_LEAD_TICKS + 2 * READ_TICKS <= delayTimeTicks delay ->
  pins (runPeriods n (startSpecTimer delay true s)) t = false.
Proof.
  intros HN Hoff Ht H1 H2 H3 H4 Hd Hlong.
  rewrite trigger_line by assumption. unfold triggerRise.
  destruct (Z.ltb_spec 0 (DEF_LEAD_TICKS + 2 * READ_TICKS
                          - delayTimeTicks delay)); [lia|reflexivity].
Qed.

Lemma timerPeriod_lines s :
  sameWiring s (timerPeriod s)
  /\ timerOn (timerPeriod s) = timerOn s
  /\ forall n, ~ ownLine s n -> pins (timerPeriod s) n = pins s n.
Proof.
  unfold timerPeriod, spectroClockInterrupt, ownLine.
  destruct (timerOn s) eqn:Hon; cbn [negb].
  - cbv zeta.
    destruct (clockStateMachine_frame s) as (W & Fon & _ & _ & _ & _ & Fp).
    set (m := clockStateMachine (driveClock s)) in *. clearbody m.
    destruct (processTrigger_frame m)
      as (V & Von & _ & _ & _ & _ & _ & _ & _ & _ & _ & Vp).
    set (p := processTrigger m) in *. clearbody p.
    destruct (spectroTRGInterrupt_timing p)
      as (T1&T2&T3&T4&T5&T6&T7&T8&T9&T10&_&_&_&_&_&_&_&_&T19).
    destruct W as (W1&W2&W3&W4&W5&W6&W7&W8&W9).
    destruct V as (V1&V2&V3&V4&V5&V6&V7&V8&V9).
    unfold sameWiring. repeat split; try congruence.
    intros n Hn. rewrite T19, Vp, Fp; try reflexivity;
      intros E; apply Hn; intuition congruence.
  - destruct (spectroTRGInterrupt_timing s)
      as (T1&T2&T3&T4&T5&T6&T7&T8&T9&T10&_&_&_&_&_&_&_&_&T19).
    unfold sameWiring. repeat split; try congruence.
    intros n Hn. apply T19. intros E. apply Hn. now left.
Qed.

Lemma waitForStop_lines fuel :
  forall s s',
    waitForStop fuel s = Some s' ->
    sameWiring s s' /\ timerOn s' = timerOn s
    /\ forall n, ~ ownLine s n -> pins s' n = pins s n.
Proof.
  induction fuel as [|fuel IH]; intros s s'; simpl;
    destruct (spec_state_eqb (specState s) SPEC_STOP); intros E;
    try discriminate;
    try (injection E as <-; unfold sameWiring; repeat split; reflexivity).
  destruct (IH _ _ E) as (W & Hon & Hp).
  destruct (timerPeriod_lines s) as (V & Von & Vp).
  destruct W as (W1&W2&W3&W4&W5&W6&W7&W8&W9).
  destruct V as (V1&V2&V3&V4&V5&V6&V7&V8&V9).
  unfold sameWiring. repeat split; try congruence.
  intros n Hn. rewrite Hp, Vp; [reflexivity|exact Hn|].
  unfold ownLine in *. rewrite V1, V2, V3, V4, V5. exact Hn.
Qed.

Lemma startSpecTimer_lines d b s :
  sameWiring s (startSpecTimer d b s)
  /\ forall n, ~ ownLine s n -> pins (startSpecTimer d b s) n = pins s n.
Proof.
  unfold startSpecTimer, sameWiring, ownLine.
  destruct (timerOn s); [repeat split; reflexivity|]. cbv zeta.
  cbn [extPinTRG set_specCounter set_timerOn].
  destruct (b && is_pin (extPinTRG s) && (0 <? d));
    [destruct (_ <? delayTimeTicks d)|];
    sred; destruct (extPinTRG s) as [t|] eqn:Et; cbn [is_pin]; sred;
    destruct (extPinLIGHT s) as [l|] eqn:El; cbn [is_pin]; sred;
    rewrite ?Et, ?El; repeat split; try reflexivity;
    intros n Hn; unfold pinSetFast, pinResetFast;
    rewrite ?pinWrite_other; try reflexivity;
    intros E; apply Hn; intuition congruence.
Qed.

Lemma stopSpecTimer_lines s :
  sameWiring s (stopSpecTimer s)
  /\ timerOn (stopSpecTimer s) = false
  /\ specState (stopSpecTimer s) = specState s
  /\ pinLevel (specPinCLK s) (pins (stopSpecTimer s)) = false
  /\ pinLevel (specPinST s) (pins (stopSpecTimer s)) = false
  /\ pinLevel (extPinTRG s) (pins (stopSpecTimer s)) = false
  /\ pinLevel (extPinLIGHT s) (pins (stopSpecTimer s)) = false
  /\ forall n, ~ ownLine s n -> pins (stopSpecTimer s) n = pins s n.
Proof.
  unfold stopSpecTimer, sameWiring, ownLine. cbv zeta. sred.
  destruct (extPinTRG s) as [t|] eqn:Et; cbn [is_pin]; sred;
    destruct (extPinLIGHT s) as [l|] eqn:El; cbn [is_pin]; sred;
    rewrite ?Et, ?El;
    destruct (specPinCLK s) as [c|] eqn:Ec;
    destruct (specPinST s) as [p|] eqn:Ep;
    repeat split; try reflexivity;
    try (intros n Hn; unfold pinSetFast, pinResetFast;
         rewrite ?pinWrite_other; try reflexivity;
         intros E; apply Hn; intuition congruence);
    unfold pinLevel, pinResetFast, pinWrite; rewrite ?Nat.eqb_refl;
    repeat match goal with
           | |- context [Nat.eqb ?a ?b] => destruct (Nat.eqb a b)
           end; reflexivity.
Qed.

(** The state [readSpectrometer] returns, next to the buffers. *)
Lemma readSpectrometer_lines fuel o timeUs ext light s :
  Z.of_nat SPEC_PIXELS <= 65535 ->
  timerOn s = false ->
  0 < timeUs \/ 0 < INTEG_TICKS s < 2 ^ 32 ->
  (Z.to_nat (2 ^ 34) <= fuel)%nat ->
  exists s',
    readSpectrometer fuel o timeUs ext light s = Some s'
    /\ timerOn s' = false /\ specState s' = SPEC_STOP
    /\ measuringData_ s' = measuringData_ s
    /\ INTEG_TICKS s' = INTEG_TICKS s /\ eeprom s' = eeprom s
    /\ extPinTRG s' = NO_PIN /\ extPinLIGHT s' = NO_PIN
    /\ pinLevel (specPinCLK s) (pins s') = false
    /\ pinLevel (specPinST s) (pins s') = false
    /\ (ext = true -> pinLevel (ext_trg_ o) (pins s') = false)
    /\ (light = true -> pinLevel (ext_trg_ls_ o) (pins s') = false)
    /\ forall n,
         adc_cnv_ o <> Some n -> adcPinCNV s <> Some n ->
         specPinCLK s <> Some n -> specPinST s <> Some n ->
         (if ext then ext_trg_ o else extPinTRG s) <> Some n ->
         (if light then ext_trg_ls_ o else extPinLIGHT s) <> Some n ->
         pins s' n = pins s n.
Proof.
  intros HN Hoff Hint Hfuel. unfold readSpectrometer.
  rewrite Hoff. cbv zeta.
  match goal with
  | |- context [waitForStop fuel (startSpecTimer ?d ?b ?s0)] =>
      set (pre := s0)
  end.
  assert (timerOn pre = false /\ 0 < INTEG_TICKS pre < 2 ^ 32
          /\ adcPinCNV pre = adcPinCNV s /\ specPinCLK pre = specPinCLK s
          /\ specPinST pre = specPinST s
          /\ extPinTRG pre = (if ext then ext_trg_ o else extPinTRG s)
          /\ extPinLIGHT pre
             = (if light then ext_trg_ls_ o else extPinLIGHT s)
          /\ (forall n, adc_cnv_ o <> Some n -> pins pre n = pins s n)
          /\ measuringData_ pre = measuringData_ s
          /\ eeprom pre = eeprom s
          /\ (timeUs <= 0 -> INTEG_TICKS pre = INTEG_TICKS s))
    as (P1 & P2 & P3 & P4 & P5 & P6 & P7 & P8 & P9 & P10 & P11).
  { clear Hfuel. subst pre. unfold startADC.
    set (P := fun a : Statics =>
                timerOn a = false /\ 0 < INTEG_TICKS a < 2 ^ 32
                /\ adcPinCNV a = adcPinCNV s /\ specPinCLK a = specPinCLK s
                /\ specPinST a = specPinST s
                /\ extPinTRG a = extPinTRG s
                /\ extPinLIGHT a = extPinLIGHT s
                /\ pins a = pins s
                /\ measuringData_ a = measuringData_ s
                /\ eeprom a = eeprom s
                /\ (timeUs <= 0 -> INTEG_TICKS a = INTEG_TICKS s)).
    match goal with
    | |- context [for_range 0 SPEC_PIXELS 1 ?body ?s0] =>
        assert (P (for_range 0 SPEC_PIXELS 1 body s0))
          as (Q1 & Q2 & Q3 & Q4 & Q5 & Q6 & Q7 & Q8 & Q9 & Q10 & Q11);
        [apply (for_loop_invariant P);
         [intros i a Ha; unfold P in *; sred; exact Ha|]
        |set (s2 := for_range 0 SPEC_PIXELS 1 body s0) in *; clearbody s2]
    end.
    { unfold P. sred. destruct (Z.ltb_spec 0 timeUs) as [Hpos|Hnp].
      - rewrite setIntTime_timerOn.
        split; [exact Hoff|]. split; [now apply setIntTime_INTEG_range|].
        unfold setIntTime. rewrite Hoff. cbv zeta.
        repeat split_if; sred; repeat split; try reflexivity; intros; lia.
      - repeat split; auto; lia. }
    destruct ext, light; sred; repeat split; try assumption; try lia;
      intros n Hn; rewrite <- Q8; unfold pinResetFast;
      now apply pinWrite_other. }
  clearbody pre.
  destruct (startSpecTimer_starts (extTrgMeasDelayUs_ o) ext pre HN P1 P2)
    as [Hinv Hticks].
  destruct (startSpecTimer_lines (extTrgMeasDelayUs_ o) ext pre) as (W & Wp).
  set (s0 := startSpecTimer (extTrgMeasDelayUs_ o) ext pre) in *.
  destruct (startSpecTimer_clock (extTrgMeasDelayUs_ o) ext pre P1)
    as (_ & _ & _ & Hg0).
  fold s0 in Hg0. clearbody s0.
  destruct (waitForStop_terminates fuel s0 HN Hinv ltac:(lia))
    as (s1 & Hw & Hg1).
  rewrite Hw. clear Hfuel Hticks.
  destruct (waitForStop_invariant (fun _ => True)) with (fuel := fuel)
    (s := s0) (s' := s1) as (_ & Hstop); auto.
  destruct (waitForStop_lines _ _ _ Hw) as (V & _ & Vp).
  destruct (stopSpecTimer_lines s1) as (U & Uon & Ust & U1 & U2 & U3 & U4 & Up).
  set (s2 := stopSpecTimer s1) in *.
  assert (INTEG_TICKS s2 = INTEG_TICKS s1) as Hg2
    by (subst s2; unfold stopSpecTimer; cbv zeta; repeat split_if;
        reflexivity).
  clearbody s2.
  destruct W as (W1&W2&W3&W4&W5&_&_&W8&W9).
  destruct V as (V1&V2&V3&V4&V5&_&_&V8&V9).
  destruct U as (U5&U6&U7&U8&U9&_&_&U10&U11).
  rewrite V2, W2, P4 in U1. rewrite V3, W3, P5 in U2.
  rewrite V4, W4, P6 in U3. rewrite V5, W5, P7 in U4.
  eexists. split; [reflexivity|]. unfold endADC, NO_PIN.
  assert (forall n,
             adc_cnv_ o <> Some n -> adcPinCNV s <> Some n ->
             specPinCLK s <> Some n -> specPinST s <> Some n ->
             (if ext then ext_trg_ o else extPinTRG s) <> Some n ->
             (if light then ext_trg_ls_ o else extPinLIGHT s) <> Some n ->
             pins s2 n = pins s n) as Hframe.
  { intros n N1 N2 N3 N4 N5 N6.
    rewrite Up, Vp, Wp, P8; try reflexivity; try assumption;
      unfold ownLine; rewrite ?V1, ?V2, ?V3, ?V4, ?V5,
        ?W1, ?W2, ?W3, ?W4, ?W5, ?P3, ?P4, ?P5, ?P6, ?P7;
      intuition congruence. }
  destruct (Z.ltb_spec 0 timeUs); sred;
    (repeat split; try congruence; try assumption;
     [..|intros ->; exact U3|intros ->; exact U4]);
    rewrite Hg2, Hg1, Hg0; apply P11; lia.
Qed.

(** X6. An acquisition leaves the lines as it found them: when
    [readSpectrometer] returns the timer is off, the machine stopped, both
    trigger pins unassigned, the clock, start and trigger lines low, and
    every pin other than the conversion, clock, start and trigger lines has
    the level it had before. *)
Theorem acquisition_lines fuel o timeUs ext light s :
  Z.of_nat SPEC_PIXELS <= 65535 ->
  timerOn s = false ->
  0 < timeUs \/ 0 < INTEG_TICKS s < 2 ^ 32 ->
  (Z.to_nat (2 ^ 34) <= fuel)%nat ->
  exists s',
    readSpectrometer fuel o timeUs ext light s = Some s'
    /\ timerOn s' = false /\ specState s' = SPEC_STOP
    /\ extPinTRG s' = NO_PIN /\ extPinLIGHT s' = NO_PIN
    /\ pinLevel (specPinCLK s) (pins s') = false
    /\ pinLevel (specPinST s) (pins s') = false
    /\ (ext = true -> pinLevel (ext_trg_ o) (pins s') = false)
    /\ (light = true -> pinLevel (ext_trg_ls_ o) (pins s') = false)
    /\ forall n,
         adc_cnv_ o <> Some n -> adcPinCNV s <> Some n ->
         specPinCLK s <> Some n -> specPinST s <> Some n ->
         (if ext then ext_trg_ o else extPinTRG s) <> Some n ->
         (if light then ext_trg_ls_ o else extPinLIGHT s) <> Some n ->
         pins s' n = pins s n.
Proof.
  intros HN Hoff Hint Hfuel.
  destruct (readSpectrometer_lines fuel o timeUs ext light s HN Hoff Hint
              Hfuel)
    as (s' & E & H1 & H2 & _ & _ & _ & H3 & H4 & H5 & H6 & H7 & H8 & H9).
  exists s'. repeat split; assumption.
Qed.

Lemma codeSum_range adc r n :
  0 <= codeSum adc r n <= Z.of_nat n * 65535.
Proof.
  revert r. induction n as [|n IH]; intros r; [cbn; lia|].
  cbn [codeSum]. specialize (IH (S r)).
  pose proof (u16_range (adc r)). lia.
Qed.

Lemma adcBurst_pos : (0 < adcBurst)%nat.
Proof. unfold adcBurst. destruct ADC_AVG_4; lia. Qed.

(** The readings [processMeasurement] stores, all pixels at once. *)
Lemma processMeasurement_readings o s mt (m : list Q) :
  length m = SPEC_PIXELS ->
  length (fst (processMeasurement o s mt m)) = SPEC_PIXELS
  /\ forall i, (i < SPEC_PIXELS)%nat ->
       fst (processMeasurement o s mt m) !! i = Some (pixelReading o s mt i).
Proof.
  intros Hlen. unfold processMeasurement. cbv zeta.
  rewrite (for_range_fold _ 0 SPEC_PIXELS 1 SPEC_PIXELS);
    [|lia|intros; lia|lia].
  fold (satVoltageOf o).
  pose proof (processMeasurement_rounds o s mt m SPEC_PIXELS ltac:(lia))
    as H. cbv zeta in H.
  destruct H as (Hl & Hv & _). split; [congruence|exact Hv].
Qed.

(** A measurement in which the handler runs between two ticks stores the
    converted burst of every pixel. *)
Lemma takeMeasurement_acquires fuel timeUs ext o s :
  Z.of_nat SPEC_PIXELS <= 65535 ->
  timerOn s = false -> measuringData_ s = false ->
  0 < timeUs \/ 0 < INTEG_TICKS s < 2 ^ 32 ->
  specRead s = initSpecTimerData specRead0 ->
  length (data s) = SPEC_PIXELS -> length (dataCounts s) = SPEC_PIXELS ->
  length (data_ o) = SPEC_PIXELS ->
  (Z.to_nat (2 ^ 34) <= fuel)%nat ->
  exists o' s',
    takeMeasurement fuel timeUs ext (o, s) = Some (o', s')
    /\ measuringData_ s' = false
    /\ blackLevels_ o' = blackLevels_ o
    /\ (forall i, (i < SPEC_PIXELS)%nat ->
          data_ o' !! i
          = Some (convertReading (measurementType_ o)
                    (adcVoltages (adcRef_ o)) (satVoltageOf o)
                    (codeSum (adcInput s) (adcReads s + adcBurst * i)
                       adcBurst)
                    (Z.of_nat adcBurst)))
    /\ (measurementType_ o = MEASURE_RELATIVE ->
        forall i v, data_ o' !! i = Some v -> (0 <= v <= 1)%Q).
Proof.
  intros HN Hoff Hm Hint Htab Hld Hlc Hlo Hfuel.
  unfold takeMeasurement. rewrite Hoff, Hm. cbn [orb].
  destruct (readSpectrometer_acquires fuel o timeUs ext ext
              (set_measuringData_ true s) HN Hoff Hint Htab Hld Hlc Hfuel)
    as (s1 & E & _ & _ & L1 & L2 & Hpx).
  cbn [adcInput adcReads set_measuringData_] in Hpx.
  rewrite E. clear E Hfuel.
  destruct (processMeasurement_readings o s1 (measurementType_ o) (data_ o)
              Hlo) as (Lm & Hv).
  set (m := fst (processMeasurement o s1 (measurementType_ o) (data_ o)))
    in *. clearbody m.
  assert (forall i, (i < SPEC_PIXELS)%nat ->
            m !! i
            = Some (convertReading (measurementType_ o)
                      (adcVoltages (adcRef_ o)) (satVoltageOf o)
                      (codeSum (adcInput s) (adcReads s + adcBurst * i)
                         adcBurst)
                      (Z.of_nat adcBurst))) as Hpix.
  { intros i Hi. rewrite (Hv i Hi). unfold pixelReading.
    destruct (Hpx i Hi) as (Ed & Ec).
    rewrite (nth_lookup_Some _ _ 0 _ Ed), (nth_lookup_Some _ _ 0 _ Ec).
    pose proof adcBurst_pos.
    destruct (Z.eqb_spec (Z.of_nat adcBurst) 0); [lia|reflexivity]. }
  eexists _, _. split; [reflexivity|]. sred.
  split; [reflexivity|]. split; [reflexivity|]. split; [exact Hpix|].
  intros Hrel i v Ev.
  assert (i < SPEC_PIXELS)%nat as Hi.
  { rewrite <- Lm. apply lookup_lt_is_Some_1. eauto. }
  rewrite (Hpix i Hi), Hrel in Ev. injection Ev as <-.
  unfold convertReading, ADC_MAX_VALUE.
  pose proof (codeSum_range (adcInput s) (adcReads s + adcBurst * i)
                adcBurst) as Hc.
  pose proof adcBurst_pos as Hb.
  set (c := codeSum _ _ _) in *. set (b := Z.of_nat adcBurst) in *.
  assert (0 < inject_Z (b * 65535))%Q as Hpos
    by (unfold Qlt; simpl; lia).
  split.
  - apply Qle_shift_div_l; [exact Hpos|]. rewrite Qmult_0_l.
    unfold Qle. simpl. lia.
  - apply Qle_shift_div_r; [exact Hpos|]. rewrite Qmult_1_l.
    unfold Qle. simpl. lia.
Qed.

End CycleTheory.

(** *** The same on the C12666MA *)

Lemma acquisition_cycle_schedule_witness :
  (forall n,
      specState
        (runPeriods (build := c12666ma) n
           (startSpecTimer (build := c12666ma) 0 false
              (idleStatics (build := c12666ma) (fun _ => 0))))
      = phaseAt (build := c12666ma)
          (LEAD_TICKS
             (startSpecTimer (build := c12666ma) 0 false
                (idleStatics (build := c12666ma) (fun _ => 0))))
          (INTEG_TICKS (idleStatics (build := c12666ma) (fun _ => 0)))
          (Z.of_nat n))
  /\ (forall fuel,
        (Z.to_nat
           (cycleTicks (build := c12666ma)
              (startSpecTimer (build := c12666ma) 0%Z false
                 (idleStatics (build := c12666ma) (fun _ => 0%Z))))
         <= fuel)%nat ->
        waitForStop (build := c12666ma) fuel
          (startSpecTimer (build := c12666ma) 0 false
             (idleStatics (build := c12666ma) (fun _ => 0)))
        = Some
            (runPeriods (build := c12666ma)
               (Z.to_nat
                  (cycleTicks (build := c12666ma)
                     (startSpecTimer (build := c12666ma) 0 false
                        (idleStatics (build := c12666ma) (fun _ => 0)))))
               (startSpecTimer (build := c12666ma) 0 false
                  (idleStatics (build := c12666ma) (fun _ => 0))))).
Proof.
  apply (acquisition_cycle_schedule (build := c12666ma));
    [simpl; lia | reflexivity | vm_compute; split; reflexivity].
Defined.

Lemma external_trigger_pulse_witness :
  (forall n,
      pins
        (runPeriods (build := c12666ma) n
           (startSpecTimer (build := c12666ma) 20000 true
              (idleWithTrigger (build := c12666ma) (fun _ => 0)))) 1%nat
      = (triggerRise (build := c12666ma) 20000 <=? Z.of_nat n)
        && (Z.of_nat n
            <? triggerRise (build := c12666ma) 20000
               + EXT_TRG_HIGH_TICKS (build := c12666ma)))
  /\ specState
       (runPeriods (build := c12666ma)
          (Z.to_nat
             (triggerRise (build := c12666ma) 20000
              + delayTimeTicks (build := c12666ma) 20000 - 1))
          (startSpecTimer (build := c12666ma) 20000 true
             (idleWithTrigger (build := c12666ma) (fun _ => 0))))
     = SPEC_RESET2
  /\ specState
       (runPeriods (build := c12666ma)
          (Z.to_nat
             (triggerRise (build := c12666ma) 20000
              + delayTimeTicks (build := c12666ma) 20000))
          (startSpecTimer (build := c12666ma) 20000 true
             (idleWithTrigger (build := c12666ma) (fun _ => 0))))
     = SPEC_INTEGRATION.
Proof.
  apply (external_trigger_pulse (build := c12666ma) 20000
           (idleWithTrigger (build := c12666ma) (fun _ => 0)) 1%nat);
    [simpl; lia | reflexivity | vm_compute; split; reflexivity
    | reflexivity | discriminate | discriminate | discriminate
    | discriminate | lia | vm_compute; reflexivity].
Defined.

Lemma external_trigger_silent_witness :
  pins
    (runPeriods (build := c12666ma) 5000
       (startSpecTimer (build := c12666ma) 30000 true
          (idleWithTrigger (build := c12666ma) (fun _ => 0)))) 1%nat
  = false.
Proof.
  apply (external_trigger_silent (build := c12666ma) 30000
           (idleWithTrigger (build := c12666ma) (fun _ => 0)) 1%nat 5000);
    [simpl; lia | reflexivity | reflexivity | discriminate | discriminate
    | discriminate | discriminate | lia | vm_compute; discriminate].
Defined.

Lemma acquisition_lines_witness :
  exists s',
    readSpectrometer (build := c12666ma) (Z.to_nat (2 ^ 34))
      (sampleDriver (build := c12666ma)) 0 true true
      (idleStatics (build := c12666ma) (fun _ => 1000%Z)) = Some s'
    /\ timerOn s' = false /\ specState s' = SPEC_STOP
    /\ extPinTRG s' = NO_PIN /\ extPinLIGHT s' = NO_PIN
    /\ pinLevel (specPinCLK (idleStatics (build := c12666ma)
                               (fun _ => 1000%Z))) (pins s') = false
    /\ pinLevel (specPinST (idleStatics (build := c12666ma)
                              (fun _ => 1000%Z))) (pins s') = false
    /\ (true = true ->
        pinLevel (ext_trg_ (sampleDriver (build := c12666ma))) (pins s')
        = false)
    /\ (true = true ->
        pinLevel (ext_trg_ls_ (sampleDriver (build := c12666ma))) (pins s')
        = false)
    /\ forall n,
         adc_cnv_ (sampleDriver (build := c12666ma)) <> Some n ->
         adcPinCNV (idleStatics (build := c12666ma) (fun _ => 1000%Z))
         <> Some n ->
         specPinCLK (idleStatics (build := c12666ma) (fun _ => 1000%Z))
         <> Some n ->
         specPinST (idleStatics (build := c12666ma) (fun _ => 1000%Z))
         <> Some n ->
         (if true then ext_trg_ (sampleDriver (build := c12666ma))
          else extPinTRG (idleStatics (build := c12666ma) (fun _ => 1000%Z)))
         <> Some n ->
         (if true then ext_trg_ls_ (sampleDriver (build := c12666ma))
          else extPinLIGHT (idleStatics (build := c12666ma)
                              (fun _ => 1000%Z)))
         <> Some n ->
         pins s' n
         = pins (idleStatics (build := c12666ma) (fun _ => 1000%Z)) n.
Proof.
  apply (acquisition_lines (build := c12666ma));
    [simpl; lia | reflexivity | right; vm_compute; split; reflexivity
    | apply le_n].
Defined.

(** ** Configuration, result access and saturation voltages *)

Section ConfigTheory.

Context {build : Build}.

Ltac ored :=
  cbn [set_measurementType_ set_extTrgMeasDelayUs_ set_calibration_]; sred.

(** *** Integration time and trigger delay *)

Lemma minIntTime_exact :
  Z.of_nat SPEC_PIXELS <= 65535 ->
  u32 (SPEC_CLK_TICK_TIMER * READ_TICKS + MIN_INTEG_TIME_US * TIMER_US_FACTOR)
  = minIntTimeUs * TIMER_US_FACTOR
  /\ 0 < minIntTimeUs < MAX_INTEG_TIME_US.
Proof.
  intros HN. destruct READ_TICKS_even as [m [HR Hm]].
  assert (m <= 262146) as Hm'.
  { unfold READ_TICKS, TICKS_PER_PIXEL, TRAIL_TICKS in HR. lia. }
  unfold minIntTimeUs, ticksToUsec, MIN_INTEG_TIME_US, MAX_INTEG_TIME_US,
    TIMER_US_FACTOR. rewrite HR.
  destruct tick_cases as [-> | ->].
  - rewrite !u32_small by lia.
    replace (2 * m * 50) with (m * 10 * 10) by lia.
    rewrite Z.div_mul by lia. lia.
  - rewrite !u32_small by lia.
    replace (2 * m * 85) with (m * 17 * 10) by lia.
    rewrite Z.div_mul by lia. lia.
Qed.

(** X7. [setIntTime] clamps: a request below the shortest or above the
    longest integration time has the effect of the nearest of the two, and
    on a stopped timer the integration ticks end up even, above
    [uSecToTicks(MIN_INTEG_TIME_US)] and at most
    [uSecToTicks(MAX_INTEG_TIME_US)]. *)
Theorem setIntTime_clamps (t : Z) (b : bool) (s : Statics) :
  Z.of_nat SPEC_PIXELS <= 65535 ->
  0 <= t -> t * TIMER_US_FACTOR < 2 ^ 32 ->
  setIntTime t b s = setIntTime (clampIntTime t) b s
  /\ (timerOn s = false ->
      Z.even (INTEG_TICKS (setIntTime t b s)) = true
      /\ uSecToTicks MIN_INTEG_TIME_US < INTEG_TICKS (setIntTime t b s)
         <= uSecToTicks MAX_INTEG_TIME_US).
Proof.
  intros HN Ht0 Ht.
  destruct (minIntTime_exact HN) as (Hmin & Hpos).
  pose proof (READ_TICKS_bounds HN) as HR.
  unfold setIntTime. destruct (timerOn s) eqn:Hoff;
    [split; [reflexivity|discriminate]|].
  cbv zeta. rewrite Hmin.
  unfold clampIntTime, MAX_INTEG_TIME_US, TIMER_US_FACTOR in *.
  set (lo := minIntTimeUs) in *.
  rewrite (u32_small (t * 10)) by lia.
  rewrite (u32_small (Z.min 10000000 (Z.max lo t) * 10)) by lia.
  assert ((if 10000000 * 10 <?
              (if t * 10 <? lo * 10 then lo * 10 else t * 10)
           then 10000000 * 10
           else if t * 10 <? lo * 10 then lo * 10 else t * 10)
          = Z.min 10000000 (Z.max lo t) * 10) as E1.
  { destruct (Z.ltb_spec (t * 10) (lo * 10));
      match goal with
      | |- context [?a <? ?b] => destruct (Z.ltb_spec a b)
      end; lia. }
  assert ((if 10000000 * 10 <?
              (if Z.min 10000000 (Z.max lo t) * 10 <? lo * 10
               then lo * 10 else Z.min 10000000 (Z.max lo t) * 10)
           then 10000000 * 10
           else if Z.min 10000000 (Z.max lo t) * 10 <? lo * 10
                then lo * 10 else Z.min 10000000 (Z.max lo t) * 10)
          = Z.min 10000000 (Z.max lo t) * 10) as E2.
  { destruct (Z.ltb_spec (Z.min 10000000 (Z.max lo t) * 10) (lo * 10));
      match goal with
      | |- context [?a <? ?b] => destruct (Z.ltb_spec a b)
      end; lia. }
  rewrite E1, E2. split; [reflexivity|]. intros _.
  set (c := Z.min 10000000 (Z.max lo t) * 10).
  assert (lo * 10 <= c <= 100000000) as Hc by (subst c; lia).
  assert (SPEC_CLK_TICK_TIMER * READ_TICKS + 10000 = lo * 10) as Hlo.
  { rewrite <- Hmin. unfold MIN_INTEG_TIME_US.
    rewrite u32_small; [lia|]. destruct tick_cases as [-> | ->]; lia. }
  unfold uSecToTicks, MIN_INTEG_TIME_US, TIMER_US_FACTOR.
  rewrite (u32_small (1000 * 10)), (u32_small (10000000 * 10)) by lia.
  set (tick := SPEC_CLK_TICK_TIMER) in *.
  assert (tick = 50 \/ tick = 85) as Htick by apply tick_cases.
  set (q := c / tick).
  assert (q = c / tick) as Hq0 by reflexivity.
  assert (READ_TICKS + 1000 * 10 / tick <= q <= 10000000 * 10 / tick) as Hq.
  { subst q. split.
    - replace (READ_TICKS + 1000 * 10 / tick)
        with ((READ_TICKS * tick + 1000 * 10) / tick).
      + apply Z.div_le_mono; lia.
      + rewrite Z.div_add_l by lia. reflexivity.
    - apply Z.div_le_mono; lia. }
  assert (117 <= 1000 * 10 / tick <= 200
          /\ 1176470 <= 10000000 * 10 / tick <= 2000000) as Hk.
  { destruct Htick as [-> | ->]; vm_compute; repeat split; discriminate. }
  sred. rewrite (u32_small (q - READ_TICKS + 1)) by lia.
  destruct (Z.eqb_spec (q - READ_TICKS + 1) 0) as [|_]; [lia|].
  sred. rewrite land_1_mod2.
  pose proof (Z.mod_pos_bound (q - READ_TICKS + 1) 2 ltac:(lia)) as Hm2.
  destruct READ_TICKS_even as [m [HRm Hm]].
  destruct (Z.eqb_spec ((q - READ_TICKS + 1) mod 2) 0) as [E|E];
    destruct b; cbn [negb]; sred;
    rewrite ?(u32_small (q - READ_TICKS + 1 + 1)) by lia;
    (split; [rewrite Zeven_mod; apply Z.eqb_eq|]);
    clear Hq0; Z.div_mod_to_equations; lia.
Qed.

Lemma EXT_TRG_HIGH_TICKS_cases :
  (SPEC_CLK_TICK_TIMER = 50 /\ EXT_TRG_HIGH_TICKS = 200)
  \/ (SPEC_CLK_TICK_TIMER = 85 /\ EXT_TRG_HIGH_TICKS = 117).
Proof.
  unfold EXT_TRG_HIGH_TICKS, uSecToTicks, SPEC_CLK_TICK_TIMER.
  destruct ADC_AVG_4; [right|left]; split; reflexivity.
Qed.

(** An even number of ticks survives the conversion to microseconds and
    back. *)
Lemma even_ticks_round_trip d :
  0 <= d -> d * SPEC_CLK_TICK_TIMER < 2 ^ 32 -> d mod 2 = 0 ->
  delayTimeTicks (ticksToUsec d) = d.
Proof.
  intros H0 Hb He. unfold delayTimeTicks, uSecToTicks, ticksToUsec,
    TIMER_US_FACTOR.
  destruct tick_cases as [Et | Et]; rewrite Et in *.
  - rewrite (u32_small (d * 50)) by lia.
    assert (d * 50 / 10 * 10 = d * 50) as E
      by (Z.div_mod_to_equations; lia).
    rewrite E, (u32_small (d * 50)) by lia.
    rewrite Z.div_mul by lia. rewrite even_mask by lia.
    Z.div_mod_to_equations. lia.
  - rewrite (u32_small (d * 85)) by lia.
    assert (d * 85 / 10 * 10 = d * 85) as E
      by (Z.div_mod_to_equations; lia).
    rewrite E, (u32_small (d * 85)) by lia.
    rewrite Z.div_mul by lia. rewrite even_mask by lia.
    Z.div_mod_to_equations. lia.
Qed.

(** The delay [setExtTrgMeasDelay] stores. *)
Lemma setExtTrgMeasDelay_stored (x : Z) (b : bool) (o : C12666MA)
    (s : Statics) :
  timerOn s = false ->
  - 2 ^ 31 <= x * TIMER_US_FACTOR < 2 ^ 31 ->
  exists o' s',
    setExtTrgMeasDelay x b (o, s) = Some (o', s')
    /\ (x < 0 -> extTrgMeasDelayUs_ o' = 0)
    /\ (0 <= x ->
        extTrgMeasDelayUs_ o' = ticksToUsec (settledDelayTicks x)
        /\ delayTimeTicks (extTrgMeasDelayUs_ o') = settledDelayTicks x)
    /\ (b = true ->
        eeprom s' EEPROM_TRG_MEAS_DELAY
        = Some (EWord (extTrgMeasDelayUs_ o')))
    /\ (b = false -> s' = s).
Proof.
  intros Hoff Hx. unfold setExtTrgMeasDelay. rewrite Hoff.
  cbv zeta. unfold TIMER_US_FACTOR in *.
  destruct (Z.leb_spec (- 2 ^ 31) (x * 10)) as [_|]; [|lia].
  destruct (Z.ltb_spec (x * 10) (2 ^ 31)) as [_|]; [|lia].
  cbn [andb]. eexists _, _. split; [reflexivity|].
  cbn [extTrgMeasDelayUs_ set_extTrgMeasDelayUs_].
  split; [|split; [|split]].
  - intros Hneg. destruct (Z.ltb_spec x 0); [reflexivity|lia].
  - intros Hpos. destruct (Z.ltb_spec x 0) as [|_]; [lia|].
    assert (Z.land
              (if u32 (Z.quot (x * 10) SPEC_CLK_TICK_TIMER)
                  <? EXT_TRG_HIGH_TICKS
               then EXT_TRG_HIGH_TICKS
               else u32 (Z.quot (x * 10) SPEC_CLK_TICK_TIMER))
              (u32 (Z.lnot 1))
            = settledDelayTicks x) as E.
    { unfold settledDelayTicks, TIMER_US_FACTOR.
      destruct EXT_TRG_HIGH_TICKS_cases as [[Et Eh] | [Et Eh]];
        rewrite Et, Eh; rewrite Z.quot_div_nonneg by lia;
        match goal with
        | |- context [x * 10 / ?t] =>
            set (q := x * 10 / t);
            assert (0 <= q < 2 ^ 31) as Hq
              by (subst q; Z.div_mod_to_equations; lia)
        end;
        rewrite u32_small by lia;
        match goal with
        | |- context [?a <? ?h] => destruct (Z.ltb_spec a h)
        end; rewrite even_mask by lia; f_equal; f_equal; lia. }
    rewrite E. split; [reflexivity|].
    apply even_ticks_round_trip.
    + unfold settledDelayTicks.
      destruct EXT_TRG_HIGH_TICKS_cases as [[_ ->] | [_ ->]];
        Z.div_mod_to_equations; lia.
    + unfold settledDelayTicks, TIMER_US_FACTOR.
      destruct EXT_TRG_HIGH_TICKS_cases as [[-> ->] | [-> ->]];
        Z.div_mod_to_equations; lia.
    + unfold settledDelayTicks. rewrite Z.mul_comm. apply Z.mod_mul. lia.
  - intros ->. cbn [eeprom set_eeprom]. unfold EEPROM_put.
    now rewrite Z.eqb_refl.
  - intros ->. reflexivity.
Qed.

(** X8. For a request whose product with [TIMER_US_FACTOR] fits a signed
    32 bit integer, [setExtTrgMeasDelay] on a stopped timer changes the
    member [extTrgMeasDelayUs_] and, when asked, the EEPROM cell of the
    delay, and nothing else: it stores 0 for a negative request and
    otherwise the request in whole ticks, raised to the hold time of the
    trigger and made even, converted back to microseconds; the tick count
    [startSpecTimer] derives from the stored delay is exactly that even
    number. *)
Theorem setExtTrgMeasDelay_settles (x : Z) (b : bool) (o : C12666MA)
    (s : Statics) :
  timerOn s = false ->
  - 2 ^ 31 <= x * TIMER_US_FACTOR < 2 ^ 31 ->
  let v := if x <? 0 then 0 else ticksToUsec (settledDelayTicks x) in
  setExtTrgMeasDelay x b (o, s)
  = Some (set_extTrgMeasDelayUs_ v o,
          if b
          then set_eeprom (EEPROM_put EEPROM_TRG_MEAS_DELAY (EWord v)
                             (eeprom s)) s
          else s)
  /\ delayTimeTicks v = (if x <? 0 then 0 else settledDelayTicks x).
Proof.
  intros Hoff Hx v.
  destruct (setExtTrgMeasDelay_stored x b o s Hoff Hx)
    as (o' & s' & E & Hneg & Hpos & _ & _).
  assert (extTrgMeasDelayUs_ o' = v) as Ev.
  { subst v. destruct (Z.ltb_spec x 0); [now apply Hneg|now apply Hpos]. }
  split.
  - rewrite E. clear Hneg Hpos.
    unfold setExtTrgMeasDelay in E. rewrite Hoff in E. cbv zeta in E.
    destruct ((- 2 ^ 31 <=? x * TIMER_US_FACTOR)
              && (x * TIMER_US_FACTOR <? 2 ^ 31)); [|discriminate].
    injection E as <- <-.
    cbn [extTrgMeasDelayUs_ set_extTrgMeasDelayUs_] in Ev |- *.
    rewrite Ev. reflexivity.
  - subst v. destruct (Z.ltb_spec x 0) as [|Hp]; [reflexivity|].
    destruct (Hpos Hp) as [E1 E2]. now rewrite <- E1.
Qed.

(** *** Result access *)

(** The three cases of the bandpass correction. *)
Lemma pixel_cases (p : nat) :
  (p < SPEC_PIXELS)%nat -> (2 <= SPEC_PIXELS)%nat ->
  ((p =? 0)%nat = true /\ (p + 1 < SPEC_PIXELS)%nat)
  \/ ((p =? 0)%nat = false
      /\ (Z.of_nat p =? Z.of_nat SPEC_PIXELS - 1) = true
      /\ (p - 1 < SPEC_PIXELS)%nat)
  \/ ((p =? 0)%nat = false
      /\ (Z.of_nat p =? Z.of_nat SPEC_PIXELS - 1) = false
      /\ (p - 1 < SPEC_PIXELS)%nat /\ (p + 1 < SPEC_PIXELS)%nat).
Proof.
  intros Hp HN.
  destruct (Nat.eqb_spec p 0) as [->|Hne]; [left; split; [reflexivity|lia]|].
  right.
  destruct (Z.eqb_spec (Z.of_nat p) (Z.of_nat SPEC_PIXELS - 1));
    [left|right]; repeat split; lia.
Qed.

(** X11. On a sensor of at least two pixels [getMeasurement] and
    [getBlackMeasurement] read inside [data_] and [blackLevels_] for every
    pixel index below [SPEC_PIXELS], also with the neighbours the bandpass
    correction takes in; for an index from [SPEC_PIXELS] on they read
    outside the arrays. *)
Theorem getMeasurement_stays_in_bounds (o : C12666MA) (p : nat) (sb : bool) :
  (2 <= SPEC_PIXELS)%nat ->
  length (data_ o) = SPEC_PIXELS -> length (blackLevels_ o) = SPEC_PIXELS ->
  ((p < SPEC_PIXELS)%nat ->
   is_Some (getMeasurement o p sb) /\ is_Some (getBlackMeasurement o p))
  /\ ((SPEC_PIXELS <= p)%nat ->
      getMeasurement o p sb = None /\ getBlackMeasurement o p = None).
Proof.
  intros HN Hld Hlb. split.
  - intros Hp.
    assert (forall i, (i < SPEC_PIXELS)%nat -> is_Some (data_ o !! i)) as Hd
      by (intros; apply lookup_lt_is_Some_2; lia).
    assert (forall i, (i < SPEC_PIXELS)%nat -> is_Some (blackLevels_ o !! i))
      as Hb by (intros; apply lookup_lt_is_Some_2; lia).
    unfold getMeasurement, getBlackMeasurement, getData.
    destruct (pixel_cases p Hp HN)
      as [(E1 & H1)|[(E1 & E2 & H1)|(E1 & E2 & H1 & H2)]];
      rewrite E1, ?E2;
      destruct (Hd p Hp) as [d0 ->]; destruct (Hb p Hp) as [b0 ->];
      try (destruct (Hd _ H1) as [d1 ->]; destruct (Hb _ H1) as [b1 ->]);
      try (destruct (Hd _ H2) as [d2 ->]; destruct (Hb _ H2) as [b2 ->]);
      destruct sb, (applyBandPassCorrection_ o); cbn; split; eauto.
  - intros Hp.
    assert (data_ o !! p = None) as Ed by (apply lookup_ge_None_2; lia).
    assert (blackLevels_ o !! p = None) as Eb
      by (apply lookup_ge_None_2; lia).
    unfold getMeasurement, getBlackMeasurement, getData.
    rewrite Ed, Eb. destruct sb; split; reflexivity.
Qed.

(** *** Measurement type and saturation voltages *)

Lemma resetBlackLevels_spec (o : C12666MA) :
  let o' := resetBlackLevels o in
  length (blackLevels_ o') = length (blackLevels_ o)
  /\ (forall i, (i < SPEC_PIXELS)%nat -> (i < length (blackLevels_ o))%nat ->
        blackLevels_ o' !! i = Some 0%Q)
  /\ data_ o' = data_ o /\ measurementType_ o' = measurementType_ o
  /\ gain_ o' = gain_ o /\ adcRef_ o' = adcRef_ o
  /\ satVoltageHighGain_ o' = satVoltageHighGain_ o
  /\ satVoltageNoGain_ o' = satVoltageNoGain_ o.
Proof.
  unfold resetBlackLevels. sred.
  rewrite (for_range_fold _ 0 SPEC_PIXELS 1 SPEC_PIXELS);
    [|lia|intros; lia|lia].
  repeat split.
  - induction SPEC_PIXELS as [|n IH]; [reflexivity|].
    rewrite seq_S, fold_left_app. cbn [fold_left].
    now rewrite length_insert.
  - intros i Hi Hl.
    assert (forall n,
               length (fold_left (fun s k => <[(0 + k * 1)%nat := 0%Q]> s)
                         (seq 0 n) (blackLevels_ o))
               = length (blackLevels_ o)) as Hlen.
    { induction n as [|n IH]; [reflexivity|].
      rewrite seq_S, fold_left_app. cbn [fold_left].
      now rewrite length_insert. }
    revert Hi. induction SPEC_PIXELS as [|n IH]; [lia|]. intros Hi.
    rewrite seq_S, fold_left_app. cbn [fold_left].
    replace (0 + (0 + n) * 1)%nat with n by lia.
    destruct (Nat.eq_dec i n) as [->|Hne].
    + apply list_lookup_insert_eq. now rewrite Hlen.
    + rewrite list_lookup_insert_ne by lia. apply IH. lia.
Qed.

(** X13. [setMeasurementType] does nothing while the timer runs or a
    measurement is in progress; otherwise it sets the type, keeps the data,
    clears every black level when the type changes and keeps them when it
    does not, and writes the type to the EEPROM only when asked. *)
Theorem setMeasurementType_resets_blacks (code : measure_t -> Z)
    (mt : measure_t) (b : bool) (o : C12666MA) (s : Statics) :
  length (blackLevels_ o) = SPEC_PIXELS ->
  let o' := fst (setMeasurementType code mt b (o, s)) in
  let s' := snd (setMeasurementType code mt b (o, s)) in
  (timerOn s || measuringData_ s = true -> o' = o /\ s' = s)
  /\ (timerOn s || measuringData_ s = false ->
      measurementType_ o' = mt
      /\ data_ o' = data_ o
      /\ (measurementType_ o = mt -> blackLevels_ o' = blackLevels_ o)
      /\ (measurementType_ o <> mt ->
          forall i, (i < SPEC_PIXELS)%nat -> blackLevels_ o' !! i = Some 0%Q)
      /\ (b = true ->
          eeprom s' EEPROM_MEASURE_TYPE_ADDR = Some (EWord (code mt)))
      /\ (b = false -> s' = s)).
Proof.
  intros Hlen o' s'. subst o' s'. unfold setMeasurementType.
  destruct (timerOn s || measuringData_ s); cbv zeta;
    (split; [intros E; try discriminate; split; reflexivity|]);
    intros E; try discriminate.
  destruct (resetBlackLevels_spec o) as (_ & Hz & Hd & _).
  cbv zeta in Hz, Hd.
  assert (measure_eqb (measurementType_ o) mt = true
          <-> measurementType_ o = mt) as Heq.
  { destruct (measurementType_ o), mt; simpl; split; congruence. }
  destruct (measure_eqb (measurementType_ o) mt) eqn:Em; cbn [negb];
    destruct b; ored; unfold EEPROM_put; rewrite ?Z.eqb_refl;
    repeat split; try reflexivity; try discriminate; try assumption;
    intros H; try (intros i Hi; apply Hz; lia);
    try (exfalso; apply H; now apply Heq);
    try (apply Heq in H; discriminate).
Qed.

Lemma sameSetup_refl o : sameSetup o o.
Proof. unfold sameSetup. repeat split; reflexivity. Qed.

Lemma sameSetup_trans o1 o2 o3 :
  sameSetup o1 o2 -> sameSetup o2 o3 -> sameSetup o1 o3.
Proof. unfold sameSetup. intuition congruence. Qed.

Lemma setGainInternal_spec g o s :
  let d := setGainInternal g (o, s) in
  sameSetup o (fst d) /\ gain_ (fst d) = g /\ adcRef_ (fst d) = adcRef_ o
  /\ data_ (fst d) = data_ o
  /\ timerOn (snd d) = timerOn s /\ INTEG_TICKS (snd d) = INTEG_TICKS s
  /\ measuringData_ (snd d) = measuringData_ s
  /\ eeprom (snd d) = eeprom s
  /\ (is_pin (spec_gain_ o) = true ->
      pinLevel (spec_gain_ o) (pins (snd d))
      = match g with HIGH_GAIN => true | NO_GAIN => false end).
Proof.
  unfold setGainInternal, sameSetup. sred.
  destruct g; sred; repeat split; intros Hp;
    destruct (spec_gain_ o); try discriminate;
    apply pinLevel_pinWrite_same.
Qed.

Lemma setAdcRefInternal_spec r o s :
  let d := setAdcRefInternal r (o, s) in
  sameSetup o (fst d) /\ adcRef_ (fst d) = r /\ gain_ (fst d) = gain_ o
  /\ data_ (fst d) = data_ o
  /\ timerOn (snd d) = timerOn s /\ INTEG_TICKS (snd d) = INTEG_TICKS s
  /\ measuringData_ (snd d) = measuringData_ s
  /\ eeprom (snd d) = eeprom s.
Proof.
  unfold setAdcRefInternal, sameSetup. cbv zeta. sred.
  repeat split_if; sred; repeat split.
Qed.

Lemma setSaturationVoltages_range h n b o s :
  let d := setSaturationVoltages h n b (o, s) in
  sameSetup (set_satVoltageHighGain_ (satVoltageHighGain_ (fst d))
                  (set_satVoltageNoGain_ (satVoltageNoGain_ (fst d)) o))
       (fst d)
  /\ gain_ (fst d) = gain_ o /\ adcRef_ (fst d) = adcRef_ o
  /\ data_ (fst d) = data_ o
  /\ timerOn (snd d) = timerOn s /\ INTEG_TICKS (snd d) = INTEG_TICKS s
  /\ measuringData_ (snd d) = measuringData_ s
  /\ pins (snd d) = pins s.
Proof.
  unfold setSaturationVoltages, sameSetup.
  destruct (Qltb 0 h);
    destruct (Qltb 0 n);
    destruct (Qleb MIN_SAT_VOLTAGE_HIGH_GAIN h) eqn:Hh1;
    destruct (Qleb h MAX_SAT_VOLTAGE_HIGH_GAIN) eqn:Hh2;
    destruct (Qleb MIN_SAT_VOLTAGE_NO_GAIN n) eqn:Hn1;
    destruct (Qleb n MAX_SAT_VOLTAGE_NO_GAIN) eqn:Hn2;
    destruct b; sred;
    repeat match goal with
           | H : Qleb _ _ = true |- _ => apply Qleb_true in H
           | H : Qleb _ _ = false |- _ => clear H
           end;
    repeat split; try reflexivity; try tauto;
    unfold MIN_SAT_VOLTAGE_HIGH_GAIN, MAX_SAT_VOLTAGE_HIGH_GAIN,
      MIN_SAT_VOLTAGE_NO_GAIN, MAX_SAT_VOLTAGE_NO_GAIN in *;
    try Lqa.lra.
Qed.

Lemma saturatedReading_spec fuel o s :
  Z.of_nat SPEC_PIXELS <= 65535 -> timerOn s = false ->
  (Z.to_nat (2 ^ 34) <= fuel)%nat ->
  exists m mx s',
    saturatedReading fuel (o, s) = Some ((set_data_ m o, s'), mx)
    /\ timerOn s' = false /\ measuringData_ s' = measuringData_ s
    /\ INTEG_TICKS s' = INTEG_TICKS s /\ eeprom s' = eeprom s
    /\ forall n,
         adc_cnv_ o <> Some n -> adcPinCNV s <> Some n ->
         specPinCLK s <> Some n -> specPinST s <> Some n ->
         extPinTRG s <> Some n -> extPinLIGHT s <> Some n ->
         pins s' n = pins s n.
Proof.
  intros HN Hoff Hfuel. unfold saturatedReading.
  destruct (readSpectrometer_lines fuel o 1000000 false false s HN Hoff
              ltac:(left; lia) Hfuel)
    as (s' & E & H1 & _ & H2 & H3 & H4 & _ & _ & _ & _ & _ & _ & H5).
  rewrite E. cbn.
  destruct (processMeasurement o s' MEASURE_VOLTAGE (data_ o)) as [m mx].
  exists m, mx, s'. repeat split; assumption.
Qed.

(** X14. [measureSaturationVoltages] on a stopped timer, with the gain line
    assigned, returns with the gain, the ADC reference, the measurement
    type and the black levels as they were before the call, the gain line
    driven to the restored gain, [measuringData_] cleared, the timer off
    and the integration ticks unchanged. *)
Theorem measureSaturationVoltages_restores (b : bool) (fuel : nat)
    (o : C12666MA) (s : Statics) :
  Z.of_nat SPEC_PIXELS <= 65535 -> timerOn s = false ->
  is_pin (spec_gain_ o) = true ->
  (Z.to_nat (2 ^ 34) <= fuel)%nat ->
  exists o' s',
    measureSaturationVoltages b fuel (o, s) = Some (o', s')
    /\ gain_ o' = gain_ o /\ adcRef_ o' = adcRef_ o
    /\ measurementType_ o' = measurementType_ o
    /\ blackLevels_ o' = blackLevels_ o
    /\ timerOn s' = false /\ measuringData_ s' = false
    /\ INTEG_TICKS s' = INTEG_TICKS s
    /\ pinLevel (spec_gain_ o) (pins s')
       = match gain_ o with HIGH_GAIN => true | NO_GAIN => false end.
Proof.
  intros HN Hoff Hpin Hfuel. unfold measureSaturationVoltages.
  cbv zeta.
  set (s0 := set_measuringData_ true s).
  assert (timerOn s0 = false /\ INTEG_TICKS s0 = INTEG_TICKS s)
    as (Hoff0 & Hg0) by (subst s0; sred; auto).
  clearbody s0.
  destruct (setAdcRefInternal_spec ADC_4_096V o s0)
    as (A1 & _ & _ & _ & A5 & A6 & _).
  destruct (setAdcRefInternal ADC_4_096V (o, s0)) as [o1 s1].
  cbn [fst snd] in *.
  destruct (setGainInternal_spec HIGH_GAIN o1 s1)
    as (B1 & _ & _ & _ & B5 & B6 & _).
  destruct (setGainInternal HIGH_GAIN (o1, s1)) as [o2 s2].
  cbn [fst snd] in *.
  destruct (saturatedReading_spec fuel o2 s2 HN ltac:(congruence) Hfuel)
    as (m1 & mx1 & s3 & E1 & C1 & _ & C3 & _).
  rewrite E1. cbn [mbind option_bind fst snd].
  set (hg := getAveragedMax mx1 _). clearbody hg.
  set (o3 := set_data_ m1 o2) in *.
  assert (sameSetup o2 o3) as D1
    by (subst o3; unfold sameSetup; sred; repeat split; reflexivity).
  clearbody o3.
  destruct (setGainInternal_spec NO_GAIN o3 s3)
    as (F1 & _ & _ & _ & F5 & F6 & _).
  destruct (setGainInternal NO_GAIN (o3, s3)) as [o4 s4].
  cbn [fst snd] in *.
  destruct (saturatedReading_spec fuel o4 s4 HN ltac:(congruence) Hfuel)
    as (m2 & mx2 & s5 & E2 & G1 & _ & G3 & _).
  rewrite E2. cbn [mbind option_bind fst snd]. clear E1 E2 Hfuel.
  set (ng := getAveragedMax mx2 _). clearbody ng.
  set (o5 := set_data_ m2 o4) in *.
  assert (sameSetup o4 o5) as D2
    by (subst o5; unfold sameSetup; sred; repeat split; reflexivity).
  clearbody o5.
  destruct (setAdcRefInternal_spec (adcRef_ o) o5 s5)
    as (I1 & I2 & _ & _ & I5 & I6 & _).
  destruct (setAdcRefInternal (adcRef_ o) (o5, s5)) as [o6 s6].
  cbn [fst snd] in *.
  destruct (setGainInternal_spec (gain_ o) o6 s6)
    as (J1 & J2 & J3 & _ & J5 & J6 & _ & _ & J9).
  destruct (setGainInternal (gain_ o) (o6, s6)) as [o7 s7].
  cbn [fst snd] in *.
  set (s8 := set_measuringData_ false s7).
  assert (timerOn s8 = timerOn s7 /\ INTEG_TICKS s8 = INTEG_TICKS s7
          /\ measuringData_ s8 = false /\ pins s8 = pins s7)
    as (K1 & K2 & K3 & K4) by (subst s8; sred; auto).
  clearbody s8.
  destruct (setSaturationVoltages_range hg ng b o7 s8)
    as (L2 & L3 & L4 & _ & L6 & L7 & L8 & L9).
  destruct (setSaturationVoltages hg ng b (o7, s8)) as [o8 s9].
  cbn [fst snd] in *.
  assert (sameSetup o o7) as Hsame.
  { repeat (eapply sameSetup_trans; [|eassumption]). apply sameSetup_refl. }
  exists o8, s9. split; [reflexivity|].
  pose proof Hsame as (S1&_&_&_&_&_&S7&_&S9&S10&S11).
  destruct L2 as (_&_&_&_&_&_&M7&_&_&_&M11).
  cbn [measurementType_ blackLevels_ set_satVoltageHighGain_
       set_satVoltageNoGain_] in M7, M11.
  assert (pinLevel (spec_gain_ o) (pins s9)
          = match gain_ o with HIGH_GAIN => true | NO_GAIN => false end)
    as Hp.
  { rewrite L9, K4.
    assert (spec_gain_ o6 = spec_gain_ o) as Eg.
    { destruct I1 as (-> & _), D2 as (-> & _), F1 as (-> & _),
        D1 as (-> & _), B1 as (-> & _), A1 as (-> & _). reflexivity. }
    rewrite <- Eg. apply J9. now rewrite Eg. }
  split; [congruence|]. split; [congruence|]. split; [congruence|].
  split; [congruence|]. split; [congruence|].
  split; [congruence|]. split; [congruence|exact Hp].
Qed.

(** *** A measurement against its own black frame *)

(** An acquisition keeps the waveform table. *)
Lemma readSpectrometer_table fuel o timeUs ext light s s' :
  readSpectrometer fuel o timeUs ext light s = Some s' ->
  specRead s' = specRead s.
Proof.
  unfold readSpectrometer.
  destruct (timerOn s); [intros E; injection E as <-; reflexivity|].
  cbv zeta.
  match goal with
  | |- context [waitForStop fuel (startSpecTimer ?d ?b ?s0)] =>
      set (pre := s0)
  end.
  assert (specRead pre = specRead s) as Hpre.
  { subst pre. unfold startADC, for_range.
    match goal with
    | |- context [for_loop ?n ?i ?stop ?st ?f ?a] =>
        assert (specRead (for_loop n i stop st f a) = specRead s) as Hl
    end.
    { apply (for_loop_invariant (fun a => specRead a = specRead s)).
      - intros i a Ha. sred. exact Ha.
      - sred. destruct (0 <? timeUs); [apply setIntTime_buffers|reflexivity]. }
    destruct ext, light; sred; exact Hl. }
  clearbody pre.
  destruct (startSpecTimer_lines (extTrgMeasDelayUs_ o) ext pre)
    as ((_&_&_&_&_& W6 &_) & _).
  destruct (waitForStop fuel _) as [s1|] eqn:Hw; [|discriminate].
  destruct (waitForStop_lines _ _ _ Hw) as ((_&_&_&_&_& V6 &_) & _).
  destruct (stopSpecTimer_lines s1) as ((_&_&_&_&_& U6 &_) & _).
  intros E. injection E as <-. unfold endADC.
  destruct (0 <? timeUs); sred; congruence.
Qed.

(** The reading of a pixel whose burst has been acquired. *)
Lemma pixelReading_acquired o s mt i sum :
  data s !! i = Some sum ->
  dataCounts s !! i = Some (Z.of_nat adcBurst) ->
  pixelReading o s mt i
  = convertReading mt (adcVoltages (adcRef_ o)) (satVoltageOf o) sum
      (Z.of_nat adcBurst).
Proof.
  intros Ed Ec. unfold pixelReading.
  rewrite (nth_lookup_Some _ _ 0 _ Ed), (nth_lookup_Some _ _ 0 _ Ec).
  pose proof adcBurst_pos.
  destruct (Z.eqb_spec (Z.of_nat adcBurst) 0); [lia|reflexivity].
Qed.

(** Readings equal to their black levels give zero. *)
Lemma getMeasurement_cancels o p :
  (2 <= SPEC_PIXELS)%nat -> (p < SPEC_PIXELS)%nat ->
  (forall i, (i < SPEC_PIXELS)%nat ->
             exists v, data_ o !! i = Some v /\ blackLevels_ o !! i = Some v) ->
  exists r, getMeasurement o p true = Some r /\ (r == 0)%Q.
Proof.
  intros HN Hp Hx.
  assert (forall v, Qltb v v = false) as Hvv
    by (intros v; apply Qltb_false; apply Qle_refl).
  unfold getMeasurement, getData.
  destruct (pixel_cases p Hp HN)
    as [(E1 & H1)|[(E1 & E2 & H1)|(E1 & E2 & H1 & H2)]];
    rewrite E1, ?E2;
    destruct (Hx p Hp) as (v0 & -> & ->);
    try (destruct (Hx _ H1) as (v1 & -> & ->));
    try (destruct (Hx _ H2) as (v2 & -> & ->));
    destruct (applyBandPassCorrection_ o); cbn; rewrite ?Hvv;
    eexists; (split; [reflexivity|ring]).
Qed.

(** Under a steady signal a measurement taken after a black measurement
    cancels, when the handler runs between two ticks. *)
Lemma black_frame_sequential fuel t1 t2 ext c o s :
  (2 <= SPEC_PIXELS)%nat -> Z.of_nat SPEC_PIXELS <= 65535 ->
  timerOn s = false -> measuringData_ s = false ->
  0 < INTEG_TICKS s < 2 ^ 32 ->
  specRead s = initSpecTimerData specRead0 ->
  length (data s) = SPEC_PIXELS -> length (dataCounts s) = SPEC_PIXELS ->
  length (data_ o) = SPEC_PIXELS -> length (blackLevels_ o) = SPEC_PIXELS ->
  (forall r, adcInput s r = c) ->
  (Z.to_nat (2 ^ 34) <= fuel)%nat ->
  exists d1 o2 s2,
    takeBlackMeasurement fuel t1 (o, s) = Some d1
    /\ takeMeasurement fuel t2 ext d1 = Some (o2, s2)
    /\ (forall i, (i < SPEC_PIXELS)%nat ->
          data_ o2 !! i
          = Some (convertReading (measurementType_ o)
                    (adcVoltages (adcRef_ o)) (satVoltageOf o)
                    (Z.of_nat adcBurst * u16 c) (Z.of_nat adcBurst))
          /\ blackLevels_ o2 !! i = data_ o2 !! i)
    /\ forall p, (p < SPEC_PIXELS)%nat ->
         exists r, getMeasurement o2 p true = Some r /\ (r == 0)%Q.
Proof.
  intros HN2 HN Hoff Hm Hint Htab Hld Hlc Hlo Hlb Hc Hfuel.
  assert (forall r, codeSum (adcInput s) r adcBurst
                    = Z.of_nat adcBurst * u16 c) as Hsum.
  { intros r. clear -Hc. generalize adcBurst. intros n. revert r.
    induction n as [|n IH]; intros r; [cbn; lia|].
    cbn [codeSum]. rewrite (Hc r), IH. lia. }
  unfold takeBlackMeasurement. rewrite Hoff, Hm. cbn [orb].
  set (sa := set_measuringData_ true s).
  assert (timerOn sa = false /\ INTEG_TICKS sa = INTEG_TICKS s
          /\ specRead sa = specRead s /\ data sa = data s
          /\ dataCounts sa = dataCounts s /\ adcInput sa = adcInput s)
    as (A1 & A2 & A3 & A4 & A5 & A6) by (subst sa; sred; repeat split; try reflexivity; assumption).
  destruct (readSpectrometer_acquires fuel o t1 false false sa HN A1
              ltac:(right; lia) ltac:(congruence) ltac:(congruence)
              ltac:(congruence) Hfuel)
    as (s1 & E1 & _ & I1 & L1 & L2 & Hpx1).
  destruct (readSpectrometer_lines fuel o t1 false false sa HN A1
              ltac:(right; lia) Hfuel)
    as (s1' & E1' & B1 & _ & _ & B4 & _).
  rewrite E1 in E1'. injection E1' as <-.
  pose proof (readSpectrometer_table _ _ _ _ _ _ _ E1) as T1.
  rewrite E1. clear E1.
  destruct (processMeasurement_readings o s1 (measurementType_ o)
              (blackLevels_ o) Hlb) as (Lk & Hk).
  set (k := fst (processMeasurement o s1 (measurementType_ o)
                   (blackLevels_ o))) in *.
  clearbody k.
  set (o1 := set_blackLevels_ k o).
  assert (measurementType_ o1 = measurementType_ o
          /\ adcRef_ o1 = adcRef_ o /\ satVoltageOf o1 = satVoltageOf o
          /\ data_ o1 = data_ o /\ blackLevels_ o1 = k)
    as (O1 & O2 & O3 & O4 & O5)
    by (subst o1; unfold satVoltageOf; sred; repeat split; reflexivity).
  set (sb := set_measuringData_ false s1).
  assert (timerOn sb = false /\ measuringData_ sb = false
          /\ INTEG_TICKS sb = INTEG_TICKS s1
          /\ specRead sb = specRead s1 /\ data sb = data s1
          /\ dataCounts sb = dataCounts s1 /\ adcInput sb = adcInput s1)
    as (C1 & C2 & C3 & C4 & C5 & C6 & C7) by (subst sb; sred; repeat split; try reflexivity; assumption).
  exists (o1, sb). unfold takeMeasurement. rewrite C1, C2. cbn [orb].
  set (sc := set_measuringData_ true sb).
  assert (timerOn sc = false /\ INTEG_TICKS sc = INTEG_TICKS sb
          /\ specRead sc = specRead sb /\ data sc = data sb
          /\ dataCounts sc = dataCounts sb /\ adcInput sc = adcInput sb)
    as (D1 & D2 & D3 & D4 & D5 & D6) by (subst sc; sred; repeat split; try reflexivity; assumption).
  destruct (readSpectrometer_acquires fuel o1 t2 ext ext sc HN D1
              ltac:(right; lia) ltac:(congruence) ltac:(congruence)
              ltac:(congruence) Hfuel)
    as (s2 & E2 & _ & I2 & _ & _ & Hpx2).
  rewrite E2. clear E2 Hfuel.
  destruct (processMeasurement_readings o1 s2 (measurementType_ o1)
              (data_ o1) ltac:(rewrite O4; exact Hlo)) as (Lm & Hv).
  set (m := fst (processMeasurement o1 s2 (measurementType_ o1)
                   (data_ o1))) in *.
  clearbody m.
  eexists _, _. split; [reflexivity|]. split; [reflexivity|].
  assert (forall i, (i < SPEC_PIXELS)%nat ->
            data_ (set_data_ m o1) !! i
            = Some (convertReading (measurementType_ o)
                      (adcVoltages (adcRef_ o)) (satVoltageOf o)
                      (Z.of_nat adcBurst * u16 c) (Z.of_nat adcBurst))
            /\ blackLevels_ (set_data_ m o1) !! i
               = data_ (set_data_ m o1) !! i) as Hpix.
  { intros i Hi. sred. fold o1. rewrite O5.
    rewrite (Hv i Hi), (Hk i Hi).
    destruct (Hpx1 i Hi) as (Ed1 & Ec1).
    destruct (Hpx2 i Hi) as (Ed2 & Ec2).
    rewrite (pixelReading_acquired _ _ _ _ _ Ed1 Ec1).
    rewrite (pixelReading_acquired _ _ _ _ _ Ed2 Ec2).
    rewrite O1, O2, O3.
    assert (adcInput sc = adcInput s) as Hin by congruence.
    rewrite Hin, A6, !Hsum. split; reflexivity. }
  split; [exact Hpix|].
  intros p Hp. apply getMeasurement_cancels; [exact HN2|exact Hp|].
  intros i Hi. destruct (Hpix i Hi) as (Ea & Eb).
  eexists. split; [exact Ea|]. now rewrite Eb.
Qed.

End ConfigTheory.

(** *** The same on the C12666MA *)

Lemma setIntTime_clamps_witness :
  setIntTime (build := c12666ma) 500 false
    (idleStatics (build := c12666ma) (fun _ => 0))
  = setIntTime (build := c12666ma) (clampIntTime (build := c12666ma) 500)
      false (idleStatics (build := c12666ma) (fun _ => 0))
  /\ (timerOn (idleStatics (build := c12666ma) (fun _ => 0)) = false ->
      Z.even
        (INTEG_TICKS
           (setIntTime (build := c12666ma) 500 false
              (idleStatics (build := c12666ma) (fun _ => 0)))) = true
      /\ uSecToTicks (build := c12666ma) MIN_INTEG_TIME_US
         < INTEG_TICKS
             (setIntTime (build := c12666ma) 500 false
                (idleStatics (build := c12666ma) (fun _ => 0)))
         <= uSecToTicks (build := c12666ma) MAX_INTEG_TIME_US).
Proof.
  apply (setIntTime_clamps (build := c12666ma) 500 false
           (idleStatics (build := c12666ma) (fun _ => 0)));
    [simpl; lia | lia | vm_compute; reflexivity].
Defined.

Lemma setExtTrgMeasDelay_settles_witness :
  setExtTrgMeasDelay (build := c12666ma) 20003 true
    (sampleDriver (build := c12666ma),
     idleStatics (build := c12666ma) (fun _ => 0))
  = Some
      (set_extTrgMeasDelayUs_
         (if 20003 <? 0 then 0
          else ticksToUsec (build := c12666ma)
                 (settledDelayTicks (build := c12666ma) 20003))
         (sampleDriver (build := c12666ma)),
       if true
       then set_eeprom
              (EEPROM_put EEPROM_TRG_MEAS_DELAY
                 (EWord
                    (if 20003 <? 0 then 0
                     else ticksToUsec (build := c12666ma)
                            (settledDelayTicks (build := c12666ma) 20003)))
                 (eeprom (idleStatics (build := c12666ma) (fun _ => 0))))
              (idleStatics (build := c12666ma) (fun _ => 0))
       else idleStatics (build := c12666ma) (fun _ => 0))
  /\ delayTimeTicks (build := c12666ma)
       (if 20003 <? 0 then 0
        else ticksToUsec (build := c12666ma)
               (settledDelayTicks (build := c12666ma) 20003))
     = (if 20003 <? 0 then 0
        else settledDelayTicks (build := c12666ma) 20003).
Proof.
  apply (setExtTrgMeasDelay_settles (build := c12666ma) 20003 true
           (sampleDriver (build := c12666ma))
           (idleStatics (build := c12666ma) (fun _ => 0)));
    [reflexivity | vm_compute; split; [discriminate | reflexivity]].
Defined.

Lemma getMeasurement_stays_in_bounds_witness :
  ((0 < SPEC_PIXELS (Build := c12666ma))%nat ->
   is_Some (getMeasurement (build := c12666ma)
              (sampleDriver (build := c12666ma)) 0 true)
   /\ is_Some (getBlackMeasurement (build := c12666ma)
                 (sampleDriver (build := c12666ma)) 0))
  /\ ((SPEC_PIXELS (Build := c12666ma) <= 0)%nat ->
      getMeasurement (build := c12666ma)
        (sampleDriver (build := c12666ma)) 0 true = None
      /\ getBlackMeasurement (build := c12666ma)
           (sampleDriver (build := c12666ma)) 0 = None).
Proof.
  apply (getMeasurement_stays_in_bounds (build := c12666ma)
           (sampleDriver (build := c12666ma)) 0 true);
    [simpl; lia | apply length_replicate | apply length_replicate].
Defined.

Lemma setMeasurementType_resets_blacks_witness :
  (timerOn (idleStatics (build := c12666ma) (fun _ => 0))
   || measuringData_ (idleStatics (build := c12666ma) (fun _ => 0)) = true ->
   fst (setMeasurementType (build := c12666ma) (fun _ => 0) MEASURE_VOLTAGE
          true
          (sampleDriver (build := c12666ma),
           idleStatics (build := c12666ma) (fun _ => 0)))
   = sampleDriver (build := c12666ma)
   /\ snd (setMeasurementType (build := c12666ma) (fun _ => 0)
             MEASURE_VOLTAGE true
             (sampleDriver (build := c12666ma),
              idleStatics (build := c12666ma) (fun _ => 0)))
      = idleStatics (build := c12666ma) (fun _ => 0))
  /\ (timerOn (idleStatics (build := c12666ma) (fun _ => 0))
      || measuringData_ (idleStatics (build := c12666ma) (fun _ => 0))
      = false ->
      measurementType_
        (fst (setMeasurementType (build := c12666ma) (fun _ => 0)
                MEASURE_VOLTAGE true
                (sampleDriver (build := c12666ma),
                 idleStatics (build := c12666ma) (fun _ => 0))))
      = MEASURE_VOLTAGE
      /\ data_
           (fst (setMeasurementType (build := c12666ma) (fun _ => 0)
                   MEASURE_VOLTAGE true
                   (sampleDriver (build := c12666ma),
                    idleStatics (build := c12666ma) (fun _ => 0))))
         = data_ (sampleDriver (build := c12666ma))
      /\ (measurementType_ (sampleDriver (build := c12666ma))
          = MEASURE_VOLTAGE ->
          blackLevels_
            (fst (setMeasurementType (build := c12666ma) (fun _ => 0)
                    MEASURE_VOLTAGE true
                    (sampleDriver (build := c12666ma),
                     idleStatics (build := c12666ma) (fun _ => 0))))
          = blackLevels_ (sampleDriver (build := c12666ma)))
      /\ (measurementType_ (sampleDriver (build := c12666ma))
          <> MEASURE_VOLTAGE ->
          forall i, (i < 256)%nat ->
            blackLevels_
              (fst (setMeasurementType (build := c12666ma) (fun _ => 0)
                      MEASURE_VOLTAGE true
                      (sampleDriver (build := c12666ma),
                       idleStatics (build := c12666ma) (fun _ => 0))))
            !! i = Some 0%Q)
      /\ (true = true ->
          eeprom
            (snd (setMeasurementType (build := c12666ma) (fun _ => 0)
                    MEASURE_VOLTAGE true
                    (sampleDriver (build := c12666ma),
                     idleStatics (build := c12666ma) (fun _ => 0))))
            EEPROM_MEASURE_TYPE_ADDR
          = Some (EWord 0))
      /\ (true = false ->
          snd (setMeasurementType (build := c12666ma) (fun _ => 0)
                 MEASURE_VOLTAGE true
                 (sampleDriver (build := c12666ma),
                  idleStatics (build := c12666ma) (fun _ => 0)))
          = idleStatics (build := c12666ma) (fun _ => 0))).
Proof.
  apply (setMeasurementType_resets_blacks (build := c12666ma) (fun _ => 0)
           MEASURE_VOLTAGE true (sampleDriver (build := c12666ma))
           (idleStatics (build := c12666ma) (fun _ => 0))).
  apply length_replicate.
Defined.

Lemma measureSaturationVoltages_restores_witness :
  exists o' s',
    measureSaturationVoltages (build := c12666ma) false (Z.to_nat (2 ^ 34))
      (sampleDriver (build := c12666ma),
       idleStatics (build := c12666ma) (fun _ => 1000%Z)) = Some (o', s')
    /\ gain_ o' = gain_ (sampleDriver (build := c12666ma))
    /\ adcRef_ o' = adcRef_ (sampleDriver (build := c12666ma))
    /\ measurementType_ o'
       = measurementType_ (sampleDriver (build := c12666ma))
    /\ blackLevels_ o' = blackLevels_ (sampleDriver (build := c12666ma))
    /\ timerOn s' = false /\ measuringData_ s' = false
    /\ INTEG_TICKS s'
       = INTEG_TICKS (idleStatics (build := c12666ma) (fun _ => 1000%Z))
    /\ pinLevel (spec_gain_ (sampleDriver (build := c12666ma))) (pins s')
       = match gain_ (sampleDriver (build := c12666ma)) with
         | HIGH_GAIN => true
         | NO_GAIN => false
         end.
Proof.
  apply (measureSaturationVoltages_restores (build := c12666ma) false
           (Z.to_nat (2 ^ 34)) (sampleDriver (build := c12666ma))
           (idleStatics (build := c12666ma) (fun _ => 1000%Z)));
    [simpl; lia | reflexivity | reflexivity | apply le_n].
Defined.

(** ** The TRG handler under preemption *)

Section PreemptionTheory.

Context {build : Build}.

Lemma trgStep_idle s :
  trgPending s = false -> trgStep (s, TRG_IDLE) = (s, TRG_IDLE).
Proof. intros H. unfold trgStep, trgEnter. now rewrite H. Qed.

Lemma trgSteps_idle k s :
  trgPending s = false -> Nat.iter k trgStep (s, TRG_IDLE) = (s, TRG_IDLE).
Proof.
  intros H. induction k as [|k IH]; [reflexivity|].
  change (Nat.iter (S k) trgStep (s, TRG_IDLE))
    with (trgStep (Nat.iter k trgStep (s, TRG_IDLE))).
  rewrite IH. now apply trgStep_idle.
Qed.

Lemma adcConvert_flags s :
  specDataReady (snd (adcConvert s)) = specDataReady s
  /\ trgPending (snd (adcConvert s)) = trgPending s.
Proof. unfold adcConvert. cbv zeta. sred. split; reflexivity. Qed.

Lemma readFirst_flags d c s :
  specDataReady (readFirst d c s) = specDataReady s
  /\ trgPending (readFirst d c s) = trgPending s.
Proof.
  destruct (readFirst_spec d c s) as (T & _ & _ & _ & _ & _ & P).
  destruct T as (_&_&_&_&_&_&_&_&_&_&_&_&_&_&_&E&_). split; assumption.
Qed.

Lemma readNext_flags d c s :
  specDataReady (readNext d c s) = specDataReady s
  /\ trgPending (readNext d c s) = trgPending s.
Proof.
  destruct (readNext_spec d c s) as (T & _ & _ & _ & _ & _ & P).
  destruct T as (_&_&_&_&_&_&_&_&_&_&_&_&_&_&_&E&_). split; assumption.
Qed.

(** A further read that is not cut takes two steps. *)
Lemma trgStep_read d c rest s :
  specDataReady s = true ->
  trgStep (trgStep (s, TRG_GUARD d c rest))
  = (readNext d c s,
     match rest with
     | O => TRG_IDLE
     | S rest' => TRG_GUARD d c rest'
     end).
Proof.
  intros H. destruct (adcConvert_flags s) as [Hr _].
  unfold trgStep at 2. rewrite H. cbn [negb].
  unfold readNext. destruct (adcConvert s) as [v s'].
  cbn [snd] in Hr. unfold trgStep. now rewrite Hr, H.
Qed.

Lemma spectroTRGInterrupt_served s :
  trgPending (spectroTRGInterrupt s) = false.
Proof.
  destruct (trgPending s) eqn:Ep;
    [|now rewrite spectroTRGInterrupt_idle].
  destruct (specDataReady s) eqn:Er, (specData s) as [d|] eqn:Ed,
    (specDataCounter s) as [c|] eqn:Ec;
    try (unfold spectroTRGInterrupt; rewrite Ep; cbv zeta; sred;
         rewrite ?Er, ?Ed, ?Ec; sred; reflexivity).
  rewrite (spectroTRGInterrupt_read s d c Ep Er Ed Ec).
  set (s0 := set_specDataCounter _ _).
  assert (specDataReady s0 = true /\ trgPending s0 = false) as [R0 P0]
    by (subst s0; sred; split; [exact Er|reflexivity]).
  clearbody s0. rewrite (readADC_ready d c s0 R0).
  destruct ADC_AVG_4;
    repeat match goal with
           | |- context [readNext d c ?x] =>
               rewrite (proj2 (readNext_flags d c x))
           end;
    rewrite (proj2 (readFirst_flags d c s0)); exact P0.
Qed.

(** A whole burst, step by step, is the handler run to its end. *)
Lemma trgSteps_whole s :
  Nat.iter (2 * adcBurst - 1) trgStep (s, TRG_IDLE)
  = (spectroTRGInterrupt s, TRG_IDLE).
Proof.
  destruct (trgPending s) eqn:Ep;
    [|now rewrite trgSteps_idle, spectroTRGInterrupt_idle].
  assert (forall k, Nat.iter (S k) trgStep (s, TRG_IDLE)
                    = Nat.iter k trgStep (trgEnter s)) as Hent
    by (intros k; now rewrite Nat.iter_succ_r).
  replace (2 * adcBurst - 1)%nat with (S (2 * adcBurst - 2))
    by (unfold adcBurst; destruct ADC_AVG_4; lia).
  rewrite Hent.
  destruct (specDataReady s) eqn:Er, (specData s) as [d|] eqn:Ed,
    (specDataCounter s) as [c|] eqn:Ec;
    try (unfold spectroTRGInterrupt, trgEnter; rewrite Ep; cbv zeta; sred;
         rewrite ?Er, ?Ed, ?Ec; sred;
         apply trgSteps_idle; sred; reflexivity).
  rewrite (spectroTRGInterrupt_read s d c Ep Er Ed Ec).
  assert (trgEnter s
          = (readFirst d c
               (set_specDataCounter (Some (S c))
                  (set_specData (Some (S d)) (set_trgPending false s))),
             TRG_GUARD d c (if ADC_AVG_4 then 2%nat else 0%nat))) as ->.
  { unfold trgEnter. rewrite Ep. cbv zeta. sred. rewrite Er, Ed, Ec.
    unfold readFirst. now destruct (adcConvert _). }
  set (s0 := set_specDataCounter _ _).
  assert (specDataReady s0 = true /\ trgPending s0 = false) as [R0 P0]
    by (subst s0; sred; split; [exact Er|reflexivity]).
  clearbody s0. rewrite (readADC_ready d c s0 R0).
  destruct (readFirst_flags d c s0) as [R1 P1]. rewrite R0 in R1.
  rewrite P0 in P1.
  set (s1 := readFirst d c s0) in *. clearbody s1.
  unfold adcBurst. destruct ADC_AVG_4.
  - change (2 * 4 - 2)%nat with 6%nat.
    change (Nat.iter 6 trgStep ?x)
      with (trgStep (trgStep (trgStep (trgStep (trgStep (trgStep x)))))).
    rewrite (trgStep_read d c 2 s1 R1).
    destruct (readNext_flags d c s1) as [R2 P2]. rewrite R1 in R2.
    rewrite (trgStep_read d c 1 _ R2).
    destruct (readNext_flags d c (readNext d c s1)) as [R3 P3].
    rewrite R2 in R3.
    rewrite (trgStep_read d c 0 _ R3). reflexivity.
  - change (2 * 2 - 2)%nat with 2%nat.
    change (Nat.iter 2 trgStep ?x) with (trgStep (trgStep x)).
    rewrite (trgStep_read d c 0 s1 R1). reflexivity.
Qed.

(** With more steps than a burst has the handler idles for the rest. *)
Lemma timerPeriodAt_uncut k s :
  (2 * adcBurst - 1 <= k)%nat ->
  timerPeriodAt k (s, TRG_IDLE) = (timerPeriod s, TRG_IDLE).
Proof.
  intros Hk. unfold timerPeriodAt, timerPeriod. cbn [fst snd].
  replace k with ((k - (2 * adcBurst - 1)) + (2 * adcBurst - 1))%nat by lia.
  rewrite Nat.iter_add, trgSteps_whole.
  apply trgSteps_idle, spectroTRGInterrupt_served.
Qed.

Lemma waitForStopAt_uncut fuel :
  forall sched s,
    uncut sched -> trgPending s = false ->
    waitForStopAt sched fuel (s, TRG_IDLE) = waitForStop fuel s.
Proof.
  induction fuel as [|fuel IH]; intros sched s Hu Hp;
    cbn [waitForStopAt waitForStop fst snd trg_idle]; rewrite Hp;
    cbn [negb]; rewrite !andb_true_r;
    destruct (spec_state_eqb (specState s) SPEC_STOP); try reflexivity.
  rewrite (timerPeriodAt_uncut _ _ (Hu 0%nat)).
  apply IH.
  - intros i. apply Hu.
  - apply spectroTRGInterrupt_served.
Qed.

(** With no burst cut the acquisition is the one in which the handler
    runs between two ticks. *)
Lemma readSpectrometerAt_uncut sched fuel o timeUs ext light s :
  uncut sched ->
  readSpectrometerAt sched fuel o timeUs ext light s
  = readSpectrometer fuel o timeUs ext light s.
Proof.
  intros Hu. unfold readSpectrometerAt, readSpectrometer.
  destruct (timerOn s) eqn:Hoff; [reflexivity|]. cbv zeta.
  match goal with
  | |- context [waitForStop fuel (startSpecTimer ?d ?b ?s0)] =>
      set (pre := s0)
  end.
  assert (timerOn pre = false) as Hpre.
  { subst pre. unfold startADC, for_range.
    match goal with
    | |- context [for_loop ?n ?i ?stop ?st ?f ?a] =>
        assert (timerOn (for_loop n i stop st f a) = false) as Hl
    end.
    { apply (for_loop_invariant (fun a => timerOn a = false)).
      - intros i a Ha. sred. exact Ha.
      - sred. destruct (0 <? timeUs); [|exact Hoff].
        now rewrite setIntTime_timerOn. }
    destruct ext, light; sred; exact Hl. }
  clearbody pre.
  rewrite waitForStopAt_uncut; [reflexivity|exact Hu|].
  now apply startSpecTimer_buffers.
Qed.

Lemma takeMeasurementAt_uncut sched fuel timeUs ext d :
  uncut sched ->
  takeMeasurementAt sched fuel timeUs ext d = takeMeasurement fuel timeUs ext d.
Proof.
  intros Hu. unfold takeMeasurementAt, takeMeasurement. destruct d as [o s].
  now rewrite readSpectrometerAt_uncut.
Qed.

Lemma takeBlackMeasurementAt_uncut sched fuel timeUs d :
  uncut sched ->
  takeBlackMeasurementAt sched fuel timeUs d
  = takeBlackMeasurement fuel timeUs d.
Proof.
  intros Hu. unfold takeBlackMeasurementAt, takeBlackMeasurement.
  destruct d as [o s]. now rewrite readSpectrometerAt_uncut.
Qed.

(** X2. An acquisition in which no burst is cut, every run of the TRG
    handler returning before the next tick, converts every pixel:
    [readSpectrometer] returns (given fuel for the cycle), uses [adcBurst]
    conversions per pixel in pixel order, and leaves in [data[i]] the sum
    of the codes of the burst of pixel [i] and in [dataCounts[i]] the
    number of its conversions. *)
Theorem readSpectrometer_samples sched fuel o timeUs ext light s :
  uncut sched ->
  Z.of_nat SPEC_PIXELS <= 65535 ->
  timerOn s = false ->
  0 < timeUs \/ 0 < INTEG_TICKS s < 2 ^ 32 ->
  specRead s = initSpecTimerData specRead0 ->
  length (data s) = SPEC_PIXELS -> length (dataCounts s) = SPEC_PIXELS ->
  (Z.to_nat (2 ^ 34) <= fuel)%nat ->
  exists s',
    readSpectrometerAt sched fuel o timeUs ext light s = Some s'
    /\ adcReads s' = (adcReads s + adcBurst * SPEC_PIXELS)%nat
    /\ forall i, (i < SPEC_PIXELS)%nat ->
         data s' !! i
         = Some (codeSum (adcInput s) (adcReads s + adcBurst * i) adcBurst)
         /\ dataCounts s' !! i = Some (Z.of_nat adcBurst).
Proof.
  intros Hu HN Hoff Hint Htab Hld Hlc Hfuel.
  rewrite (readSpectrometerAt_uncut _ _ _ _ _ _ _ Hu).
  destruct (readSpectrometer_acquires fuel o timeUs ext light s HN Hoff Hint
              Htab Hld Hlc Hfuel) as (s' & E & Hr & _ & _ & _ & Hpx).
  exists s'. auto.
Qed.

(** X3. A measurement in which no burst is cut stores the converted burst
    of every pixel: [takeMeasurement] on an idle device returns, clears
    [measuringData_], leaves the black levels alone and stores for pixel
    [i] the reading [processMeasurement] computes from the sum of the
    pixel's burst of ADC codes and the burst length; in relative mode
    every stored reading lies between 0 and 1. *)
Theorem takeMeasurement_readings sched fuel timeUs ext o s :
  uncut sched ->
  Z.of_nat SPEC_PIXELS <= 65535 ->
  timerOn s = false -> measuringData_ s = false ->
  0 < timeUs \/ 0 < INTEG_TICKS s < 2 ^ 32 ->
  specRead s = initSpecTimerData specRead0 ->
  length (data s) = SPEC_PIXELS -> length (dataCounts s) = SPEC_PIXELS ->
  length (data_ o) = SPEC_PIXELS ->
  (Z.to_nat (2 ^ 34) <= fuel)%nat ->
  exists o' s',
    takeMeasurementAt sched fuel timeUs ext (o, s) = Some (o', s')
    /\ measuringData_ s' = false
    /\ blackLevels_ o' = blackLevels_ o
    /\ (forall i, (i < SPEC_PIXELS)%nat ->
          data_ o' !! i
          = Some (convertReading (measurementType_ o)
                    (adcVoltages (adcRef_ o)) (satVoltageOf o)
                    (codeSum (adcInput s) (adcReads s + adcBurst * i)
                       adcBurst)
                    (Z.of_nat adcBurst)))
    /\ (measurementType_ o = MEASURE_RELATIVE ->
        forall i v, data_ o' !! i = Some v -> (0 <= v <= 1)%Q).
Proof.
  intros Hu. rewrite (takeMeasurementAt_uncut _ _ _ _ _ Hu).
  apply takeMeasurement_acquires.
Qed.

(** X18. Under a steady signal, every conversion delivering the same code,
    and with no burst cut in either acquisition, a measurement taken after
    a black measurement returns, holds at every pixel the reading of that
    code, the same as the black level, and reads zero at every pixel once
    blacks are subtracted, with the bandpass correction on or off. *)
Theorem black_frame_cancels sched1 sched2 fuel t1 t2 ext c o s :
  uncut sched1 -> uncut sched2 ->
  (2 <= SPEC_PIXELS)%nat -> Z.of_nat SPEC_PIXELS <= 65535 ->
  timerOn s = false -> measuringData_ s = false ->
  0 < INTEG_TICKS s < 2 ^ 32 ->
  specRead s = initSpecTimerData specRead0 ->
  length (data s) = SPEC_PIXELS -> length (dataCounts s) = SPEC_PIXELS ->
  length (data_ o) = SPEC_PIXELS -> length (blackLevels_ o) = SPEC_PIXELS ->
  (forall r, adcInput s r = c) ->
  (Z.to_nat (2 ^ 34) <= fuel)%nat ->
  exists d1 o2 s2,
    takeBlackMeasurementAt sched1 fuel t1 (o, s) = Some d1
    /\ takeMeasurementAt sched2 fuel t2 ext d1 = Some (o2, s2)
    /\ (forall i, (i < SPEC_PIXELS)%nat ->
          data_ o2 !! i
          = Some (convertReading (measurementType_ o)
                    (adcVoltages (adcRef_ o)) (satVoltageOf o)
                    (Z.of_nat adcBurst * u16 c) (Z.of_nat adcBurst))
          /\ blackLevels_ o2 !! i = data_ o2 !! i)
    /\ forall p, (p < SPEC_PIXELS)%nat ->
         exists r, getMeasurement o2 p true = Some r /\ (r == 0)%Q.
Proof.
  intros Hu1 Hu2. rewrite (takeBlackMeasurementAt_uncut _ _ _ _ Hu1).
  intros H1 H2 H3 H4 H5 H6 H7 H8 H9 H10 H11 H12.
  destruct (black_frame_sequential fuel t1 t2 ext c o s H1 H2 H3 H4 H5 H6 H7 H8
              H9 H10 H11 H12) as (d1 & o2 & s2 & E1 & E2 & R).
  exists d1, o2, s2. split; [exact E1|].
  rewrite (takeMeasurementAt_uncut _ _ _ _ _ Hu2). split; assumption.
Qed.

(** *** The timing under any schedule *)

Lemma pinWrite_congr p v g1 g2 n :
  g1 n = g2 n -> pinWrite p v g1 n = pinWrite p v g2 n.
Proof.
  intros H. destruct p as [m|]; [|exact H]. simpl.
  now destruct (Nat.eqb n m).
Qed.

Lemma pinSetVal_congr p x g1 g2 n :
  g1 n = g2 n -> pinSetVal p x g1 n = pinSetVal p x g2 n.
Proof.
  intros H. unfold pinSetVal, pinSetFast, pinResetFast.
  destruct (x =? 0); now apply pinWrite_congr.
Qed.

Lemma sameTiming_sym s s' : sameTiming s s' -> sameTiming s' s.
Proof.
  unfold sameTiming.
  intros (A1&A2&A3&A4&A5&A6&A7&A8&A9&A10&A11&A12&A13&A14&A15&A16&A17&A18&A19).
  repeat split; try congruence.
  intros n Hn. symmetry. apply A19. congruence.
Qed.

Ltac timing_fields H :=
  let T := fresh "T" in
  unfold sameTiming in H;
  destruct H as (?T&?T&?T&?T&?T&?T&?T&?T&?T&?T&?T&?T&?T&?T&?T&?T&?T&?T&T).

Ltac timing_rewrite :=
  repeat match goal with
         | E : _ = _ |- _ => progress (rewrite E)
         end.

Ltac timing_pins :=
  let n := fresh "n" in
  let Hn := fresh "Hn" in
  intros n Hn; unfold pinSetFast, pinResetFast;
  repeat first [apply pinWrite_congr | apply pinSetVal_congr];
  auto.

Ltac timing_done :=
  repeat split; try assumption; try reflexivity; try congruence;
  try timing_pins.

Lemma driveClock_timing a b :
  sameTiming a b -> sameTiming (driveClock a) (driveClock b).
Proof.
  intros H. timing_fields H. unfold sameTiming, driveClock. cbv zeta. sred.
  timing_rewrite. timing_done.
Qed.

Lemma processTrigger_timing a b :
  sameTiming a b -> sameTiming (processTrigger a) (processTrigger b).
Proof.
  intros H. timing_fields H. unfold sameTiming, processTrigger. cbv zeta.
  sred. timing_rewrite.
  destruct (extTRGCounter a =? 0); sred; [timing_done|].
  repeat split_if; sred; timing_rewrite; timing_done.
Qed.

Lemma clockStateMachine_timing a b :
  sameTiming a b -> sameTiming (clockStateMachine a) (clockStateMachine b).
Proof.
  intros H. timing_fields H. unfold sameTiming, clockStateMachine, tableAt.
  cbv zeta. timing_rewrite.
  destruct (specState a) eqn:Es; sred; timing_rewrite;
    repeat (split_if; sred; timing_rewrite); rewrite ?Es; timing_done.
  all: exfalso;
    repeat match goal with H : (_ =? _) = _ |- _ => revert H end;
    sred; timing_rewrite; congruence.
Qed.

Lemma spectroClockInterrupt_timing a b :
  sameTiming a b ->
  sameTiming (spectroClockInterrupt a) (spectroClockInterrupt b).
Proof.
  intros H. unfold spectroClockInterrupt.
  assert (timerOn b = timerOn a) as -> by (timing_fields H; assumption).
  destruct (timerOn a); cbn [negb]; [|exact H]. cbv zeta.
  now apply processTrigger_timing, clockStateMachine_timing,
    driveClock_timing.
Qed.

Lemma adcConvert_timing s : sameTiming s (snd (adcConvert s)).
Proof.
  unfold sameTiming, adcConvert. cbv zeta. sred.
  repeat split; try reflexivity.
  intros n Hn. unfold pinSetFast, pinResetFast, pinWrite.
  destruct (adcPinCNV s) as [m|]; [|reflexivity].
  destruct (Nat.eqb_spec n m) as [->|]; [congruence|reflexivity].
Qed.

Lemma storeFirst_timing d c v s : sameTiming s (storeFirst d c v s).
Proof. unfold sameTiming, storeFirst. cbv zeta. sred. repeat split. Qed.

Lemma storeNext_timing d c v s : sameTiming s (storeNext d c v s).
Proof. unfold sameTiming, storeNext. cbv zeta. sred. repeat split. Qed.

Lemma trgEnter_timing s : sameTiming s (fst (trgEnter s)).
Proof.
  unfold trgEnter.
  destruct (trgPending s); [|apply sameTiming_refl]. cbv zeta.
  assert (sameTiming s (set_trgPending false s)) as H0
    by (unfold sameTiming; sred; repeat split; reflexivity).
  destruct (specDataReady (set_trgPending false s)); [|exact H0].
  destruct (specData (set_trgPending false s)) as [d|]; [|exact H0].
  destruct (specDataCounter (set_trgPending false s)) as [c|]; [|exact H0].
  match goal with
  | |- context [adcConvert ?x] =>
      pose proof (adcConvert_timing x) as H1;
      assert (sameTiming s x) as H2
        by (unfold sameTiming; sred; repeat split; reflexivity);
      destruct (adcConvert x) as [v s1]
  end.
  cbn [fst snd] in *.
  eapply sameTiming_trans; [exact H2|].
  eapply sameTiming_trans; [exact H1|]. apply storeFirst_timing.
Qed.

(** A step of the handler leaves the timer and its lines alone. *)
Lemma trgStep_timing m : sameTiming (fst m) (fst (trgStep m)).
Proof.
  destruct m as [s h]. unfold trgStep. cbn [fst].
  destruct h as [|d c rest|d c v rest].
  - apply trgEnter_timing.
  - destruct (specDataReady s); cbn [negb fst]; [|apply sameTiming_refl].
    pose proof (adcConvert_timing s) as H.
    destruct (adcConvert s) as [v s1]. exact H.
  - cbn [fst]. destruct (specDataReady s);
      [apply storeNext_timing|apply sameTiming_refl].
Qed.

Lemma trgSteps_timing k m : sameTiming (fst m) (fst (Nat.iter k trgStep m)).
Proof.
  induction k as [|k IH]; [apply sameTiming_refl|].
  change (Nat.iter (S k) trgStep m) with (trgStep (Nat.iter k trgStep m)).
  eapply sameTiming_trans; [exact IH|apply trgStep_timing].
Qed.

Lemma timerPeriodAt_timing k s m :
  sameTiming s (fst m) ->
  sameTiming (timerPeriod s) (fst (timerPeriodAt k m)).
Proof.
  intros H. unfold timerPeriod, timerPeriodAt.
  eapply sameTiming_trans;
    [apply sameTiming_sym, spectroTRGInterrupt_timing|].
  eapply sameTiming_trans; [apply spectroClockInterrupt_timing, H|].
  apply (trgSteps_timing k (spectroClockInterrupt (fst m), snd m)).
Qed.

(** X19. Preemption does not reach the timing: whatever the ticks leave the
    TRG handler of its steps, bursts cut short or not, and wherever the
    handler stands at the start, after [n] timer periods the state machine,
    its counters, the tick counts, the ready flag, the clock and start
    levels and every line but CNV are those of [n] periods in which the
    handler runs between two ticks. *)
Theorem preemption_keeps_timing (sched : nat -> nat) (n : nat)
    (s : Statics) (h : trg_handler) :
  sameTiming (runPeriods n s) (fst (runPeriodsAt sched n (s, h))).
Proof.
  assert (forall n sched s m,
             sameTiming s (fst m) ->
             sameTiming (runPeriods n s) (fst (runPeriodsAt sched n m)))
    as H.
  { clear. intros n. induction n as [|n IH]; intros sched s m Hm.
    - exact Hm.
    - unfold runPeriods. rewrite Nat.iter_succ_r.
      cbn [runPeriodsAt]. apply IH. now apply timerPeriodAt_timing. }
  apply H. apply sameTiming_refl.
Qed.

End PreemptionTheory.

(** *** The same on the C12666MA *)

Lemma readSpectrometer_samples_witness :
  exists s',
    readSpectrometerAt (build := c12666ma) (fun i => (3 + i)%nat)
      (Z.to_nat (2 ^ 34)) (sampleDriver (build := c12666ma)) 0 false false
      (idleStatics (build := c12666ma) (fun _ => 1000%Z)) = Some s'
    /\ adcReads s'
       = (adcReads (idleStatics (build := c12666ma) (fun _ => 1000%Z))
          + adcBurst (build := c12666ma) * 256)%nat
    /\ forall i, (i < 256)%nat ->
         data s' !! i
         = Some (codeSum
                   (adcInput (idleStatics (build := c12666ma)
                                (fun _ => 1000%Z)))
                   (adcReads (idleStatics (build := c12666ma)
                                (fun _ => 1000%Z))
                    + adcBurst (build := c12666ma) * i)
                   (adcBurst (build := c12666ma)))
         /\ dataCounts s' !! i
            = Some (Z.of_nat (adcBurst (build := c12666ma))).
Proof.
  apply (readSpectrometer_samples (build := c12666ma));
    [intros i; exact (Nat.le_add_r 3 i)
    | simpl; lia | reflexivity | right; vm_compute; split; reflexivity
    | reflexivity | apply length_replicate | apply length_replicate
    | apply le_n].
Defined.

Lemma takeMeasurement_readings_witness :
  exists o' s',
    takeMeasurementAt (build := c12666ma) (fun i => (3 + i)%nat)
      (Z.to_nat (2 ^ 34)) 0 false
      (sampleDriver (build := c12666ma),
       idleStatics (build := c12666ma) (fun _ => 1000%Z)) = Some (o', s')
    /\ measuringData_ s' = false
    /\ blackLevels_ o' = blackLevels_ (sampleDriver (build := c12666ma))
    /\ (forall i, (i < 256)%nat ->
          data_ o' !! i
          = Some (convertReading
                    (measurementType_ (sampleDriver (build := c12666ma)))
                    (adcVoltages (adcRef_ (sampleDriver (build := c12666ma))))
                    (satVoltageOf (sampleDriver (build := c12666ma)))
                    (codeSum
                       (adcInput (idleStatics (build := c12666ma)
                                    (fun _ => 1000%Z)))
                       (adcReads (idleStatics (build := c12666ma)
                                    (fun _ => 1000%Z))
                        + adcBurst (build := c12666ma) * i)
                       (adcBurst (build := c12666ma)))
                    (Z.of_nat (adcBurst (build := c12666ma)))))
    /\ (measurementType_ (sampleDriver (build := c12666ma))
        = MEASURE_RELATIVE ->
        forall i v, data_ o' !! i = Some v -> (0 <= v <= 1)%Q).
Proof.
  apply (takeMeasurement_readings (build := c12666ma));
    [intros i; exact (Nat.le_add_r 3 i)
    | simpl; lia | reflexivity | reflexivity
    | right; vm_compute; split; reflexivity
    | reflexivity | apply length_replicate | apply length_replicate
    | apply length_replicate | apply le_n].
Defined.

Lemma black_frame_cancels_witness :
  exists d1 o2 s2,
    takeBlackMeasurementAt (build := c12666ma) (fun i => (3 + i)%nat)
      (Z.to_nat (2 ^ 34)) 0
      (sampleDriver (build := c12666ma),
       idleStatics (build := c12666ma) (fun _ => 1000%Z)) = Some d1
    /\ takeMeasurementAt (build := c12666ma) (fun _ => 3%nat)
         (Z.to_nat (2 ^ 34)) 0 false d1
       = Some (o2, s2)
    /\ (forall i, (i < 256)%nat ->
          data_ o2 !! i
          = Some (convertReading
                    (measurementType_ (sampleDriver (build := c12666ma)))
                    (adcVoltages (adcRef_ (sampleDriver (build := c12666ma))))
                    (satVoltageOf (sampleDriver (build := c12666ma)))
                    (Z.of_nat (adcBurst (build := c12666ma)) * u16 1000)
                    (Z.of_nat (adcBurst (build := c12666ma))))
          /\ blackLevels_ o2 !! i = data_ o2 !! i)
    /\ forall p, (p < 256)%nat ->
         exists r,
           getMeasurement (build := c12666ma) o2 p true = Some r
           /\ (r == 0)%Q.
Proof.
  apply (black_frame_cancels (build := c12666ma) (fun i => (3 + i)%nat)
           (fun _ => 3%nat) (Z.to_nat (2 ^ 34)) 0 0
           false 1000 (sampleDriver (build := c12666ma))
           (idleStatics (build := c12666ma) (fun _ => 1000%Z)));
    [intros i; exact (Nat.le_add_r 3 i) | intros i; apply le_n
    | simpl; lia | simpl; lia | reflexivity | reflexivity
    | vm_compute; split; reflexivity | reflexivity
    | apply length_replicate | apply length_replicate
    | apply length_replicate | apply length_replicate
    | intros r; reflexivity | apply le_n].
Defined.
(** ** Colorimetry *)

Section ColourTheory.

Import Cct.
Local Open Scope R_scope.

Lemma gauss_bounds t : 0 < exp (-0.5 * t * t) <= 1.
Proof.
  split; [apply exp_pos|].
  assert (-0.5 * t * t <= 0) as H by nra.
  destruct H as [H|H].
  - rewrite <- exp_0. left. now apply exp_increasing.
  - rewrite H, exp_0. lra.
Qed.

Lemma xFunc_1931_upper w : xFunc_1931 w <= 1.418.
Proof.
  unfold xFunc_1931. cbv zeta.
  match goal with
  | |- _ * exp (-0.5 * ?a * ?a) + _ * exp (-0.5 * ?b * ?b)
       - _ * exp (-0.5 * ?c * ?c) <= _ =>
      pose proof (gauss_bounds a); pose proof (gauss_bounds b);
      pose proof (gauss_bounds c)
  end. lra.
Qed.

Lemma xFunc_1931_at_442 : 0.297 <= xFunc_1931 442.
Proof.
  unfold xFunc_1931. cbv zeta.
  match goal with
  | |- _ <= _ * exp ?a + _ * exp (-0.5 * ?b * ?b)
            - _ * exp (-0.5 * ?c * ?c) =>
      replace a with 0
        by (match goal with |- _ = _ * (?d * _) * _ =>
              replace d with 0 by lra end; ring);
      pose proof (gauss_bounds b); pose proof (gauss_bounds c)
  end. rewrite exp_0. lra.
Qed.

Lemma yFunc_1931_bounds w : 0 < yFunc_1931 w <= 1.107.
Proof.
  unfold yFunc_1931. cbv zeta.
  match goal with
  | |- _ < _ * exp (-0.5 * ?a * ?a) + _ * exp (-0.5 * ?b * ?b) <= _ =>
      pose proof (gauss_bounds a); pose proof (gauss_bounds b)
  end. lra.
Qed.

Lemma zFunc_1931_bounds w : 0 < zFunc_1931 w <= 1.898.
Proof.
  unfold zFunc_1931. cbv zeta.
  match goal with
  | |- _ < _ * exp (-0.5 * ?a * ?a) + _ * exp (-0.5 * ?b * ?b) <= _ =>
      pose proof (gauss_bounds a); pose proof (gauss_bounds b)
  end. lra.
Qed.

Lemma accumulateXYZ_dimDevice m :
  accumulateXYZ (dimDevice m)
  = (0 + m * xFunc_1931 442 * ((443 - 442) / 2)
       + 0 * xFunc_1931 443 * ((443 - 442) / 2),
     0 + m * yFunc_1931 442 * ((443 - 442) / 2)
       + 0 * yFunc_1931 443 * ((443 - 442) / 2),
     0 + m * zFunc_1931 442 * ((443 - 442) / 2)
       + 0 * zFunc_1931 443 * ((443 - 442) / 2)).
Proof. reflexivity. Qed.

Lemma dimDevice_sum m :
  sumXYZ (accumulateXYZ (dimDevice m))
  = m / 2 * (xFunc_1931 442 + yFunc_1931 442 + zFunc_1931 442).
Proof. rewrite accumulateXYZ_dimDevice. unfold sumXYZ. cbn [fst snd]. field. Qed.

Lemma dimDevice_X m :
  fst (fst (accumulateXYZ (dimDevice m))) = m / 2 * xFunc_1931 442.
Proof. rewrite accumulateXYZ_dimDevice. cbn [fst snd]. field. Qed.

Lemma dimDevice_not_zeroed m :
  0 < m ->
  0 < sumXYZ (accumulateXYZ (dimDevice m)) < m * 3
  /\ outX (calculateColourParam (dimDevice m) (0, 0, 0)) <> 0.
Proof.
  intros Hm.
  pose proof xFunc_1931_at_442 as Hx0.
  pose proof (xFunc_1931_upper 442) as Hx1.
  pose proof (yFunc_1931_bounds 442) as Hy.
  pose proof (zFunc_1931_bounds 442) as Hz.
  pose proof (dimDevice_sum m) as Hs.
  pose proof (dimDevice_X m) as HX.
  assert (0 < sumXYZ (accumulateXYZ (dimDevice m)) < m * 3) as Hsum.
  { rewrite Hs. split; nra. }
  split; [exact Hsum|].
  unfold calculateColourParam, outX. cbn [isConnected dimDevice negb].
  destruct (accumulateXYZ (dimDevice m)) as [[X Y] Z] eqn:E.
  unfold sumXYZ in Hsum. cbn [fst snd] in Hsum, HX.
  destruct (Req_dec_T (X + Y + Z) 0) as [E0|_]; [lra|].
  cbn [fst snd].
  assert (0 < X) as HXp by (rewrite HX; nra).
  assert (0 < X / (X + Y + Z)) by (apply Rdiv_lt_0_compat; lra).
  lra.
Qed.

(** C7 (as amended). On a connected device [calculateColourParam] sets
    [x] and [y] to 0 exactly when the accumulated sum X+Y+Z is zero, and to
    [X/(X+Y+Z)] and [Y/(X+Y+Z)] for every other sum, however small; on a
    device that is not connected it leaves [CCT], [x] and [y] as they
    were. *)
Theorem chromaticity_zero_guard (spectron : SpectronDevice)
    (out : R * R * R) :
  (isConnected spectron = false -> calculateColourParam spectron out = out)
  /\ (isConnected spectron = true ->
      (sumXYZ (accumulateXYZ spectron) = 0 ->
       outX (calculateColourParam spectron out) = 0
       /\ outY (calculateColourParam spectron out) = 0)
      /\ (sumXYZ (accumulateXYZ spectron) <> 0 ->
          outX (calculateColourParam spectron out)
          = fst (fst (accumulateXYZ spectron))
            / sumXYZ (accumulateXYZ spectron)
          /\ outY (calculateColourParam spectron out)
             = snd (fst (accumulateXYZ spectron))
               / sumXYZ (accumulateXYZ spectron))).
Proof.
  unfold calculateColourParam, outX, outY, sumXYZ. split.
  - intros ->. reflexivity.
  - intros ->. cbn [negb].
    destruct (accumulateXYZ spectron) as [[X Y] Z]. cbn [fst snd].
    destruct (Req_dec_T (X + Y + Z) 0) as [E|E]; cbn [fst snd]; split;
      intros H; try contradiction; split; reflexivity.
Qed.

Lemma chromaticity_zero_guard_witness :
  (sumXYZ (accumulateXYZ (dimDevice 1)) = 0 ->
   outX (calculateColourParam (dimDevice 1) (0, 0, 0)) = 0
   /\ outY (calculateColourParam (dimDevice 1) (0, 0, 0)) = 0)
  /\ (sumXYZ (accumulateXYZ (dimDevice 1)) <> 0 ->
      outX (calculateColourParam (dimDevice 1) (0, 0, 0))
      = fst (fst (accumulateXYZ (dimDevice 1)))
        / sumXYZ (accumulateXYZ (dimDevice 1))
      /\ outY (calculateColourParam (dimDevice 1) (0, 0, 0))
         = snd (fst (accumulateXYZ (dimDevice 1)))
           / sumXYZ (accumulateXYZ (dimDevice 1))).
Proof.
  exact (proj2 (chromaticity_zero_guard (dimDevice 1) (0, 0, 0)) eq_refl).
Defined.

(** C7 (as stated) fails.  A first pixel reading [1.0e-30] gives a positive
    sum X+Y+Z below [1.0e-20], the near-zero threshold of the module, and
    [x] is not 0; and no positive threshold at all makes the claim true. *)
Lemma chromaticity_guard_is_exact_zero :
  (0 < sumXYZ (accumulateXYZ (dimDevice 1.0e-30)) < 1.0e-20
   /\ outX (calculateColourParam (dimDevice 1.0e-30) (0, 0, 0)) <> 0)
  /\ ~ (exists eps,
          0 < eps
          /\ forall spectron out,
               isConnected spectron = true ->
               sumXYZ (accumulateXYZ spectron) < eps ->
               outX (calculateColourParam spectron out) = 0
               /\ outY (calculateColourParam spectron out) = 0).
Proof.
  split.
  - destruct (dimDevice_not_zeroed 1.0e-30 ltac:(lra)) as [Hs Hx].
    split; [lra|exact Hx].
  - intros (eps & Heps & H).
    destruct (dimDevice_not_zeroed (eps / 3) ltac:(lra)) as [Hs Hx].
    apply Hx.
    apply (H (dimDevice (eps / 3)) (0, 0, 0) eq_refl). lra.
Qed.

(** *** The range of the colour temperature *)

Lemma Rltb_true x y : Rltb x y = true <-> x < y.
Proof. unfold Rltb. destruct (Rlt_dec x y); split; auto; discriminate. Qed.

Lemma Rgeb_true x y : Rgeb x y = true <-> x >= y.
Proof. unfold Rgeb. destruct (Rge_dec x y); split; auto; discriminate. Qed.

(** Where the scan of the isotherms stops. *)
Lemma isothermScan_spec fuel :
  forall i us vs dm j di dm',
    isothermScan fuel i us vs dm = Some (j, di, dm') ->
    (i <= j < i + fuel)%nat /\ (0 < j)%nat
    /\ ((di < 0 /\ dm' >= 0) \/ (di >= 0 /\ dm' < 0)).
Proof.
  induction fuel as [|fuel IH]; intros i us vs dm j di dm' H;
    [discriminate|].
  cbn [isothermScan] in H. cbv zeta in H.
  set (d := vs - v (uvtAt i) - t (uvtAt i) * (us - u (uvtAt i))) in *.
  destruct ((0 <? i)%nat
            && (Rltb d 0 && Rgeb dm 0 || Rgeb d 0 && Rltb dm 0)) eqn:E.
  - injection H as <- <- <-.
    apply andb_true_iff in E. destruct E as [E1 E2].
    apply Nat.ltb_lt in E1. split; [lia|]. split; [exact E1|].
    apply orb_true_iff in E2.
    destruct E2 as [E2|E2]; apply andb_true_iff in E2; destruct E2 as [A B].
    + left. split; [now apply Rltb_true|now apply Rgeb_true].
    + right. split; [now apply Rgeb_true|now apply Rltb_true].
  - destruct (IH _ _ _ _ _ _ _ H) as (H1 & H2 & H3).
    split; [lia|]. split; assumption.
Qed.

Lemma DBL_MIN_bounds : 0 < DBL_MIN <= 10.0e-6.
Proof.
  unfold DBL_MIN. split.
  - apply Rinv_0_lt_compat, pow_lt. lra.
  - assert (2 ^ 17 <= 2 ^ 1022) as H by (apply Rle_pow; [lra|lia]).
    assert (0 < 2 ^ 1022) as Hp by (apply pow_lt; lra).
    assert (100000 < 2 ^ 17) as H17 by (simpl; lra).
    apply (Rmult_le_reg_r (2 ^ 1022)); [exact Hp|].
    rewrite Rinv_l by lra. lra.
Qed.

(** The table of reciprocal temperatures increases. *)
Lemma rt_increasing j :
  (0 < j)%nat -> (j < 31)%nat ->
  0 < rtAt (j - 1) /\ rtAt (j - 1) <= rtAt j /\ rtAt j <= 600.0e-6.
Proof.
  intros H0 H31. pose proof DBL_MIN_bounds as HD.
  do 31 (destruct j as [|j]; [try lia; unfold rtAt, rt; cbn [nth Nat.sub];
                              repeat split; lra|]).
  lia.
Qed.

(** X15. For a denominator [X + 15 Y + 3 Z] that is not zero the correlated
    colour temperature is either 0, the value for an input off the table, or
    lies between [1 / 600.0e-6], about 1667 K, and [1 / DBL_MIN]. *)
Theorem colour_temperature_range (X Y Z : R) :
  X + 15.0 * Y + 3.0 * Z <> 0 ->
  XYZtoCorColorTemp (X, Y, Z) = 0
  \/ 1 / 600.0e-6 <= XYZtoCorColorTemp (X, Y, Z) <= 1 / DBL_MIN.
Proof.
  intros _. unfold XYZtoCorColorTemp.
  destruct (Rltb X 1.0e-20 && Rltb Y 1.0e-20 && Rltb Z 1.0e-20);
    [now left|]. cbv zeta.
  destruct (isothermScan 31 0 _ _ 0.0) as [[[j di] dm]|] eqn:E; [|now left].
  right.
  destruct (isothermScan_spec _ _ _ _ _ _ _ _ E) as (Hj & Hj0 & Hsign).
  destruct (rt_increasing j Hj0 ltac:(lia)) as (Ha & Hab & Hb).
  set (a := rtAt (j - 1)) in *. set (b := rtAt j) in *.
  assert (forall x, 0 < sqrt (1.0 + x * x)) as Hsq.
  { intros x. apply sqrt_lt_R0. nra. }
  pose proof (Hsq (t (uvtAt j))) as H1.
  pose proof (Hsq (t (uvtAt (j - 1)))) as H2.
  set (q1 := sqrt (1.0 + t (uvtAt j) * t (uvtAt j))) in *.
  set (q2 := sqrt (1.0 + t (uvtAt (j - 1)) * t (uvtAt (j - 1)))) in *.
  assert (forall x q, 0 < q -> x < 0 -> x / q < 0) as Hneg.
  { intros x q Hq Hx. unfold Rdiv.
    pose proof (Rinv_0_lt_compat q Hq). nra. }
  assert (forall x q, 0 < q -> 0 <= x -> 0 <= x / q) as Hnn.
  { intros x q Hq Hx. unfold Rdiv.
    pose proof (Rinv_0_lt_compat q Hq). nra. }
  assert (forall x y, 0 <= x -> 0 < y -> 0 <= x / (x + y) <= 1) as Hfrac.
  { intros x y Hx Hy. split.
    - apply Hnn; lra.
    - apply (Rmult_le_reg_r (x + y)); [lra|].
      unfold Rdiv. rewrite Rmult_assoc, Rinv_l by lra. lra. }
  assert (forall x y, x < 0 -> 0 <= y -> 0 <= x / (x - y) <= 1) as Hfrac'.
  { intros x y Hx Hy.
    assert ((x - y) * / (x - y) = 1) by (apply Rinv_r; lra).
    assert (/ (x - y) < 0) by (apply Rinv_lt_0_compat; lra).
    unfold Rdiv. split; nra. }
  assert (0 <= dm / q2 / (dm / q2 - di / q1) <= 1) as Hp.
  { destruct Hsign as [[Hd Hm]|[Hd Hm]].
    - pose proof (Hnn dm q2 H2 ltac:(lra)).
      pose proof (Hneg di q1 H1 Hd).
      replace (dm / q2 - di / q1) with (dm / q2 + - (di / q1)) by ring.
      apply Hfrac; lra.
    - pose proof (Hneg dm q2 H2 Hm).
      pose proof (Hnn di q1 H1 ltac:(lra)).
      apply Hfrac'; lra. }
  set (p := dm / q2 / (dm / q2 - di / q1)) in *.
  unfold LERP.
  assert (a <= (b - a) * p + a <= b) as HL by nra.
  set (l := (b - a) * p + a) in *.
  pose proof DBL_MIN_bounds as HD.
  assert (DBL_MIN <= a) as HDa.
  { subst a. clear -Hj Hj0 HD.
    do 31 (destruct j as [|j]; [try lia; unfold rtAt, rt; cbn [nth Nat.sub];
                                lra|]).
    lia. }
  replace (1.0 / l) with (/ l) by (unfold Rdiv; lra).
  replace (1 / 600.0e-6) with (/ 600.0e-6) by (unfold Rdiv; lra).
  replace (1 / DBL_MIN) with (/ DBL_MIN) by (unfold Rdiv; lra).
  split; apply Rinv_le_contravar; lra.
Qed.

Lemma colour_temperature_range_witness :
  XYZtoCorColorTemp (1, 1, 1) = 0
  \/ 1 / 600.0e-6 <= XYZtoCorColorTemp (1, 1, 1) <= 1 / DBL_MIN.
Proof. apply (colour_temperature_range 1 1 1). lra. Defined.

(** *** Intensity and dark spectra *)

Lemma accumulateXYZ_dark spectron :
  (forall i, (i < totalPixels spectron)%nat ->
             getLastMeasurement spectron i = 0) ->
  accumulateXYZ spectron = (0, 0, 0).
Proof.
  intros Hd. unfold accumulateXYZ, for_range.
  match goal with
  | |- for_loop ?n ?i ?stop ?st ?f ?a0 = _ =>
      apply (for_loop_related (fun a (_ : unit) => a = (0, 0, 0))
               f (fun _ u => u) stop st) with (b := tt)
  end.
  - intros i a _ Hi ->. rewrite (Hd i Hi). f_equal; [f_equal|]; ring.
  - reflexivity.
Qed.

(** X17. A connected device whose readings are all zero, or which has no
    pixels, gets [CCT], [x] and [y] all set to 0. *)
Theorem dark_spectrum_reads_zero (spectron : SpectronDevice)
    (out : R * R * R) :
  isConnected spectron = true ->
  (forall i, (i < totalPixels spectron)%nat ->
             getLastMeasurement spectron i = 0) ->
  calculateColourParam spectron out = (0, 0, 0).
Proof.
  intros Hc Hd. unfold calculateColourParam. rewrite Hc. cbn [negb].
  rewrite (accumulateXYZ_dark _ Hd).
  destruct (Req_dec_T (0 + 0 + 0) 0) as [_|E]; [|exfalso; apply E; lra].
  unfold XYZtoCorColorTemp.
  assert (Rltb 0 1.0e-20 = true) as ->.
  { unfold Rltb. destruct (Rlt_dec 0 1.0e-20) as [|n]; [reflexivity|].
    exfalso. apply n. lra. }
  reflexivity.
Qed.

Lemma dark_spectrum_reads_zero_witness :
  calculateColourParam (dimDevice 0) (1, 1, 1) = (0, 0, 0).
Proof.
  apply (dark_spectrum_reads_zero (dimDevice 0) (1, 1, 1));
    [reflexivity | intros [|i] _; reflexivity].
Defined.

End ColourTheory.
